(** * Election results aggregation: key normalisers and results index

    A shallow embedding of the aggregation code of the three map
    generators of the repository,

      - [generate_map.py]  ([norm_digits], [norm_bureau3],
        [build_results_index], the poste key of [main], and the embedded
        JavaScript helper [getWinnerInfo]),
      - [genmap3.py]       ([normalize_str], [build_results_index]),
      - [v1-1/gen_mairie.py] ([load_results]),

    together with the part of Python and pandas they rest on.

    Conventions of the model.
      - A Python [str] is a [string] of bytes, those of its UTF-8 form.
        The classes of Python that depend on the script ([\d] and [\D] of
        [re], the blanks of [strip], the digits of [int] and [float],
        upper-casing) are modelled on ASCII text; the statements that
        rest on them say so with [ascii_text], or speak of texts that
        hold a given ASCII character.
      - A column of integers is an [int64] array: its sum wraps around.
      - A Python [float] is [pyfloat]: a rational for a finite value, the two
        infinities and NaN.  Arithmetic on finite values is exact, where the
        machine rounds to the nearest double; counts and the quotients of the
        examples below are represented exactly by both.
      - An exception is a value [Raise e] of the [result] monad.
      - The table read by [pd.read_csv] is the input: a list of rows of
        cells, with a flag for each optional column. *)

From Stdlib Require Import ZArith QArith Qabs Qround String Ascii List Lia.
From Stdlib Require Import DecimalString Permutation Sorted.
From stdpp Require Import gmap strings list fin_maps.

Open Scope string_scope.
Open Scope Z_scope.

(** ** Python and pandas primitives *)

Module Py.

(** *** Exceptions *)

Inductive exn : Set :=
| ValueError
| TypeError
| OverflowError
| IndexError
| IntCastingNaNError.

Inductive result (A : Type) : Type :=
| Ok (a : A)
| Raise (e : exn).

Arguments Ok {A} a.
Arguments Raise {A} e.

Global Instance result_ret : MRet result := fun A a => Ok a.

Global Instance result_bind : MBind result := fun A B k m =>
  match m with
  | Ok a => k a
  | Raise e => Raise e
  end.

(** A loop body run over a list, stopping at the first exception. *)
Fixpoint mapM {A B : Type} (f : A -> result B) (l : list A) : result (list B) :=
  match l with
  | [] => Ok []
  | x :: l' => y ← f x; ys ← mapM f l'; Ok (y :: ys)
  end.

Fixpoint foldM {A S : Type} (f : S -> A -> result S) (l : list A) (s : S)
  : result S :=
  match l with
  | [] => Ok s
  | x :: l' => s' ← f s x; foldM f l' s'
  end.

Definition is_ok {A : Type} (m : result A) : bool :=
  match m with Ok _ => true | Raise _ => false end.

(** *** Strings *)

Definition is_digit (c : ascii) : bool :=
  ((48 <=? nat_of_ascii c)%nat && (nat_of_ascii c <=? 57)%nat)%bool.

(** Python's [str.isspace] on ASCII: tab to carriage return, the four
    separators 28..31, and the space. *)
Definition is_space (c : ascii) : bool :=
  let n := nat_of_ascii c in
  (((9 <=? n)%nat && (n <=? 13)%nat) || ((28 <=? n)%nat && (n <=? 32)%nat))%bool.

Fixpoint string_forallb (p : ascii -> bool) (s : string) : bool :=
  match s with
  | EmptyString => true
  | String c s' => (p c && string_forallb p s')%bool
  end.

Fixpoint string_existsb (p : ascii -> bool) (s : string) : bool :=
  match s with
  | EmptyString => false
  | String c s' => (p c || string_existsb p s')%bool
  end.

(** The text is ASCII: every byte is below 128.  On such text the classes
    [\d] and [\D] of [re], [str.strip], [int] and [float] see the ten digits
    and the blanks of [is_space] only; a digit or a blank of another script
    takes several bytes, all of them above 127. *)
Definition ascii_text (s : string) : bool :=
  string_forallb (fun c => (nat_of_ascii c <? 128)%nat) s.

(** A visible ASCII character. *)
Definition is_printable (c : ascii) : bool :=
  ((33 <=? nat_of_ascii c)%nat && (nat_of_ascii c <=? 126)%nat)%bool.

(** The characters that the spelling of a number is made of, for [int],
    [float], [pd.to_numeric] and [parseFloat] alike: the digits, the signs,
    the point, the underscore, and the letters of the exponent and of
    [inf], [infinity] and [nan] in either case. *)
Definition is_number_char (c : ascii) : bool :=
  (is_digit c || string_existsb (Ascii.eqb c) "+-._eEiInNfFtTyYaA")%bool.

(** The characters of the spelling of an integer for [int]. *)
Definition is_integer_char (c : ascii) : bool :=
  (is_digit c || string_existsb (Ascii.eqb c) "+-_")%bool.

(** The text holds no digit. *)
Definition no_digit_text (s : string) : bool :=
  string_forallb (fun c => negb (is_digit c)) s.

(** The text holds a visible character that no spelling of a number has. *)
Definition no_number_text (s : string) : bool :=
  string_existsb (fun c => (is_printable c && negb (is_number_char c))%bool) s.

(** The text holds a visible character that no spelling of an integer has. *)
Definition no_integer_text (s : string) : bool :=
  string_existsb (fun c => (is_printable c && negb (is_integer_char c))%bool) s.

(** A plain decimal: digits, signs and points only, and few enough of them
    for the value to be far from the limits of a double. *)
Definition plain_text (s : string) : bool :=
  ((String.length s <=? 15)%nat
   && string_forallb
        (fun c => (is_digit c || Ascii.eqb c "+" || Ascii.eqb c "-"
                   || Ascii.eqb c ".")%bool) s)%bool.

(** [re.sub(r'\D+', '', s)]: every run of non-digits is deleted.  [\D] is
    the complement of [\d]; on the ASCII text of the model ([ascii_text])
    [\d] is the ten digits. *)
Fixpoint re_sub_nondigits (s : string) : string :=
  match s with
  | EmptyString => EmptyString
  | String c s' =>
      if is_digit c then String c (re_sub_nondigits s') else re_sub_nondigits s'
  end.

(** [s.lstrip(ch)] for a one-character set. *)
Fixpoint lstrip_char (ch : ascii) (s : string) : string :=
  match s with
  | EmptyString => EmptyString
  | String c s' => if Ascii.eqb c ch then lstrip_char ch s' else s
  end.

Fixpoint lstrip_by (blank : ascii -> bool) (s : string) : string :=
  match s with
  | EmptyString => EmptyString
  | String c s' => if blank c then lstrip_by blank s' else s
  end.

Definition strip_by (blank : ascii -> bool) (s : string) : string :=
  String.rev (lstrip_by blank (String.rev (lstrip_by blank s))).

(** [s.lstrip()] and [s.strip()] *)
Definition lstrip (s : string) : string := lstrip_by is_space s.

Definition strip (s : string) : string := strip_by is_space s.

(** JavaScript's white space on ASCII, for [trim] and [parseFloat]. *)
Definition js_is_space (c : ascii) : bool :=
  let n := nat_of_ascii c in
  (((9 <=? n)%nat && (n <=? 13)%nat) || (n =? 32)%nat)%bool.

Definition js_trim (s : string) : string := strip_by js_is_space s.

(** [s[-n:]] *)
Definition last_n (n : nat) (s : string) : string :=
  substring (String.length s - n) n s.

Fixpoint zeros (n : nat) : string :=
  match n with
  | O => EmptyString
  | S k => String "0" (zeros k)
  end.

(** [s.zfill(width)]: zeros on the left, after a leading sign.  pandas'
    [Series.str.zfill] applies it to every cell. *)
Definition zfill (width : nat) (s : string) : string :=
  let pad := zeros (width - String.length s) in
  match s with
  | EmptyString => pad
  | String c s' =>
      if (Ascii.eqb c "+" || Ascii.eqb c "-")%bool
      then String c (pad ++ s')
      else pad ++ s
  end.

(** [s.replace(",", ".")] *)
Fixpoint replace_comma_dot (s : string) : string :=
  match s with
  | EmptyString => EmptyString
  | String c s' =>
      String (if Ascii.eqb c "," then "."%char else c) (replace_comma_dot s')
  end.

(** [s.replace(BOM, "")], BOM being U+FEFF, on UTF-8 text: the byte order mark is the three
    bytes EF BB BF. *)
Fixpoint remove_bom (s : string) : string :=
  match s with
  | String a (String b (String c s' as t1) as t2) =>
      if (Ascii.eqb a (ascii_of_nat 239) && Ascii.eqb b (ascii_of_nat 187)
          && Ascii.eqb c (ascii_of_nat 191))%bool
      then remove_bom s'
      else String a (remove_bom t2)
  | String a s' => String a (remove_bom s')
  | EmptyString => EmptyString
  end.

(** [s.replace("\xa0", " ")] on UTF-8 text: the no-break space is C2 A0. *)
Fixpoint nbsp_to_space (s : string) : string :=
  match s with
  | String a (String b s' as t) =>
      if (Ascii.eqb a (ascii_of_nat 194) && Ascii.eqb b (ascii_of_nat 160))%bool
      then String " " (nbsp_to_space s')
      else String a (nbsp_to_space t)
  | String a s' => String a (nbsp_to_space s')
  | EmptyString => EmptyString
  end.

(** [unicodedata.normalize("NFC", s)]: composition of combining sequences.
    ASCII text, and text that is already composed, is left as it is; the
    model takes its text in that form. *)
Definition unicodedata_normalize_NFC (s : string) : string := s.

Definition upper_ascii (c : ascii) : ascii :=
  let n := nat_of_ascii c in
  if ((97 <=? n)%nat && (n <=? 122)%nat)%bool then ascii_of_nat (n - 32) else c.

Fixpoint to_upper (s : string) : string :=
  match s with
  | EmptyString => EmptyString
  | String c s' => String (upper_ascii c) (to_upper s')
  end.

(** [str(z)] for an integer. *)
Definition str_int (z : Z) : string := NilZero.string_of_int (Z.to_int z).

Definition digit_char (d : Z) : ascii := ascii_of_nat (48 + Z.to_nat d).

Definition digit_val (c : ascii) : Z := Z.of_nat (nat_of_ascii c - 48).

(** *** Floats *)

Inductive pyfloat : Type :=
| Finite (q : Q)
| PosInf
| NegInf
| NaN.

Definition float_of_int (z : Z) : pyfloat := Finite (inject_Z z).

Definition float_isnan (x : pyfloat) : bool :=
  match x with NaN => true | _ => false end.

(** [x <= y]; every comparison with NaN is false. *)
Definition float_leb (x y : pyfloat) : bool :=
  match x, y with
  | NaN, _ | _, NaN => false
  | NegInf, _ => true
  | _, PosInf => true
  | Finite a, Finite b => Qle_bool a b
  | _, _ => false
  end.

Definition float_ltb (x y : pyfloat) : bool :=
  (float_leb x y && negb (float_leb y x))%bool.

Definition float_eqb (x y : pyfloat) : bool :=
  (float_leb x y && float_leb y x)%bool.

(** Truncation toward zero. *)
Definition trunc (q : Q) : Z :=
  if Qle_bool 0 q then Qfloor q else Qceiling q.

(** [int(x)] *)
Definition int_of_float (x : pyfloat) : result Z :=
  match x with
  | Finite q => Ok (trunc q)
  | PosInf | NegInf => Raise OverflowError
  | NaN => Raise ValueError
  end.

(** [x.is_integer()] *)
Definition float_is_integer (x : pyfloat) : bool :=
  match x with
  | Finite q => Qeq_bool q (inject_Z (Qfloor q))
  | _ => false
  end.

(** The decimal digits of [r / d], for [0 <= r < d], until the remainder
    vanishes; at most [n] of them. *)
Fixpoint frac_digits (n : nat) (r d : Z) : string :=
  match n with
  | O => EmptyString
  | S n' =>
      if r =? 0 then EmptyString
      else String (digit_char (r * 10 / d)) (frac_digits n' (r * 10 mod d) d)
  end.

(** The plain decimal form of a finite value: the integer part, a point and
    the fraction.  This is [str(x)] of Python and [String(x)] of JavaScript
    for a double whose shortest decimal form has at most 17 digits after the
    point and no exponent. *)
Definition decimal_form (q : Q) (integral_suffix : string) : string :=
  let n := Qnum q in
  let d := Z.pos (Qden q) in
  let a := Z.abs n in
  (if n <? 0 then "-" else "") ++ str_int (a / d)
  ++ (if a mod d =? 0 then integral_suffix
      else "." ++ frac_digits 17 (a mod d) d).

(** [str(x)] *)
Definition str_float (x : pyfloat) : string :=
  match x with
  | Finite q => decimal_form q ".0"
  | PosInf => "inf"
  | NegInf => "-inf"
  | NaN => "nan"
  end.

(** [10 ^ n] as a rational, for either sign of [n]. *)
Definition pow10 (n : Z) : Q :=
  if 0 <=? n then inject_Z (10 ^ n) else Qmake 1 (Z.to_pos (10 ^ (- n))).

(** The exponent form of JavaScript for a value other than zero: the first
    digit, the others after a point, [e], the sign of the exponent and the
    exponent. *)
Definition js_exponent_form (q : Q) : string :=
  let a := Qabs q in
  let n :=
    if Qle_bool 1 a
    then Z.of_nat (String.length (str_int (Qfloor a))) - 1
    else - Z.of_nat (String.length
                       (str_int ((Z.pos (Qden a) - 1) / Qnum a))) in
  (if Qnum q <? 0 then "-" else "")
  ++ decimal_form (Qred (a * pow10 (- n))) ""
  ++ "e" ++ (if 0 <=? n then "+" else "-") ++ str_int (Z.abs n).

(** The values that JavaScript prints without an exponent: zero, and those
    from [1e-6] up to [1e21], the latter left out. *)
Definition js_plain_range (q : Q) : bool :=
  (Qeq_bool q 0
   || (Qle_bool (pow10 (-6)) (Qabs q)
       && negb (Qle_bool (pow10 21) (Qabs q))))%bool.

(** JavaScript's [String(x)] of a number. *)
Definition js_String (x : pyfloat) : string :=
  match x with
  | Finite q => if js_plain_range q then decimal_form q ""
                else js_exponent_form q
  | PosInf => "Infinity"
  | NegInf => "-Infinity"
  | NaN => "NaN"
  end.

(** [max] of a float column with [skipna]: NaN cells are passed over, and
    the result is NaN when every cell is. *)
Definition float_max_skipna (x y : pyfloat) : pyfloat :=
  match x, y with
  | NaN, _ => y
  | _, NaN => x
  | _, _ => if float_leb x y then y else x
  end.

Definition column_max (l : list pyfloat) : pyfloat :=
  foldr float_max_skipna NaN l.

(** [x / y] for the only shape the code divides in: a finite value by a
    positive one. *)
Definition float_div (x y : pyfloat) : pyfloat :=
  match x, y with
  | Finite a, Finite b => if Qeq_bool b 0 then NaN else Finite (Qred (a / b))
  | Finite _, PosInf | Finite _, NegInf => Finite 0
  | _, _ => NaN
  end.

(** Rounding to the nearest integer, ties to the even one. *)
Definition round_half_even (q : Q) : Z :=
  let f := Qfloor q in
  let r := (q - inject_Z f)%Q in
  match (r ?= 1 # 2)%Q with
  | Lt => f
  | Gt => f + 1
  | Eq => if Z.even f then f else f + 1
  end.

(** [round(q, 2)] *)
Definition round2 (q : Q) : Q :=
  Qred (inject_Z (round_half_even (q * 100)) / 100).

(** *** Reading numbers *)

Fixpoint scan_digits (s : string) (acc : Z) (n : nat) : Z * nat * string :=
  match s with
  | EmptyString => (acc, n, s)
  | String c s' =>
      if is_digit c then scan_digits s' (acc * 10 + digit_val c) (S n)
      else (acc, n, s)
  end.

Definition scan_sign (s : string) : bool * string :=
  match s with
  | String "-" t => (true, t)
  | String "+" t => (false, t)
  | _ => (false, s)
  end.

(** Digits in groups joined by single underscores, as [int] and [float] of
    Python read them. *)
Fixpoint scan_digitpart (s : string) (acc : Z) (n : nat) : Z * nat * string :=
  match s with
  | EmptyString => (acc, n, s)
  | String c s' =>
      if is_digit c then scan_digitpart s' (acc * 10 + digit_val c) (S n)
      else if (Ascii.eqb c "_" && (0 <? n)%nat)%bool then
        match s' with
        | String d _ => if is_digit d then scan_digitpart s' acc n else (acc, n, s)
        | EmptyString => (acc, n, s)
        end
      else (acc, n, s)
  end.

(** A plain decimal literal at the head of [s]: an optional sign, digits,
    and an optional point with digits; at least one digit in all.  The
    result is its value and the text after it. *)
Definition scan_decimal (s : string) : option (Q * string) :=
  let '(neg, s1) := scan_sign s in
  let '(ip, ni, s2) := scan_digits s1 0 0 in
  let '(fp, nf, s3) :=
    match s2 with
    | String "." t => scan_digits t 0 0
    | _ => (0, O, s2)
    end in
  if ((ni =? 0)%nat && (nf =? 0)%nat)%bool then None
  else
    let m := ip * 10 ^ Z.of_nat nf + fp in
    let q := Qred (Qmake (if neg then - m else m) (Z.to_pos (10 ^ Z.of_nat nf))) in
    Some (q, s3).

(** The value of a text that is one plain decimal literal. *)
Definition decimal_value (s : string) : option Q :=
  match scan_decimal s with
  | Some (q, EmptyString) => Some q
  | _ => None
  end.

(** An exponent at the head of [s]: [e] or [E], an optional sign and
    digits.  Without digits there is no exponent, and the text stays as it
    is. *)
Definition scan_exponent (digits : string -> Z -> nat -> Z * nat * string)
    (s : string) : Z * string :=
  match s with
  | String c t =>
      if (Ascii.eqb c "e" || Ascii.eqb c "E")%bool then
        let '(neg, t1) := scan_sign t in
        match digits t1 0 0%nat with
        | (e, S _, t2) => (if neg then - e else e, t2)
        | _ => (0, s)
        end
      else (0, s)
  | EmptyString => (0, s)
  end.

(** [m * 10 ^ e] *)
Definition scale10 (m e : Z) : Q :=
  if 0 <=? e then inject_Z (m * 10 ^ e)
  else Qred (Qmake m (Z.to_pos (10 ^ (- e)))).

(** An unsigned literal with an optional exponent at the head of [s];
    [digits] reads a run of digits. *)
Definition scan_number (digits : string -> Z -> nat -> Z * nat * string)
    (s : string) : option (Q * string) :=
  let '(ip, ni, s2) := digits s 0 0%nat in
  let '(fp, nf, s3) :=
    match s2 with
    | String "." t => digits t 0 0%nat
    | _ => (0, O, s2)
    end in
  if ((ni =? 0)%nat && (nf =? 0)%nat)%bool then None
  else
    let '(e, s4) := scan_exponent digits s3 in
    Some (scale10 (ip * 10 ^ Z.of_nat nf + fp) (e - Z.of_nat nf), s4).

(** A value read from text, as a double: from the largest double on it is
    an infinity, up to half the smallest one it is zero; in between the
    model keeps the value where the machine rounds it. *)
Definition double_limit : Q := inject_Z (2 ^ 1024 - 2 ^ 970).

Definition to_double (q : Q) : pyfloat :=
  if Qle_bool double_limit q then PosInf
  else if Qle_bool q (- double_limit) then NegInf
  else if Qle_bool (Qabs q) (Qmake 1 (Z.to_pos (2 ^ 1075))) then Finite 0
  else Finite q.

Definition lower_ascii (c : ascii) : ascii :=
  let n := nat_of_ascii c in
  if ((65 <=? n)%nat && (n <=? 90)%nat)%bool then ascii_of_nat (n + 32) else c.

Fixpoint to_lower (s : string) : string :=
  match s with
  | EmptyString => EmptyString
  | String c s' => String (lower_ascii c) (to_lower s')
  end.

(** [float(s)] of Python: the whole text, blanks stripped, is one literal,
    which is a sign and then [inf], [infinity] or [nan] in any case, or
    digits with an optional point and an optional exponent, the digits in
    groups joined by underscores.  The first two tests settle the texts that
    hold a character of no number, and the plain decimals. *)
Definition float_of_string (s : string) : option pyfloat :=
  if no_number_text s then None
  else if plain_text s then
    match decimal_value s with
    | Some q => Some (Finite q)
    | None => None
    end
  else
    let '(neg, t) := scan_sign (strip s) in
    let name := to_lower t in
    if (String.eqb name "inf" || String.eqb name "infinity")%bool
    then Some (if neg then NegInf else PosInf)
    else if String.eqb name "nan" then Some NaN
    else
      match scan_number scan_digitpart t with
      | Some (q, EmptyString) => Some (to_double (if neg then - q else q)%Q)
      | _ => None
      end.

(** [int(s)] of Python: blanks stripped, a sign and digits in groups joined
    by underscores. *)
Definition int_of_string (s : string) : option Z :=
  if no_integer_text s then None
  else
    let '(neg, s1) := scan_sign (strip s) in
    match scan_digitpart s1 0 0 with
    | (m, S _, EmptyString) => Some (if neg then - m else m)
    | _ => None
    end.

(** The blanks of C's [isspace], which the parser of pandas skips. *)
Definition c_is_space (c : ascii) : bool :=
  let n := nat_of_ascii c in
  (((9 <=? n)%nat && (n <=? 13)%nat) || (n =? 32)%nat)%bool.

(** One text under [pd.to_numeric(..., errors="coerce")].  The parser of
    pandas skips blanks on both sides and reads a sign, digits without
    underscores, an optional point and an optional exponent; a value beyond
    the doubles is an error to it.  What it does not read is then compared,
    whatever the case, with the six spellings of the infinities, and
    becomes NaN when it is none of them. *)
Definition to_numeric_str (s : string) : pyfloat :=
  if no_number_text s then NaN
  else if plain_text s then
    match decimal_value s with
    | Some q => Finite q
    | None => NaN
    end
  else
    let name := to_lower s in
    let special :=
      if (String.eqb name "inf" || String.eqb name "+inf"
          || String.eqb name "infinity" || String.eqb name "+infinity")%bool
      then PosInf
      else if (String.eqb name "-inf" || String.eqb name "-infinity")%bool
      then NegInf
      else NaN in
    let '(neg, t) := scan_sign (lstrip_by c_is_space s) in
    match scan_number scan_digits t with
    | Some (q, rest) =>
        match lstrip_by c_is_space rest with
        | EmptyString =>
            match to_double (if neg then - q else q)%Q with
            | Finite x => Finite x
            | _ => special
            end
        | _ => special
        end
    | None => special
    end.

Fixpoint is_prefix (p s : string) : bool :=
  match p, s with
  | EmptyString, _ => true
  | String a p', String b s' => (Ascii.eqb a b && is_prefix p' s')%bool
  | String _ _, EmptyString => false
  end.

(** [parseFloat(s)] of JavaScript: after leading blanks, a sign and then
    [Infinity] or the longest literal with its exponent; NaN when there is
    neither. *)
Definition js_parseFloat (s : string) : pyfloat :=
  let '(neg, t) := scan_sign (lstrip_by js_is_space s) in
  if is_prefix "Infinity" t then (if neg then NegInf else PosInf)
  else
    match scan_number scan_digits t with
    | Some (q, _) => to_double (if neg then - q else q)%Q
    | None => NaN
    end.

(** *** Cells *)

(** What a cell of the table, or any Python value handed to a normaliser,
    can be: [None], pandas' [NA], text, an integer or a float. *)
Inductive pyval : Type :=
| VNone
| VNA
| VStr (s : string)
| VInt (z : Z)
| VFloat (x : pyfloat).

(** [str(v)] *)
Definition py_str (v : pyval) : string :=
  match v with
  | VNone => "None"
  | VNA => "<NA>"
  | VStr s => s
  | VInt z => str_int z
  | VFloat x => str_float x
  end.

(** [pd.isna(v)] *)
Definition pd_isna (v : pyval) : bool :=
  match v with
  | VNone | VNA | VFloat NaN => true
  | _ => false
  end.

(** [int(v)] *)
Definition py_int (v : pyval) : result Z :=
  match v with
  | VInt z => Ok z
  | VFloat x => int_of_float x
  | VStr s =>
      match int_of_string s with
      | Some z => Ok z
      | None => Raise ValueError
      end
  | VNone | VNA => Raise TypeError
  end.

(** One cell under [pd.to_numeric(..., errors="coerce")]: what does not read
    as a number becomes NaN. *)
Definition to_numeric_coerce (v : pyval) : pyfloat :=
  match v with
  | VInt z => float_of_int z
  | VFloat x => x
  | VStr s => to_numeric_str s
  | VNone | VNA => NaN
  end.

(** [.fillna(0)] on one cell. *)
Definition fillna0 (x : pyfloat) : pyfloat :=
  match x with
  | NaN => Finite 0
  | _ => x
  end.

(** A 64-bit signed integer: the value is kept modulo [2 ^ 64], in the
    range from [- 2 ^ 63] up to [2 ^ 63 - 1]. *)
Definition wrap64 (z : Z) : Z := (z + 2 ^ 63) mod 2 ^ 64 - 2 ^ 63.

(** [+] on two cells of a column, as [sum] adds them.  A column of
    integers is an [int64] array, whose sum wraps around; floats are added
    as floats; in a column of text [+] joins the texts. *)
Definition py_add (a b : pyval) : result pyval :=
  match a, b with
  | VInt x, VInt y => Ok (VInt (wrap64 (x + y)))
  | VInt x, VFloat (Finite y) => Ok (VFloat (Finite (Qred (inject_Z x + y))))
  | VFloat (Finite x), VInt y => Ok (VFloat (Finite (Qred (x + inject_Z y))))
  | VFloat (Finite x), VFloat (Finite y) => Ok (VFloat (Finite (Qred (x + y))))
  | VFloat PosInf, VFloat NegInf | VFloat NegInf, VFloat PosInf => Ok (VFloat NaN)
  | VFloat PosInf, (VInt _ | VFloat _) | (VInt _ | VFloat _), VFloat PosInf =>
      Ok (VFloat PosInf)
  | VFloat NegInf, (VInt _ | VFloat _) | (VInt _ | VFloat _), VFloat NegInf =>
      Ok (VFloat NegInf)
  | VStr x, VStr y => Ok (VStr (x ++ y))
  | _, _ => Raise TypeError
  end.

(** [column.sum()]: missing cells count for 0 ([skipna]), the others are
    added from left to right with [+]; text is concatenated by it. *)
Definition nan_to_zero (v : pyval) : pyval :=
  if pd_isna v then VInt 0 else v.

Definition column_sum (l : list pyval) : result pyval :=
  match map nan_to_zero l with
  | [] => Ok (VInt 0)
  | v :: l' => foldM py_add l' v
  end.

(** *** Sorting and grouping *)

Fixpoint insert_by {A : Type} (before : A -> A -> bool) (x : A) (l : list A)
  : list A :=
  match l with
  | [] => [x]
  | y :: l' => if before x y then x :: l else y :: insert_by before x l'
  end.

(** A stable sort: [before x y] says that [x], met earlier than [y], stays
    in front of it.  Stability fixes the result of a sort, so this is
    [list.sort] of Python and [Array.prototype.sort] of JavaScript. *)
Definition stable_sort {A : Type} (before : A -> A -> bool) (l : list A)
  : list A :=
  foldr (insert_by before) [] l.

(** Descending order of an integer key: [key y <= key x]. *)
Definition desc_int {A : Type} (key : A -> Z) (x y : A) : bool :=
  key y <=? key x.

(** Descending order of a float key. *)
Definition desc_float {A : Type} (key : A -> pyfloat) (x y : A) : bool :=
  float_leb (key y) (key x).

(** The first row of each key, in order of appearance. *)
Fixpoint first_occurrences {A : Type} (same : A -> A -> bool) (l : list A)
  : list A :=
  match l with
  | [] => []
  | x :: l' =>
      x :: List.filter (fun y => negb (same x y)) (first_occurrences same l')
  end.

(** [df.groupby(...)]: one group for each key, holding the rows of that key
    in the order of the table.  pandas goes through the groups in key order;
    the groups only feed a dictionary, so the model takes them in order of
    first appearance. *)
Definition groupby {A : Type} (same : A -> A -> bool) (l : list A)
  : list (list A) :=
  map (fun x => List.filter (same x) l) (first_occurrences same l).

(** [DataFrame.sort_values(col, ascending=False)] as the scripts call it,
    without [kind]: pandas then sorts with [kind="quicksort"], of which its
    documentation says that only [mergesort] and [stable] are stable
    algorithms.  What the call promises is a permutation of the rows in
    descending order of the column; which of several rows of equal value
    comes first is left to the library, and differs between its builds.  The
    sort is therefore a parameter of the model, and [conforming] is what
    pandas promises of it. *)
Definition sorter : Type := forall A : Type, (A -> pyfloat) -> list A -> list A.

Record conforming (sort_values : sorter) : Prop := {
  sort_values_perm :
    forall (A : Type) (key : A -> pyfloat) (l : list A),
      Permutation (sort_values A key l) l;
  sort_values_sorted :
    forall (A : Type) (key : A -> pyfloat) (l : list A),
      Forall (fun x => float_isnan (key x) = false) l ->
      StronglySorted (fun a b => float_leb (key b) (key a) = true)
        (sort_values A key l)
}.

(** The sort of [kind="stable"]. *)
Definition stable_sorter : sorter :=
  fun A key l => stable_sort (desc_float key) l.

End Py.

(** ** generate_map.py *)

Module GenerateMap.
Import Py.

(** [norm_digits]: the digits of [str(x)], without leading zeros. *)
Definition norm_digits (x : pyval) : string :=
  lstrip_char "0" (re_sub_nondigits (py_str x)).

(** [norm_bureau3]: the last three digits of [str(x)], padded with zeros
    on the left. *)
Definition norm_bureau3 (x : pyval) : string :=
  let s := re_sub_nondigits (py_str x) in
  zfill 3 (if String.eqb s "" then "" else last_n 3 s).

(** A row of the table as [pd.read_csv] delivers it.  [Poste] is read with
    [dtype=float].  A table without a [Parti] column is one whose [Parti]
    cells are all the empty text, the default of [r.get("Parti", "")]. *)
Record Row : Type := {
  DistrictID : pyval;
  Bureau : pyval;
  Poste : pyfloat;
  Votes : pyval;
  Candidat : pyval;
  Parti : pyval;
  TotalValidVotes : pyval;
  TotalRejectedVotes : pyval;
  TotalVotes : pyval
}.

(** The table: its rows, and whether each optional column is there
    (["TotalValidVotes" in g]); the cells of an absent column are not read. *)
Record DataFrame : Type := {
  has_TotalValidVotes : bool;
  has_TotalRejectedVotes : bool;
  has_TotalVotes : bool;
  df_rows : list Row
}.

(** A row with the two columns [DistrictID_norm] and [Bureau_norm] added. *)
Record NRow : Type := {
  row : Row;
  DistrictID_norm : string;
  Bureau_norm : string
}.

Definition add_norm_columns (r : Row) : NRow :=
  {| row := r;
     DistrictID_norm := norm_digits (DistrictID r);
     Bureau_norm := norm_bureau3 (Bureau r) |}.

(** Equality of two postes as keys: by value, NaN with NaN
    ([dropna=False], and [isin]). *)
Definition poste_same (p1 p2 : pyfloat) : bool :=
  (float_eqb p1 p2 || (float_isnan p1 && float_isnan p2))%bool.

Definition same_key (r1 r2 : NRow) : bool :=
  (String.eqb (DistrictID_norm r1) (DistrictID_norm r2)
   && String.eqb (Bureau_norm r1) (Bureau_norm r2)
   && poste_same (Poste (row r1)) (Poste (row r2)))%bool.

(** [if only_poste: df = df[df["Poste"].isin(only_poste)]] *)
Definition filter_postes (only_poste : option (list pyfloat)) (l : list NRow)
  : list NRow :=
  match only_poste with
  | Some (_ :: _ as ps) =>
      List.filter (fun r => existsb (poste_same (Poste (row r))) ps) l
  | _ => l
  end.

(** One element of [rows]. *)
Record Entry : Type := {
  nom : string;
  parti : string;
  votes : Z;
  pct : Q
}.

(** The record stored for one (district, bureau, poste). *)
Record PosteInfo : Type := {
  total_valid : Z;
  rejected : Z;
  total : Z;
  rows : list Entry
}.

(** [g[col].iloc[0]] *)
Definition iloc0 (col : Row -> pyval) (g : list NRow) : result pyval :=
  match g with
  | r :: _ => Ok (col (row r))
  | [] => Raise IndexError
  end.

(** The three totals of a group, each taken from its column when the column
    is there and made up otherwise. *)
Definition group_total_valid (df : DataFrame) (g : list NRow) : result Z :=
  if has_TotalValidVotes df
  then v ← iloc0 TotalValidVotes g; py_int v
  else v ← column_sum (map (fun r => Votes (row r)) g); py_int v.

Definition group_rejected (df : DataFrame) (g : list NRow) : result Z :=
  if has_TotalRejectedVotes df
  then v ← iloc0 TotalRejectedVotes g; py_int v
  else Ok 0.

Definition group_total (df : DataFrame) (g : list NRow)
    (total_valid rejected : Z) : result Z :=
  if has_TotalVotes df
  then v ← iloc0 TotalVotes g; py_int v
  else Ok (total_valid + rejected).

(** [str(v) if pd.notna(v) else ""] *)
Definition str_or_empty (v : pyval) : string :=
  if pd_isna v then "" else py_str v.

(** The body of the loop over the rows of a group. *)
Definition make_entry (total_valid : Z) (r : NRow) : result Entry :=
  votes ← py_int (Votes (row r));
  let pct :=
    if 0 <? total_valid
    then (inject_Z (100 * votes) / inject_Z total_valid)%Q
    else 0%Q in
  Ok {| nom := str_or_empty (Candidat (row r));
        parti := str_or_empty (Parti (row r));
        votes := votes;
        pct := round2 pct |}.

(** [pkey = str(int(p)) if float(p).is_integer() else str(p)] *)
Definition poste_key (p : pyfloat) : result string :=
  if float_is_integer p
  then n ← int_of_float p; Ok (str_int n)
  else Ok (str_float p).

(** The body of the loop over the groups: the key, the poste key and the
    record of one group.  The key [(d, b, p)] that [groupby] hands to the
    loop is that of the rows of the group, read here off the first one. *)
Definition group_record (df : DataFrame) (g : list NRow)
  : result (string * string * string * PosteInfo) :=
  total_valid ← group_total_valid df g;
  rejected ← group_rejected df g;
  total ← group_total df g total_valid rejected;
  entries ← mapM (make_entry total_valid) g;
  let rows := stable_sort (desc_int votes) entries in
  p ← match g with
      | r :: _ => Ok (Poste (row r))
      | [] => Raise IndexError
      end;
  pkey ← poste_key p;
  d ← match g with
      | r :: _ => Ok (DistrictID_norm r, Bureau_norm r)
      | [] => Raise IndexError
      end;
  Ok (d.1, d.2, pkey,
      {| total_valid := total_valid;
         rejected := rejected;
         total := total;
         rows := rows |}).

(** [results.setdefault(key, {}); results[key][pkey] = {...}] *)
Definition store (df : DataFrame)
    (results : gmap (string * string) (gmap string PosteInfo))
    (g : list NRow)
  : result (gmap (string * string) (gmap string PosteInfo)) :=
  x ← group_record df g;
  let '(d, b, pkey, info) := x in
  Ok (<[(d, b) := <[pkey := info]> (default ∅ (results !! (d, b)))]> results).

Definition build_results_index (df : DataFrame)
    (only_poste : option (list pyfloat))
  : result (gmap (string * string) (gmap string PosteInfo)) :=
  let l := filter_postes only_poste (map add_norm_columns (df_rows df)) in
  foldM (store df) (groupby same_key l) ∅.

(** The poste key that [main] derives from the [--winner-poste] argument:
    the same rendering, and the argument itself when it is not a number. *)
Definition winner_key (winner_poste : string) : string :=
  match float_of_string winner_poste with
  | Some as_float =>
      match poste_key as_float with
      | Ok k => k
      | Raise _ => winner_poste
      end
  | None => winner_poste
  end.

(** What the embedded JavaScript [getWinnerInfo] returns. *)
Record WinnerInfo : Type := {
  w_parti : string;
  w_nom : string;
  w_votes : Z;
  w_total_valid : Z
}.

(** [getWinnerInfo(postes, posteKeyStr)]: the record under the key, or under
    [String(parseFloat(posteKeyStr))]; its rows sorted by votes, largest
    first; the first of them. *)
Definition getWinnerInfo (postes : option (gmap string PosteInfo))
    (posteKeyStr : string) : option WinnerInfo :=
  match postes with
  | None => None
  | Some postes =>
      let info :=
        match postes !! posteKeyStr with
        | Some i => Some i
        | None => postes !! js_String (js_parseFloat posteKeyStr)
        end in
      match info with
      | None => None
      | Some info =>
          match stable_sort (desc_int votes) (rows info) with
          | [] => None
          | top :: _ =>
              Some {| w_parti := to_upper (js_trim (parti top));
                      w_nom := nom top;
                      w_votes := votes top;
                      w_total_valid := total_valid info |}
          end
      end
  end.

End GenerateMap.

(** ** genmap3.py *)

Module Genmap3.
Import Py.

(** [normalize_str]: the empty text for [None] and NaN; otherwise [str]
    without byte order mark, with plain spaces, stripped and composed. *)
Definition normalize_str (value : pyval) : string :=
  match value with
  | VNone | VFloat NaN => ""
  | _ =>
      unicodedata_normalize_NFC
        (strip (nbsp_to_space (remove_bom (py_str value))))
  end.

(** The table as [pd.read_csv] delivers it. *)
Module Csv.

Record Row : Type := {
  Poste : pyval;
  ElectoralDistrictID : pyval;
  Bureau : pyval;
  Votes : pyval;
  Candidat : pyval;
  Parti : pyval;
  TotalValidVotes : pyval;
  TotalRejectedVotes : pyval;
  TotalVotes : pyval
}.

(** The rows, and whether each optional column is there
    ([col in df.columns]); the cells of an absent column are not read.
    A table without [Candidat] or [Parti] is one whose cells there are all
    [None]: [normalize_str] gives the empty text for it, as for the default
    of [row.get]. *)
Record DataFrame : Type := {
  has_TotalValidVotes : bool;
  has_TotalRejectedVotes : bool;
  has_TotalVotes : bool;
  rows : list Row
}.

End Csv.

(** A row of the table after the column assignments that precede the loop:
    [PosteNorm], [DistCode], [BureauStr] and [SectionCode] are added;
    [ElectoralDistrictID], [Votes] and the totals are replaced by numbers. *)
Record Row : Type := {
  Poste : pyval;
  Bureau : pyval;
  Candidat : pyval;
  Parti : pyval;
  PosteNorm : string;
  ElectoralDistrictID : Z;
  DistCode : string;
  BureauStr : string;
  SectionCode : string;
  Votes : pyfloat;
  TotalValidVotes : pyfloat;
  TotalRejectedVotes : pyfloat;
  TotalVotes : pyfloat
}.

(** [.astype(int)] on one cell of a float column: truncation, and an
    exception for NaN and the infinities. *)
Definition astype_int (x : pyfloat) : result Z :=
  match x with
  | Finite q => Ok (trunc q)
  | _ => Raise IntCastingNaNError
  end.

(** [df["Poste"].astype(str).str.replace(",", ".", regex=False)] *)
Definition poste_norm (poste : pyval) : string :=
  replace_comma_dot (py_str poste).

Definition prepare (r : Csv.Row) : result Row :=
  district ← astype_int (to_numeric_coerce (Csv.ElectoralDistrictID r));
  let dist_code := zfill 3 (str_int district) in
  let bureau_str := zfill 3 (py_str (Csv.Bureau r)) in
  Ok {| Poste := Csv.Poste r;
        Bureau := Csv.Bureau r;
        Candidat := Csv.Candidat r;
        Parti := Csv.Parti r;
        PosteNorm := poste_norm (Csv.Poste r);
        ElectoralDistrictID := district;
        DistCode := dist_code;
        BureauStr := bureau_str;
        SectionCode := dist_code ++ "-" ++ bureau_str;
        Votes := fillna0 (to_numeric_coerce (Csv.Votes r));
        TotalValidVotes := to_numeric_coerce (Csv.TotalValidVotes r);
        TotalRejectedVotes := to_numeric_coerce (Csv.TotalRejectedVotes r);
        TotalVotes := to_numeric_coerce (Csv.TotalVotes r) |}.

Definition same_key (r1 r2 : Row) : bool :=
  (String.eqb (PosteNorm r1) (PosteNorm r2)
   && String.eqb (SectionCode r1) (SectionCode r2))%bool.

(** One element of [breakdown]. *)
Record Entry : Type := {
  candidat : string;
  parti : string;
  votes : Z;
  pct : option pyfloat
}.

(** The record stored for one (poste, section). *)
Record Result : Type := {
  winner_candidate : string;
  winner_party : string;
  winner_votes : Z;
  total_valid : option Z;
  total_rejected : option Z;
  total_votes : option Z;
  district_id : string;
  bureau : string;
  breakdown : list Entry
}.

(** [grp.sort_values("Votes", ascending=False).iloc[0]] *)
Definition winner_row (sort_values : sorter) (grp : list Row) : result Row :=
  match sort_values Row Votes grp with
  | w :: _ => Ok w
  | [] => Raise IndexError
  end.

(** [grp[col].max() if col in grp.columns else None] *)
Definition group_max (present : bool) (col : Row -> pyfloat) (grp : list Row)
  : option pyfloat :=
  if present then Some (column_max (map col grp)) else None.

(** [t is not None and not pd.isna(t) and float(t) > 0] *)
Definition usable (t : option pyfloat) : bool :=
  match t with
  | Some x => (negb (float_isnan x) && float_ltb (Finite 0) x)%bool
  | None => false
  end.

(** The base of the percentages: the valid votes, else the total. *)
Definition total_for_pct (total_valid total_votes : option pyfloat)
  : option pyfloat :=
  if usable total_valid then total_valid
  else if usable total_votes then total_votes
  else None.

(** The body of the loop over the rows of a group. *)
Definition make_entry (total_for_pct : option pyfloat) (r : Row)
  : result Entry :=
  votes ← int_of_float (Votes r);
  let pct :=
    match total_for_pct with
    | Some t =>
        if float_ltb (Finite 0) t
        then Some (float_div (Finite (inject_Z votes * 100)) t)
        else None
    | None => None
    end in
  Ok {| candidat := normalize_str (Candidat r);
        parti := normalize_str (Parti r);
        votes := votes;
        pct := pct |}.

(** [int(t) if t is not None and not pd.isna(t) else None] *)
Definition int_or_none (t : option pyfloat) : result (option Z) :=
  match t with
  | Some x =>
      if float_isnan x then Ok None else n ← int_of_float x; Ok (Some n)
  | None => Ok None
  end.

(** The body of the loop over the groups. *)
Definition group_record (sort_values : sorter) (df : Csv.DataFrame)
    (grp : list Row) : result (string * string * Result) :=
  winner ← winner_row sort_values grp;
  let total_valid := group_max (Csv.has_TotalValidVotes df) TotalValidVotes grp in
  let total_rejected :=
    group_max (Csv.has_TotalRejectedVotes df) TotalRejectedVotes grp in
  let total_votes := group_max (Csv.has_TotalVotes df) TotalVotes grp in
  let base := total_for_pct total_valid total_votes in
  breakdown ← mapM (make_entry base) grp;
  first ← match grp with
          | r :: _ => Ok r
          | [] => Raise IndexError
          end;
  winner_votes ← int_of_float (Votes winner);
  tv ← int_or_none total_valid;
  tr ← int_or_none total_rejected;
  tt ← int_or_none total_votes;
  Ok (PosteNorm first, SectionCode first,
      {| winner_candidate := normalize_str (Candidat winner);
         winner_party := normalize_str (Parti winner);
         winner_votes := winner_votes;
         total_valid := tv;
         total_rejected := tr;
         total_votes := tt;
         district_id := str_int (ElectoralDistrictID first);
         bureau := py_str (Bureau first);
         breakdown := breakdown |}).

(** [poste_dict = results_index.setdefault(str(poste), {});
     poste_dict[section_key] = {...}] *)
Definition store (sort_values : sorter) (df : Csv.DataFrame)
    (results_index : gmap string (gmap string Result)) (grp : list Row)
  : result (gmap string (gmap string Result)) :=
  x ← group_record sort_values df grp;
  let '(poste, section_key, info) := x in
  Ok (<[poste := <[section_key := info]> (default ∅ (results_index !! poste))]>
        results_index).

Definition build_results_index (sort_values : sorter) (df : Csv.DataFrame)
  : result (gmap string (gmap string Result)) :=
  rows ← mapM prepare (Csv.rows df);
  foldM (store sort_values df) (groupby same_key rows) ∅.

End Genmap3.

(** ** v1-1/gen_mairie.py *)

Module GenMairie.
Import Py.

Module Csv.

Record Row : Type := {
  Poste : pyval;
  ElectoralDistrictID : pyval;
  Votes : pyval;
  Candidat : pyval;
  Parti : pyval
}.

End Csv.

(** A row after the column assignments of [load_results]. *)
Record Row : Type := {
  Poste : pyval;
  PosteNorm : string;
  ElectoralDistrictID : string;
  Votes : pyfloat;
  Candidat : pyval;
  Parti : pyval
}.

Definition prepare (r : Csv.Row) : Row :=
  {| Poste := Csv.Poste r;
     PosteNorm := replace_comma_dot (py_str (Csv.Poste r));
     ElectoralDistrictID := py_str (Csv.ElectoralDistrictID r);
     Votes := fillna0 (to_numeric_coerce (Csv.Votes r));
     Candidat := Csv.Candidat r;
     Parti := Csv.Parti r |}.

Definition same_key (r1 r2 : Row) : bool :=
  (String.eqb (ElectoralDistrictID r1) (ElectoralDistrictID r2)
   && String.eqb (PosteNorm r1) (PosteNorm r2))%bool.

(** [GroupBy.first()] on one column: the first cell of the group that is
    not missing, and NaN when there is none. *)
Definition first_notna (col : Row -> pyval) (g : list Row) : pyval :=
  match List.filter (fun r => negb (pd_isna (col r))) g with
  | r :: _ => col r
  | [] => VFloat NaN
  end.

Definition first_float (col : Row -> pyfloat) (g : list Row) : pyfloat :=
  match List.filter (fun r => negb (float_isnan (col r))) g with
  | r :: _ => col r
  | [] => NaN
  end.

(** A row of [winners]. *)
Record Winner : Type := {
  w_ElectoralDistrictID : string;
  w_PosteNorm : string;
  w_Poste : pyval;
  w_Votes : pyfloat;
  w_Candidat : pyval;
  w_Parti : pyval
}.

Definition first_of_group (g : list Row) : result Winner :=
  match g with
  | r :: _ =>
      Ok {| w_ElectoralDistrictID := ElectoralDistrictID r;
            w_PosteNorm := PosteNorm r;
            w_Poste := first_notna Poste g;
            w_Votes := first_float Votes g;
            w_Candidat := first_notna Candidat g;
            w_Parti := first_notna Parti g |}
  | [] => Raise IndexError
  end.

(** [df.sort_values("Votes", ascending=False).groupby([...]).first()] *)
Definition load_results (sort_values : sorter) (rows : list Csv.Row)
  : result (list Winner) :=
  let df := map prepare rows in
  mapM first_of_group (groupby same_key (sort_values Row Votes df)).

(** [int(res.get("Votes", 0))], the winner's votes that
    [inject_results_in_geojson] writes. *)
Definition winner_votes (w : Winner) : result Z := int_of_float (w_Votes w).

End GenMairie.

(** ** The page that generate_map.py writes *)

(** [make_html] flattens the index and embeds it, with the JavaScript that
    joins it to the features of the map. *)
Module MapPage.
Import Py.

(** The value of a property of a feature: [null] or [undefined], a text, a
    number or a boolean. *)
Inductive jsval : Type :=
| JNull
| JStr (s : string)
| JNum (x : pyfloat)
| JBool (b : bool).

(** [String(x ?? '')] *)
Definition String_or_empty (x : jsval) : string :=
  match x with
  | JNull => ""
  | JStr s => s
  | JNum n => js_String n
  | JBool true => "true"
  | JBool false => "false"
  end.

(** [s.replace(/\D+/g, '')]: in JavaScript [\D] is every character but
    the ten digits 0 to 9, whatever the script of the text; of the bytes
    of the text those of the ten digits are left. *)
Fixpoint replace_nondigits (s : string) : string :=
  match s with
  | EmptyString => EmptyString
  | String c s' =>
      if is_digit c then String c (replace_nondigits s')
      else replace_nondigits s'
  end.

(** [normDigits]: [String(x ?? '').replace(/\D+/g,'').replace(/^0+/, '')] *)
Definition normDigits (x : jsval) : string :=
  lstrip_char "0" (replace_nondigits (String_or_empty x)).

(** [s.padStart(n, '0')] *)
Definition padStart0 (n : nat) (s : string) : string :=
  zeros (n - String.length s) ++ s.

(** [normBureau3]: [(s.slice(-3) || '').padStart(3,'0')] of the digits. *)
Definition normBureau3 (x : jsval) : string :=
  padStart0 3 (last_n 3 (replace_nondigits (String_or_empty x))).

Definition DISTRICT_KEYS : list string :=
  ["DISTRICTID"; "DISTRICT_ID"; "DISTRICT"; "NO_DISTRICT"; "ID_DISTRICT";
   "ARRON_DIST"; "ARRDIST"; "ARR"; "ID_ARR"; "ID_ARRONDISSEMENT"].

Definition BUREAU_KEYS : list string :=
  ["SECTION"; "BUREAU"; "NO_SECTION"; "NO_BUREAU"; "SECT_VOTE";
   "SECTION_VOTE"; "SECTION_ID"].

(** The properties of a feature: its keys with their values, in the order
    in which [for (const k in props)] goes through them. *)
Definition Props : Type := list (string * jsval).

(** [props[k]] *)
Fixpoint get (props : Props) (k : string) : jsval :=
  match props with
  | [] => JNull
  | (k', v) :: rest => if String.eqb k' k then v else get rest k
  end.

(** [for (const k of KEYS) if (props[k] != null) { ...; break; }]: the
    value under the first of the keys that has one. *)
Fixpoint first_present (keys : list string) (props : Props) : option jsval :=
  match keys with
  | [] => None
  | k :: keys' =>
      match get props k with
      | JNull => first_present keys' props
      | v => Some v
      end
  end.

(** The truth value of a text or [null]: the empty text is false too. *)
Definition truthy (s : option string) : bool :=
  match s with
  | Some (String _ _) => true
  | _ => false
  end.

(** The second loop of [extractDistBureau], over the digit texts. *)
Fixpoint scan_texts (digits : list string) (d b : option string)
  : option string * option string :=
  match digits with
  | [] => (None, None)
  | s :: rest =>
      let d' :=
        if (negb (truthy d) && (String.length s <=? 3)%nat)%bool
        then Some (lstrip_char "0" s) else d in
      let b' :=
        if (negb (truthy b) && (String.length s =? 3)%nat)%bool
        then Some s else b in
      if (truthy d' && truthy b')%bool then (d', b')
      else scan_texts rest d' b'
  end.

(** [extractDistBureau(props)]: the district and the bureau of a feature,
    from the keys of the two lists, or else from the first values that look
    like them; [(null, null)] when there are none. *)
Definition extractDistBureau (props : Props) : option string * option string :=
  let dist := option_map normDigits (first_present DISTRICT_KEYS props) in
  let bure := option_map normBureau3 (first_present BUREAU_KEYS props) in
  if (truthy dist && truthy bure)%bool then (dist, bure)
  else
    let digits :=
      List.filter (fun s => negb (String.eqb s ""))
        (map (fun kv => replace_nondigits (String_or_empty kv.2)) props) in
    scan_texts digits None None.

(** [f"{d}|{b}"] *)
Definition flat_key (k : string * string) : string := k.1 ++ "|" ++ k.2.

(** The loop of [make_html] that flattens the index:
    [flat[f"{d}|{b}"] = postes] for every item.  The items are taken in the
    order of the map. *)
Definition flatten
    (results_index : gmap (string * string) (gmap string GenerateMap.PosteInfo))
  : gmap string (gmap string GenerateMap.PosteInfo) :=
  map_fold (fun k postes flat => <[flat_key k := postes]> flat) ∅ results_index.

Definition OTHER : string := "#9e9e9e".

(** The own properties of [PARTY_COLORS]. *)
Definition PARTY_COLORS (p : string) : option string :=
  if String.eqb p "PMELR" then Some "#2e7d32"
  else if String.eqb p "EMES" then Some "#6a1b9a"
  else if String.eqb p "TMECS" then Some "#ef6c00"
  else if String.eqb p "OTHER" then Some OTHER
  else None.

(** [colorForParty(p)], for the upper-case text that [getWinnerInfo] hands
    over (no inherited property of an object has such a name). *)
Definition colorForParty (p : string) : string :=
  match p with
  | EmptyString => OTHER
  | _ => default OTHER (PARTY_COLORS p)
  end.

(** [sectionFillColor(props)] *)
Definition sectionFillColor
    (RESULTS_INDEX : gmap string (gmap string GenerateMap.PosteInfo))
    (WINNER_POSTE_KEY : string) (props : Props) : string :=
  match extractDistBureau props with
  | (Some (String _ _ as dist), Some (String _ _ as bure)) =>
      match GenerateMap.getWinnerInfo (RESULTS_INDEX !! (dist ++ "|" ++ bure))
              WINNER_POSTE_KEY with
      | Some win => colorForParty (GenerateMap.w_parti win)
      | None => OTHER
      end
  | _ => OTHER
  end.

End MapPage.

(** ** The map that v1-1/gen_mairie.py draws *)

(** [build_winner_index], [inject_results_in_geojson] and the part of
    [make_map] that chooses the poste and hands the winners to the features
    of the GeoJSON. *)
Module MairieMap.
Import Py.

(** How a call ends.  [AttributeError] is raised by a method call on
    [None]; the other exceptions are those of the table code. *)
Inductive outcome (A : Type) : Type :=
| Returns (a : A)
| Raises (e : exn)
| RaisesAttributeError.

Arguments Returns {A} a.
Arguments Raises {A} e.
Arguments RaisesAttributeError {A}.

Definition of_result {A : Type} (r : result A) : outcome A :=
  match r with
  | Ok a => Returns a
  | Raise e => Raises e
  end.

Abbreviation WinnerIndex := (gmap (string * string) GenMairie.Winner).

Definition index_key (w : GenMairie.Winner) : string * string :=
  (GenMairie.w_ElectoralDistrictID w, GenMairie.w_PosteNorm w).

(** The same pair for a row of the table. *)
Definition row_key (r : GenMairie.Row) : string * string :=
  (GenMairie.ElectoralDistrictID r, GenMairie.PosteNorm r).

(** [winners.set_index([...]).to_dict("index")]: one entry for each row,
    under its district and poste; [to_dict] raises [ValueError] when two
    rows have the same index. *)
Definition build_winner_index (winners : list GenMairie.Winner)
  : result WinnerIndex :=
  foldM (fun (idx : WinnerIndex) w =>
           match idx !! index_key w with
           | Some _ => Raise ValueError
           | None => Ok (<[index_key w := w]> idx)
           end) winners ∅.

(** The properties of a feature, from their names to their values: null
    ([VNone]), a text or a number. *)
Abbreviation Props := (gmap string pyval).

(** The [properties] member of a feature: missing, null, or an object. *)
Inductive member : Type :=
| Missing
| Null
| Object (props : Props).

(** [props.setdefault(k, v)] *)
Definition setdefault (k : string) (v : pyval) (props : Props) : Props :=
  match props !! k with
  | Some _ => props
  | None => <[k := v]> props
  end.

(** [props.get(k)] *)
Definition dict_get (props : Props) (k : string) : pyval :=
  default VNone (props !! k).

(** The body of the loop of [inject_results_in_geojson], on the
    [properties] member of one feature.  The table has the columns
    [Candidat], [Parti] and [Votes], so that [res.get] finds them. *)
Definition inject_feature (winner_index : WinnerIndex)
    (poste id_field : string) (feat : member) : outcome member :=
  match feat with
  | Null => RaisesAttributeError
  | Missing => Returns (Object ∅)
  | Object props =>
      match dict_get props id_field with
      | VNone => Returns (Object props)
      | district_raw =>
          match winner_index !! (py_str district_raw, poste) with
          | None =>
              Returns
                (Object
                   (setdefault "winner_votes" (VInt 0)
                      (setdefault "winner_party" (VStr "N/A")
                         (setdefault "winner_candidate" (VStr "N/A") props))))
          | Some res =>
              match int_of_float (GenMairie.w_Votes res) with
              | Ok n =>
                  Returns
                    (Object
                       (<["winner_votes" := VInt n]>
                          (<["winner_party" := GenMairie.w_Parti res]>
                             (<["winner_candidate" := GenMairie.w_Candidat res]>
                                props))))
              | Raise e => Raises e
              end
          end
      end
  end.

(** The loop over the features, which stops at the first exception. *)
Fixpoint inject_features (winner_index : WinnerIndex)
    (poste id_field : string) (feats : list member) : outcome (list member) :=
  match feats with
  | [] => Returns []
  | feat :: rest =>
      match inject_feature winner_index poste id_field feat with
      | Returns feat' =>
          match inject_features winner_index poste id_field rest with
          | Returns rest' => Returns (feat' :: rest')
          | Raises e => Raises e
          | RaisesAttributeError => RaisesAttributeError
          end
      | Raises e => Raises e
      | RaisesAttributeError => RaisesAttributeError
      end
  end.

(** [inject_results_in_geojson], on the [features] member of the GeoJSON,
    [None] when the GeoJSON has none. *)
Definition inject_results_in_geojson (features : option (list member))
    (winner_index : WinnerIndex) (poste id_field : string)
  : outcome (option (list member)) :=
  match features with
  | None => Returns None
  | Some feats =>
      match inject_features winner_index poste id_field feats with
      | Returns feats' => Returns (Some feats')
      | Raises e => Raises e
      | RaisesAttributeError => RaisesAttributeError
      end
  end.

(** [s.replace(",", ".", 1)] *)
Fixpoint replace_first_comma_dot (s : string) : string :=
  match s with
  | EmptyString => EmptyString
  | String c s' =>
      if Ascii.eqb c "," then String "." s'
      else String c (replace_first_comma_dot s')
  end.

(** [sorted(winners["PosteNorm"].unique().tolist())] *)
Definition postes_disponibles (winners : list GenMairie.Winner) : list string :=
  stable_sort String.leb
    (first_occurrences String.eqb (map GenMairie.w_PosteNorm winners)).

(** The choice of the poste in [make_map]. *)
Definition choose_poste (poste : option string) (available : list string)
  : result string :=
  match poste with
  | None =>
      match available with
      | p :: _ => Ok p
      | [] => Raise IndexError
      end
  | Some p => Ok (replace_first_comma_dot p)
  end.

(** [make_map] up to the injection: the features as the map gets them. *)
Definition make_map (sort_values : sorter) (rows : list GenMairie.Csv.Row)
    (features : option (list member)) (poste : option string)
    (id_field : string) : outcome (option (list member)) :=
  match GenMairie.load_results sort_values rows with
  | Raise e => Raises e
  | Ok winners =>
      match build_winner_index winners with
      | Raise e => Raises e
      | Ok winner_index =>
          match choose_poste poste (postes_disponibles winners) with
          | Raise e => Raises e
          | Ok poste' =>
              inject_results_in_geojson features winner_index poste' id_field
          end
      end
  end.

End MairieMap.

(** ** The labels of the postes in genmap3.py *)

Module PosteLabels.
Import Py.

(** A row of [postes.csv]; a column that the file lacks holds [None] in
    every row, for which [row.get] and [normalize_str] give what they give
    for the default. *)
Record PosteRow : Type := {
  no : pyval;
  type_ : pyval;
  poste : pyval
}.

(** [float(no_val)] inside [try], for a cell that is not missing: [None]
    when it raises. *)
Definition py_float (v : pyval) : option pyfloat :=
  match v with
  | VInt z => Some (float_of_int z)
  | VFloat x => Some x
  | VStr s => float_of_string s
  | VNone | VNA => None
  end.

(** The body of the loop over the rows: the code and the label that the row
    adds to [labels_raw], or nothing when the row is passed over.
    [format_2f] is the text of [f"{f:.2f}"]. *)
Definition row_label (format_2f : pyfloat -> string) (row : PosteRow)
  : option (string * string) :=
  if pd_isna (no row) then None
  else
    match py_float (no row) with
    | None => None
    | Some f =>
        let code := format_2f f in
        let type_str := Genmap3.normalize_str (type_ row) in
        let poste_name := Genmap3.normalize_str (poste row) in
        let label :=
          match type_str, poste_name with
          | String _ _, String _ _ => type_str ++ " " ++ poste_name
          | String _ _, EmptyString => type_str
          | EmptyString, String _ _ => poste_name
          | EmptyString, EmptyString => code
          end in
        Some (code, label)
    end.

(** [labels_raw] after the loop: a later row replaces the label of an
    earlier row with the same code. *)
Definition labels_raw (format_2f : pyfloat -> string) (rows : list PosteRow)
  : gmap string string :=
  fold_left
    (fun acc row =>
       match row_label format_2f row with
       | Some (code, label) => <[code := label]> acc
       | None => acc
       end) rows ∅.

(** [load_poste_labels(postes_csv, poste_codes)]; [postes_csv] is [None]
    when the file does not exist. *)
Definition load_poste_labels {V : Type} (format_2f : pyfloat -> string)
    (postes_csv : option (list PosteRow)) (poste_codes : gmap string V)
  : gmap string string :=
  match postes_csv with
  | None => map_imap (fun code _ => Some code) poste_codes
  | Some rows =>
      let raw := labels_raw format_2f rows in
      map_imap (fun code _ => Some (default code (raw !! code))) poste_codes
  end.

End PosteLabels.

(** ** Notions used in the statements *)

Module Spec.



(** Descending, in the wide sense. *)
Definition sorted_desc (vs : list Z) : Prop :=
  StronglySorted (fun a b => b <= a) vs.

(** The order of the votes of two rows of a [generate_map] record. *)
Definition votes_le (a b : GenerateMap.Entry) : bool :=
  GenerateMap.votes a <=? GenerateMap.votes b.

(** The order of the [Votes] column of [genmap3]. *)
Definition Votes_le (a b : Genmap3.Row) : bool :=
  Py.float_leb (Genmap3.Votes a) (Genmap3.Votes b).



Definition float_isinf (x : Py.pyfloat) : bool :=
  match x with
  | Py.PosInf | Py.NegInf => true
  | _ => false
  end.

(** A row of the table of [genmap3] whose district reads as a finite number
    and whose votes and totals, where they read as numbers, are finite. *)
Definition g3_readable (r : Genmap3.Csv.Row) : Prop :=
  (exists q,
      Py.to_numeric_coerce (Genmap3.Csv.ElectoralDistrictID r) = Py.Finite q) /\
  float_isinf (Py.to_numeric_coerce (Genmap3.Csv.Votes r)) = false /\
  float_isinf (Py.to_numeric_coerce (Genmap3.Csv.TotalValidVotes r)) = false /\
  float_isinf (Py.to_numeric_coerce (Genmap3.Csv.TotalRejectedVotes r)) = false /\
  float_isinf (Py.to_numeric_coerce (Genmap3.Csv.TotalVotes r)) = false.

(** The same of a row after the column assignments. *)
Definition g3_clean (r : Genmap3.Row) : Prop :=
  (exists q, Genmap3.Votes r = Py.Finite q) /\
  float_isinf (Genmap3.TotalValidVotes r) = false /\
  float_isinf (Genmap3.TotalRejectedVotes r) = false /\
  float_isinf (Genmap3.TotalVotes r) = false.

(** What [genmap3] stores for a total: [None] exactly when the column is
    absent or holds no number in the group, and otherwise the integer of a
    cell of the group. *)
Definition none_or_source (present : bool) (col : Genmap3.Row -> Py.pyfloat)
    (grp : list Genmap3.Row) (o : option Z) : Prop :=
  (o = None <->
   present = false \/ Forall (fun r => Py.float_isnan (col r) = true) grp) /\
  (forall n, o = Some n ->
     present = true /\
     exists r, In r grp /\ Py.int_of_float (col r) = Py.Ok n).

Definition sum_Z (l : list Z) : Z := fold_right Z.add 0 l.

(** A cell that [pd.to_numeric(..., errors="coerce")] makes NaN: a missing
    cell, or a text that holds a character of no number. *)
Definition coerced_missing (v : Py.pyval) : bool :=
  match v with
  | Py.VNone | Py.VNA | Py.VFloat Py.NaN => true
  | Py.VStr s => Py.no_number_text s
  | _ => false
  end.

(** The cell holds the finite number [q]: as an integer, as a float, or as
    the text of a plain decimal. *)
Definition holds_number (v : Py.pyval) (q : Q) : Prop :=
  match v with
  | Py.VInt z => q = inject_Z z
  | Py.VFloat (Py.Finite x) => q = x
  | Py.VStr s => Py.plain_text s = true /\ Py.decimal_value s = Some q
  | _ => False
  end.

(** A cell that [genmap3] reads without an infinity: one made NaN, or one
    that holds a finite number. *)
Definition plain_cell (v : Py.pyval) : Prop :=
  coerced_missing v = true \/ exists q, holds_number v q.

(** A row of the table of [genmap3] whose district holds a finite number
    and whose votes and totals are plain cells. *)
Definition g3_plain_row (r : Genmap3.Csv.Row) : Prop :=
  (exists q, holds_number (Genmap3.Csv.ElectoralDistrictID r) q) /\
  plain_cell (Genmap3.Csv.Votes r) /\
  plain_cell (Genmap3.Csv.TotalValidVotes r) /\
  plain_cell (Genmap3.Csv.TotalRejectedVotes r) /\
  plain_cell (Genmap3.Csv.TotalVotes r).



(** The rows that [generate_map] groups: those of the table, normalised,
    of the postes asked for. *)
Definition gm_rows (df : GenerateMap.DataFrame)
    (only_poste : option (list Py.pyfloat)) : list GenerateMap.NRow :=
  GenerateMap.filter_postes only_poste
    (map GenerateMap.add_norm_columns (GenerateMap.df_rows df)).

(** The district and the bureau of every row of the table of
    [generate_map] print as ASCII text. *)
Definition ascii_keys (df : GenerateMap.DataFrame) : bool :=
  forallb
    (fun r =>
       (Py.ascii_text (Py.py_str (GenerateMap.DistrictID r))
        && Py.ascii_text (Py.py_str (GenerateMap.Bureau r)))%bool)
    (GenerateMap.df_rows df).

(** The range of [int64]. *)
Definition in_int64 (z : Z) : Prop := - 2 ^ 63 <= z < 2 ^ 63.

(** The integer in a cell of a column of integers. *)
Definition int_cell (v : Py.pyval) : Z :=
  match v with
  | Py.VInt z => z
  | _ => 0
  end.

(** The [Votes] cells of the rows of a group of [generate_map], as
    integers. *)
Definition votes_cells (g : list GenerateMap.NRow) : list Z :=
  map (fun r => int_cell (GenerateMap.Votes (GenerateMap.row r))) g.

(** The [Votes] cell of a row of [generate_map] is the integer [z] of an
    [int64] column. *)
Definition int64_votes (r : GenerateMap.NRow) (z : Z) : Prop :=
  GenerateMap.Votes (GenerateMap.row r) = Py.VInt z /\ in_int64 z.

End Spec.

(** ** Tables used in the examples *)

Module Examples.
Import Py.

(** A row of the table of [genmap3]: poste 0,00, district 11, bureau 37. *)
Definition g3_row (candidat : string) (parti votes valid all : pyval)
  : Genmap3.Csv.Row :=
  {| Genmap3.Csv.Poste := VStr "0,00";
     Genmap3.Csv.ElectoralDistrictID := VInt 11;
     Genmap3.Csv.Bureau := VInt 37;
     Genmap3.Csv.Votes := votes;
     Genmap3.Csv.Candidat := VStr candidat;
     Genmap3.Csv.Parti := parti;
     Genmap3.Csv.TotalValidVotes := valid;
     Genmap3.Csv.TotalRejectedVotes := VInt 0;
     Genmap3.Csv.TotalVotes := all |}.

Definition g3_table (valid rejected all : bool) (rows : list Genmap3.Csv.Row)
  : Genmap3.Csv.DataFrame :=
  {| Genmap3.Csv.has_TotalValidVotes := valid;
     Genmap3.Csv.has_TotalRejectedVotes := rejected;
     Genmap3.Csv.has_TotalVotes := all;
     Genmap3.Csv.rows := rows |}.

(** The rows after the column assignments, when these raise nothing. *)
Definition g3_prepared (rows : list Genmap3.Csv.Row) : list Genmap3.Row :=
  match mapM Genmap3.prepare rows with
  | Ok l => l
  | Raise _ => []
  end.

(** The record of poste 0.00 and section 011-037 in an index. *)
Definition g3_lookup (r : result (gmap string (gmap string Genmap3.Result)))
  : option Genmap3.Result :=
  match r with
  | Ok index => index !! "0.00" ≫= fun sections => sections !! "011-037"
  | Raise _ => None
  end.

(** A row of the table of [generate_map]: district 11, bureau 037,
    poste 0. *)
Definition gm_row (candidat : string) (parti votes valid all : pyval)
  : GenerateMap.Row :=
  {| GenerateMap.DistrictID := VInt 11;
     GenerateMap.Bureau := VStr "037";
     GenerateMap.Poste := Finite 0;
     GenerateMap.Votes := votes;
     GenerateMap.Candidat := VStr candidat;
     GenerateMap.Parti := parti;
     GenerateMap.TotalValidVotes := valid;
     GenerateMap.TotalRejectedVotes := VInt 0;
     GenerateMap.TotalVotes := all |}.

Definition gm_table (valid rejected all : bool) (rows : list GenerateMap.Row)
  : GenerateMap.DataFrame :=
  {| GenerateMap.has_TotalValidVotes := valid;
     GenerateMap.has_TotalRejectedVotes := rejected;
     GenerateMap.has_TotalVotes := all;
     GenerateMap.df_rows := rows |}.

(** The record of district 11, bureau 037 and poste 0 in an index. *)
Definition gm_lookup
    (r : result (gmap (string * string) (gmap string GenerateMap.PosteInfo)))
  : option GenerateMap.PosteInfo :=
  match r with
  | Ok index => index !! ("11", "037") ≫= fun postes => postes !! "0"
  | Raise _ => None
  end.

(** A row of the table of [gen_mairie]: district 11, poste 0,00. *)
Definition mairie_row (candidat : string) (parti votes : pyval)
  : GenMairie.Csv.Row :=
  {| GenMairie.Csv.Poste := VStr "0,00";
     GenMairie.Csv.ElectoralDistrictID := VInt 11;
     GenMairie.Csv.Votes := votes;
     GenMairie.Csv.Candidat := VStr candidat;
     GenMairie.Csv.Parti := parti |}.

(** Two candidates, 30 and 20 votes, 50 valid votes. *)
Definition g3_two : list Genmap3.Csv.Row :=
  [g3_row "A" (VStr "PartyX") (VInt 30) (VInt 50) (VInt 51);
   g3_row "B" (VStr "PartyY") (VInt 20) (VInt 50) (VInt 51)].

Definition gm_two : list GenerateMap.Row :=
  [gm_row "A" (VStr "PartyX") (VInt 30) (VInt 50) (VInt 51);
   gm_row "B" (VStr "PartyY") (VInt 20) (VInt 50) (VInt 51)].

Definition mairie_two : list GenMairie.Csv.Row :=
  [mairie_row "A" (VStr "PartyX") (VInt 30);
   mairie_row "B" (VStr "PartyY") (VInt 20)].


Definition gm_tie : list GenerateMap.Row :=
  [gm_row "A" (VStr "PartyX") (VInt 30) (VInt 60) (VInt 61);
   gm_row "B" (VStr "PartyY") (VInt 30) (VInt 60) (VInt 61)].

(** The candidate with fewer votes comes first in the table. *)
Definition g3_rising : list Genmap3.Csv.Row :=
  [g3_row "A" (VStr "PartyX") (VInt 20) (VInt 50) (VInt 51);
   g3_row "B" (VStr "PartyY") (VInt 30) (VInt 50) (VInt 51)].

Definition gm_rising : list GenerateMap.Row :=
  [gm_row "A" (VStr "PartyX") (VInt 20) (VInt 50) (VInt 51);
   gm_row "B" (VStr "PartyY") (VInt 30) (VInt 50) (VInt 51)].

(** One candidate with 25 votes out of 100 valid ones. *)
Definition g3_quarter : list Genmap3.Csv.Row :=
  [g3_row "A" (VStr "PartyX") (VInt 25) (VInt 100) (VInt 120)].

Definition gm_quarter : list GenerateMap.Row :=
  [gm_row "A" (VStr "PartyX") (VInt 25) (VInt 100) (VInt 120)].

(** One candidate with 10 votes; no valid votes recorded, 50 votes in all. *)
Definition g3_no_valid : list Genmap3.Csv.Row :=
  [g3_row "A" (VStr "PartyX") (VInt 10) (VInt 0) (VInt 50)].

Definition gm_no_valid : list GenerateMap.Row :=
  [gm_row "A" (VStr "PartyX") (VInt 10) (VInt 0) (VInt 50)].

(** A district that is not a number. *)
Definition g3_bad_district : list Genmap3.Csv.Row :=
  [{| Genmap3.Csv.Poste := VStr "0,00";
      Genmap3.Csv.ElectoralDistrictID := VStr "abc";
      Genmap3.Csv.Bureau := VInt 37;
      Genmap3.Csv.Votes := VInt 30;
      Genmap3.Csv.Candidat := VStr "A";
      Genmap3.Csv.Parti := VStr "PartyX";
      Genmap3.Csv.TotalValidVotes := VInt 50;
      Genmap3.Csv.TotalRejectedVotes := VInt 0;
      Genmap3.Csv.TotalVotes := VInt 51 |}].

(** Votes that are not a number, missing, and negative; with the first of
    them in it, [read_csv] leaves the column as text. *)
Definition g3_odd_votes : list Genmap3.Csv.Row :=
  [g3_row "A" (VStr "PartyX") (VStr "abc") (VInt 50) (VInt 51);
   g3_row "B" (VStr "PartyY") (VFloat NaN) (VInt 50) (VInt 51);
   g3_row "C" (VStr "PartyZ") (VStr "-5") (VInt 50) (VInt 51)].



Definition gm_text_votes : list GenerateMap.Row :=
  [gm_row "A" (VStr "PartyX") (VStr "abc") (VInt 50) (VInt 51)].

Definition gm_missing_votes : list GenerateMap.Row :=
  [gm_row "A" (VStr "PartyX") (VFloat NaN) (VInt 50) (VInt 51)].

End Examples.

(** ** Shapes of keys *)

Module Shape.

(** The text is made of digits only. *)
Fixpoint digits_only (s : string) : bool :=
  match s with
  | EmptyString => true
  | String c s' => (Py.is_digit c && digits_only s')%bool
  end.

(** The text does not begin with the digit 0. *)
Definition no_leading_zero (s : string) : bool :=
  match s with
  | String c _ => negb (Ascii.eqb c "0")
  | EmptyString => true
  end.

(** A district as the scripts key it: digits, the first of them not 0. *)
Definition district_key (d : string) : Prop :=
  digits_only d = true /\ no_leading_zero d = true.

(** A bureau as the scripts key it: three digits. *)
Definition bureau_key (b : string) : Prop :=
  String.length b = 3%nat /\ digits_only b = true.

(** What [extractDistBureau] may return: nothing at all, or a district
    that is not empty together with a bureau. *)
Definition dist_bureau_shape (r : option string * option string) : Prop :=
  r = (None, None) \/
  exists d b,
    r = (Some d, Some b) /\ d <> "" /\ district_key d /\ bureau_key b.

(** The number of commas of a text. *)
Fixpoint count_commas (s : string) : nat :=
  match s with
  | EmptyString => O
  | String c s' => ((if Ascii.eqb c "," then 1 else 0) + count_commas s')%nat
  end.

(** The three properties that [inject_results_in_geojson] writes. *)
Definition winner_property (k : string) : Prop :=
  k = "winner_candidate" \/ k = "winner_party" \/ k = "winner_votes".

End Shape.

(** ** A table with two sections *)

Module PageExamples.
Import Py.

(** The index of a table that is read without an error. *)
Definition gm_index_of (df : GenerateMap.DataFrame)
  : gmap (string * string) (gmap string GenerateMap.PosteInfo) :=
  match GenerateMap.build_results_index df None with
  | Ok index => index
  | Raise _ => ∅
  end.

Definition gm_section_row (district : Z) (bureau : string) (poste : Q)
    (candidat parti : string) (votes : Z) : GenerateMap.Row :=
  {| GenerateMap.DistrictID := VInt district;
     GenerateMap.Bureau := VStr bureau;
     GenerateMap.Poste := Finite poste;
     GenerateMap.Votes := VInt votes;
     GenerateMap.Candidat := VStr candidat;
     GenerateMap.Parti := VStr parti;
     GenerateMap.TotalValidVotes := VInt 50;
     GenerateMap.TotalRejectedVotes := VInt 0;
     GenerateMap.TotalVotes := VInt 50 |}.

(** Two bureaus of district 11 and one of district 5; the mayor (poste 0)
    and a councillor (poste 1.5). *)
Definition gm_sections : GenerateMap.DataFrame :=
  Examples.gm_table true true true
    [gm_section_row 11 "037" 0 "A" "PartyX" 30;
     gm_section_row 5 "7" 0 "C" "PartyX" 10;
     gm_section_row 11 "037" 0 "B" "PartyY" 20;
     gm_section_row 11 "037" 1.5 "D" "PartyY" 50;
     gm_section_row 11 "12" 0 "A" "PartyX" 50;
     gm_section_row 5 "7" 0 "E" "PartyY" 40].

(** The index of [genmap3] for a table that is read without an error. *)
Definition g3_index_of (df : Genmap3.Csv.DataFrame)
  : gmap string (gmap string Genmap3.Result) :=
  match Genmap3.build_results_index stable_sorter df with
  | Ok index => index
  | Raise _ => ∅
  end.

Definition g3_section_row (poste : string) (district bureau : Z)
    (candidat parti : string) (votes : Z) : Genmap3.Csv.Row :=
  {| Genmap3.Csv.Poste := VStr poste;
     Genmap3.Csv.ElectoralDistrictID := VInt district;
     Genmap3.Csv.Bureau := VInt bureau;
     Genmap3.Csv.Votes := VInt votes;
     Genmap3.Csv.Candidat := VStr candidat;
     Genmap3.Csv.Parti := VStr parti;
     Genmap3.Csv.TotalValidVotes := VInt 50;
     Genmap3.Csv.TotalRejectedVotes := VInt 0;
     Genmap3.Csv.TotalVotes := VInt 50 |}.

(** The same three sections for [genmap3]; the winner of section 011-037
    is not the first row of its group. *)
Definition g3_sections : Genmap3.Csv.DataFrame :=
  Examples.g3_table true true true
    [g3_section_row "0,00" 11 37 "B" "PartyY" 20;
     g3_section_row "0,00" 5 7 "C" "PartyX" 10;
     g3_section_row "0,00" 11 37 "A" "PartyX" 30;
     g3_section_row "1,10" 11 37 "D" "PartyY" 50;
     g3_section_row "0,00" 11 12 "A" "PartyX" 50;
     g3_section_row "0,00" 5 7 "E" "PartyY" 40].

(** The table of [gen_mairie]: two districts, the mayor in both. *)
Definition mairie_district_row (district : Z) (candidat parti : string)
    (votes : Z) : GenMairie.Csv.Row :=
  {| GenMairie.Csv.Poste := VStr "0,00";
     GenMairie.Csv.ElectoralDistrictID := VInt district;
     GenMairie.Csv.Votes := VInt votes;
     GenMairie.Csv.Candidat := VStr candidat;
     GenMairie.Csv.Parti := VStr parti |}.

Definition mairie_districts : list GenMairie.Csv.Row :=
  [mairie_district_row 11 "B" "PartyY" 20;
   mairie_district_row 5 "C" "PartyX" 10;
   mairie_district_row 11 "A" "PartyX" 30;
   mairie_district_row 5 "E" "PartyY" 40].

(** The properties of the feature of district 11, and of a feature that
    names no district. *)
Definition feature_11 : MairieMap.Props :=
  <["district_id" := VInt 11]> (<["nom" := VStr "Ville-Marie"]> ∅).

Definition feature_unnamed : MairieMap.Props :=
  <["nom" := VStr "Parc"]> ∅.

(** The winners and the index of a table of [gen_mairie]. *)
Definition mairie_winners (rows : list GenMairie.Csv.Row)
  : list GenMairie.Winner :=
  match GenMairie.load_results stable_sorter rows with
  | Ok ws => ws
  | Raise _ => []
  end.

Definition mairie_index (rows : list GenMairie.Csv.Row)
  : MairieMap.WinnerIndex :=
  match MairieMap.build_winner_index (mairie_winners rows) with
  | Ok idx => idx
  | Raise _ => ∅
  end.

End PageExamples.

(** * Properties *)

Open Scope list_scope.

(** ** The result monad *)

Lemma bind_Ok_inv {A B : Type} (m : Py.result A) (k : A -> Py.result B) (b : B) :
  m ≫= k = Py.Ok b -> exists a, m = Py.Ok a /\ k a = Py.Ok b.
Proof.
  destruct m as [a|e]; simpl; [eauto | discriminate].
Qed.

Section ResultFacts.
Import Py.
Context {A B : Type}.

Lemma mapM_Ok_inv (f : A -> result B) (l : list A) (ys : list B) :
  mapM f l = Ok ys -> Forall2 (fun x y => f x = Ok y) l ys.
Proof.
  revert ys. induction l as [|x l IH]; intros ys H; simpl in H.
  - injection H as <-. constructor.
  - apply bind_Ok_inv in H as (y & Hy & H).
    apply bind_Ok_inv in H as (ys' & Hys & H).
    injection H as <-. constructor; auto.
Qed.

Lemma mapM_Ok_intro (f : A -> result B) (l : list A) :
  Forall (fun x => exists y, f x = Ok y) l -> exists ys, mapM f l = Ok ys.
Proof.
  induction 1 as [|x l [y Hy] _ [ys Hys]]; simpl.
  - eauto.
  - rewrite Hy; simpl. rewrite Hys; simpl. eauto.
Qed.

Lemma mapM_Ok_map (f : A -> result B) (h : A -> B) (l : list A) :
  Forall (fun x => f x = Ok (h x)) l -> mapM f l = Ok (map h l).
Proof.
  induction 1 as [|x l Hx _ IH]; simpl; [done|].
  rewrite Hx; simpl. rewrite IH; simpl. done.
Qed.

End ResultFacts.

(** ** The stable sort *)

Section StableSort.
Import Py.
Context {A : Type} (le : A -> A -> bool) (P : A -> Prop).
Hypothesis le_trans : forall x y z, le x y = true -> le y z = true -> le x z = true.
Hypothesis le_total : forall x y, P x -> P y -> le x y = true \/ le y x = true.

(** Descending order: [x] stays in front of a later [y] when [y <= x]. *)
Let before (x y : A) : bool := le y x.

Lemma insert_by_perm (bf : A -> A -> bool) (x : A) (l : list A) :
  Permutation (insert_by bf x l) (x :: l).
Proof.
  induction l as [|y l IH]; simpl; [done|].
  destruct (bf x y); [done|].
  rewrite IH. apply perm_swap.
Qed.

Lemma stable_sort_perm (bf : A -> A -> bool) (l : list A) :
  Permutation (stable_sort bf l) l.
Proof.
  induction l as [|x l IH]; simpl; [done|].
  unfold stable_sort in *; simpl. rewrite insert_by_perm. by rewrite IH.
Qed.

Lemma insert_by_sorted (x : A) (l : list A) :
  P x -> Forall P l ->
  StronglySorted (fun a b => le b a = true) l ->
  StronglySorted (fun a b => le b a = true) (insert_by before x l).
Proof.
  intros Hx HP Hs. induction Hs as [|y l Hs IH Hy]; simpl.
  - repeat constructor.
  - inversion HP as [|? ? Py HPl]; subst.
    unfold before at 1. destruct (le y x) eqn:E.
    + constructor; [by constructor|].
      constructor; [done|].
      eapply Forall_impl; [exact Hy|]. simpl. intros z Hz. eauto.
    + constructor; [auto|].
      rewrite (insert_by_perm before x l). constructor; [|done].
      destruct (le_total x y Hx Py) as [H|H]; [done|congruence].
Qed.

Lemma stable_sort_sorted (l : list A) :
  Forall P l ->
  StronglySorted (fun a b => le b a = true) (stable_sort before l).
Proof.
  induction 1 as [|x l Hx HP IH]; [constructor|].
  change (stable_sort before (x :: l))
    with (insert_by before x (stable_sort before l)).
  apply insert_by_sorted; [done| |done].
  by rewrite (stable_sort_perm before l).
Qed.

(** The head of the sorted list is the first largest element of the input:
    everything in front of it is strictly smaller, nothing behind it is
    larger. *)
Lemma stable_sort_head (l : list A) :
  Forall P l -> l <> [] ->
  exists l1 w l2 rest,
    l = l1 ++ w :: l2 /\
    stable_sort before l = w :: rest /\
    Forall (fun y => le w y = false) l1 /\
    Forall (fun y => le y w = true) l2.
Proof.
  induction 1 as [|x l Hx HP IH]; [done|]. intros _.
  change (stable_sort before (x :: l))
    with (insert_by before x (stable_sort before l)).
  destruct l as [|x' l'].
  - exists [], x, [], []. simpl. repeat split; constructor.
  - destruct IH as (l1 & w & l2 & rest & El & Es & H1 & H2); [done|].
    rewrite Es. simpl. unfold before at 1.
    assert (Pw : P w).
    { rewrite List.Forall_forall in HP. apply HP. rewrite El.
      apply in_or_app. right. by left. }
    destruct (le w x) eqn:E.
    + exists [], x, (x' :: l'), (w :: rest). repeat split; [constructor|].
      rewrite El. apply Forall_app. split.
      * rewrite List.Forall_forall in *. intros y Hy.
        assert (Py : P y).
        { apply HP. rewrite El. apply in_or_app. by left. }
        destruct (le_total y w Py Pw) as [H|H]; [eauto|].
        apply H1 in Hy. congruence.
      * constructor; [done|].
        eapply Forall_impl; [exact H2|]. simpl. eauto.
    + exists (x :: l1), w, l2, (insert_by before x rest).
      repeat split; [by rewrite El| |done].
      constructor; [|done]. done.
Qed.

(** Stability: the elements that satisfy a predicate closed under equal
    rank keep the order of the input. *)
Lemma insert_by_filter (f : A -> bool) (x : A) (l : list A) :
  (forall y, In y l -> f x = true -> f y = true -> le y x = true) ->
  List.filter f (insert_by before x l) = List.filter f (x :: l).
Proof.
  induction l as [|y l IH]; intros H; simpl; [done|].
  unfold before at 1. destruct (le y x) eqn:E; [done|].
  simpl. rewrite IH by (intros; apply H; auto; by right).
  simpl. destruct (f x) eqn:Fx, (f y) eqn:Fy; try done.
  rewrite H in E; [done|by left|done|done].
Qed.

Lemma stable_sort_filter (f : A -> bool) (l : list A) :
  (forall x y, f x = true -> f y = true -> le y x = true) ->
  List.filter f (stable_sort before l) = List.filter f l.
Proof.
  intros Hf. induction l as [|x l IH]; [done|].
  change (stable_sort before (x :: l))
    with (insert_by before x (stable_sort before l)).
  rewrite insert_by_filter by eauto.
  simpl. by rewrite IH.
Qed.

End StableSort.

(** ** Floats *)

Section FloatFacts.
Import Py.

Lemma float_leb_trans (x y z : pyfloat) :
  float_leb x y = true -> float_leb y z = true -> float_leb x z = true.
Proof.
  destruct x as [a| | |], y as [b| | |], z as [c| | |]; simpl; try done.
  rewrite !Qle_bool_iff. apply Qle_trans.
Qed.

Lemma float_leb_total (x y : pyfloat) :
  float_isnan x = false -> float_isnan y = false ->
  float_leb x y = true \/ float_leb y x = true.
Proof.
  destruct x as [a| | |], y as [b| | |]; simpl; try done; auto.
  intros _ _. rewrite !Qle_bool_iff.
  destruct (Qlt_le_dec a b) as [H|H]; [left; by apply Qlt_le_weak | by right].
Qed.

Lemma float_leb_nan_l (x y : pyfloat) :
  float_leb x y = true -> float_isnan x = false.
Proof. by destruct x, y. Qed.


Lemma Qfloor_nonneg (q : Q) : (0 <= q)%Q -> 0 <= Qfloor q.
Proof. intros H. change 0 with (Qfloor 0). by apply Qfloor_resp_le. Qed.


Lemma trunc_nonneg (q : Q) : (0 <= q)%Q -> 0 <= trunc q.
Proof.
  intros H. unfold trunc.
  apply Qle_bool_iff in H as H'. rewrite H'. by apply Qfloor_nonneg.
Qed.


Lemma int_of_float_Ok_notnan (x : pyfloat) (n : Z) :
  int_of_float x = Ok n -> float_isnan x = false.
Proof. by destruct x. Qed.

Lemma fillna0_notnan (x : pyfloat) : float_isnan (fillna0 x) = false.
Proof. by destruct x. Qed.

End FloatFacts.

Section FloatOrder.
Import Py.

Lemma float_leb_refl (x : pyfloat) :
  float_isnan x = false -> float_leb x x = true.
Proof.
  intros H. by destruct (float_leb_total x x H H).
Qed.

(** What every conforming [sort_values] gives at index 0: a row of the
    table whose value no row exceeds. *)
Lemma conforming_head (sort_values : sorter) (A : Type) (key : A -> pyfloat)
    (l : list A) :
  conforming sort_values -> l <> [] ->
  Forall (fun x => float_isnan (key x) = false) l ->
  exists w rest,
    sort_values A key l = w :: rest /\
    In w l /\
    Forall (fun y => float_leb (key y) (key w) = true) l.
Proof.
  intros [Hperm Hsorted] Hne Hnan.
  specialize (Hperm A key l). specialize (Hsorted A key l Hnan).
  destruct (sort_values A key l) as [|w rest] eqn:E.
  - apply Permutation_nil in Hperm. done.
  - exists w, rest. split; [done|].
    assert (Hw : In w l).
    { eapply Permutation_in; [exact Hperm|]. by left. }
    split; [done|].
    eapply Permutation_Forall; [exact Hperm|].
    inversion Hsorted as [|? ? _ Hrest]; subst.
    constructor; [|done].
    apply float_leb_refl.
    rewrite List.Forall_forall in Hnan. by apply Hnan.
Qed.

Lemma stable_sorter_conforming : conforming stable_sorter.
Proof.
  split; intros A key l.
  - apply stable_sort_perm.
  - intros Hnan.
    apply (stable_sort_sorted (fun a b => float_leb (key a) (key b))
             (fun x => float_isnan (key x) = false)); [| |done].
    + intros x y z. apply float_leb_trans.
    + intros x y. apply float_leb_total.
Qed.

End FloatOrder.

(** ** Grouping *)

Section GroupBy.
Import Py.
Context {A : Type} (same : A -> A -> bool).

Lemma first_occurrences_In (l : list A) (x : A) :
  In x (first_occurrences same l) -> In x l.
Proof.
  induction l as [|y l IH]; simpl; [done|].
  intros [->|H]; [by left|].
  right. apply IH. apply filter_In in H. tauto.
Qed.

(** A group is the rows of one key, in the order of the table. *)
Lemma groupby_In (l : list A) (g : list A) :
  In g (groupby same l) ->
  exists x, In x l /\ g = List.filter (same x) l.
Proof.
  unfold groupby. rewrite in_map_iff. intros (x & <- & Hx).
  exists x. split; [|done]. by apply first_occurrences_In.
Qed.

Lemma groupby_nil : groupby same [] = [].
Proof. done. Qed.

End GroupBy.

(** ** generate_map.py *)

Section GenerateMapFacts.
Import Py GenerateMap Spec.

Lemma votes_le_trans (x y z : Entry) :
  votes_le x y = true -> votes_le y z = true -> votes_le x z = true.
Proof. unfold votes_le. lia. Qed.

Lemma votes_le_total (x y : Entry) :
  True -> True -> votes_le x y = true \/ votes_le y x = true.
Proof. unfold votes_le. lia. Qed.

Lemma Forall_True {A : Type} (l : list A) : Forall (fun _ => True) l.
Proof. induction l; constructor; auto. Qed.

Lemma make_entry_votes (tv : Z) (r : NRow) (e : Entry) :
  make_entry tv r = Ok e -> py_int (Votes (row r)) = Ok (votes e).
Proof.
  unfold make_entry. intros H.
  apply bind_Ok_inv in H as (v & Hv & H). injection H as <-. done.
Qed.

Lemma group_record_inv (df : DataFrame) (g : list NRow)
    (d b pkey : string) (info : PosteInfo) :
  group_record df g = Ok (d, b, pkey, info) ->
  exists entries r g',
    g = r :: g' /\
    group_total_valid df g = Ok (total_valid info) /\
    group_rejected df g = Ok (rejected info) /\
    group_total df g (total_valid info) (rejected info) = Ok (total info) /\
    mapM (make_entry (total_valid info)) g = Ok entries /\
    rows info = stable_sort (desc_int votes) entries /\
    poste_key (Poste (row r)) = Ok pkey /\
    d = DistrictID_norm r /\ b = Bureau_norm r.
Proof.
  unfold group_record. intros H.
  apply bind_Ok_inv in H as (tv & Htv & H).
  apply bind_Ok_inv in H as (rej & Hrej & H).
  apply bind_Ok_inv in H as (tot & Htot & H).
  apply bind_Ok_inv in H as (entries & Hent & H).
  apply bind_Ok_inv in H as (p & Hp & H).
  apply bind_Ok_inv in H as (pk & Hpk & H).
  apply bind_Ok_inv in H as (dd & Hd & H).
  destruct g as [|r g']; [done|].
  injection Hp as <-. injection Hd as <-. injection H as <- <- <- <-.
  exists entries, r, g'. simpl. repeat split; done.
Qed.

(** The rows of a record are in descending order of votes. *)
Lemma rows_sorted (entries : list Entry) :
  StronglySorted (fun a b => votes_le b a = true)
    (stable_sort (desc_int votes) entries).
Proof.
  apply (stable_sort_sorted votes_le (fun _ => True)).
  - apply votes_le_trans.
  - apply votes_le_total.
  - apply Forall_True.
Qed.







End GenerateMapFacts.

(** ** genmap3.py *)

Section Genmap3Facts.
Import Py Genmap3 Spec.

Lemma g3_make_entry_inv (base : option pyfloat) (r : Row) (e : Entry) :
  make_entry base r = Ok e ->
  int_of_float (Votes r) = Ok (votes e) /\
  candidat e = normalize_str (Candidat r) /\
  parti e = normalize_str (Parti r) /\
  pct e = match base with
          | Some t =>
              if float_ltb (Finite 0) t
              then Some (float_div (Finite (inject_Z (votes e) * 100)) t)
              else None
          | None => None
          end.
Proof.
  unfold make_entry. intros H.
  apply bind_Ok_inv in H as (v & Hv & H). injection H as <-. done.
Qed.

Lemma g3_group_record_inv (sort_values : sorter) (df : Csv.DataFrame)
    (grp : list Row) (p s : string) (rec : Result) :
  group_record sort_values df grp = Ok (p, s, rec) ->
  exists w first rest,
    winner_row sort_values grp = Ok w /\
    grp = first :: rest /\
    mapM (make_entry
            (total_for_pct
               (group_max (Csv.has_TotalValidVotes df) TotalValidVotes grp)
               (group_max (Csv.has_TotalVotes df) TotalVotes grp))) grp
      = Ok (breakdown rec) /\
    int_of_float (Votes w) = Ok (winner_votes rec) /\
    winner_candidate rec = normalize_str (Candidat w) /\
    winner_party rec = normalize_str (Parti w) /\
    int_or_none (group_max (Csv.has_TotalValidVotes df) TotalValidVotes grp)
      = Ok (total_valid rec) /\
    int_or_none (group_max (Csv.has_TotalRejectedVotes df) TotalRejectedVotes grp)
      = Ok (total_rejected rec) /\
    int_or_none (group_max (Csv.has_TotalVotes df) TotalVotes grp)
      = Ok (total_votes rec) /\
    p = PosteNorm first /\ s = SectionCode first.
Proof.
  unfold group_record. intros H.
  apply bind_Ok_inv in H as (w & Hw & H).
  apply bind_Ok_inv in H as (bd & Hbd & H).
  apply bind_Ok_inv in H as (first & Hfirst & H).
  apply bind_Ok_inv in H as (wv & Hwv & H).
  apply bind_Ok_inv in H as (tv & Htv & H).
  apply bind_Ok_inv in H as (tr & Htr & H).
  apply bind_Ok_inv in H as (tt & Htt & H).
  destruct grp as [|r rest]; [done|].
  injection Hfirst as <-. injection H as <- <- <-.
  exists w, r, rest. simpl. repeat split; done.
Qed.

Lemma g3_entries_votes (base : option pyfloat) (grp : list Row)
    (entries : list Entry) :
  mapM (make_entry base) grp = Ok entries ->
  Forall2 (fun r e => int_of_float (Votes r) = Ok (votes e)) grp entries.
Proof.
  intros H. apply mapM_Ok_inv in H.
  eapply Forall2_impl; [exact H|]. simpl. intros r e He.
  by apply g3_make_entry_inv in He as (? & _).
Qed.

Lemma g3_votes_notnan (grp : list Row) (entries : list Entry) :
  Forall2 (fun r e => int_of_float (Votes r) = Ok (votes e)) grp entries ->
  Forall (fun r => float_isnan (Votes r) = false) grp.
Proof.
  induction 1 as [|r e grp entries Hr _ IH]; constructor; [|done].
  by eapply int_of_float_Ok_notnan.
Qed.


End Genmap3Facts.

(** ** Lists *)

Section ListFacts.
Context {A B : Type}.

Lemma StronglySorted_filter_keep (R : A -> A -> Prop) (f : A -> bool)
    (l : list A) :
  StronglySorted R l -> StronglySorted R (List.filter f l).
Proof.
  induction 1 as [|x l Hs IH Hx]; simpl; [constructor|].
  destruct (f x); [|done].
  constructor; [done|].
  rewrite List.Forall_forall in *. intros y Hy.
  apply filter_In in Hy as [Hy _]. by apply Hx.
Qed.

Lemma Forall2_In_r (R : A -> B -> Prop) (l : list A) (k : list B) (y : B) :
  Forall2 R l k -> In y k -> exists x, In x l /\ R x y.
Proof.
  induction 1 as [|x y' l k Hxy _ IH]; simpl; [done|].
  intros [->|Hy].
  - exists x. auto.
  - destruct (IH Hy) as (x' & Hx' & HR). exists x'. auto.
Qed.

Lemma Forall2_In_l (R : A -> B -> Prop) (l : list A) (k : list B) (x : A) :
  Forall2 R l k -> In x l -> exists y, In y k /\ R x y.
Proof.
  induction 1 as [|x' y l k Hxy _ IH]; simpl; [done|].
  intros [->|Hx].
  - exists y. auto.
  - destruct (IH Hx) as (y' & Hy' & HR). exists y'. auto.
Qed.

End ListFacts.

(** ** v1-1/gen_mairie.py *)

Section GenMairieFacts.
Import Py GenMairie Spec.

Lemma prepare_notnan (rows : list Csv.Row) :
  Forall (fun r => float_isnan (Votes r) = false) (map prepare rows).
Proof.
  apply Forall_map. apply List.Forall_forall. intros r _. simpl.
  apply fillna0_notnan.
Qed.

Lemma same_key_eq (r1 r2 : Row) :
  same_key r1 r2 = true <->
  ElectoralDistrictID r1 = ElectoralDistrictID r2 /\ PosteNorm r1 = PosteNorm r2.
Proof.
  unfold same_key. rewrite andb_true_iff, !String.eqb_eq. done.
Qed.

(** The votes of a row of [winners] are the largest of its district and
    poste, whatever row the sort puts first among equal ones. *)
Lemma load_results_votes_max (sort_values : sorter) (rows : list Csv.Row)
    (ws : list Winner) (w : Winner) :
  conforming sort_values ->
  load_results sort_values rows = Ok ws ->
  In w ws ->
  let grp :=
    List.filter
      (fun r => (String.eqb (ElectoralDistrictID r) (w_ElectoralDistrictID w)
                 && String.eqb (PosteNorm r) (w_PosteNorm w))%bool)
      (map prepare rows) in
  (exists r, In r grp /\ Votes r = w_Votes w) /\
  Forall (fun r => float_leb (Votes r) (w_Votes w) = true) grp.
Proof.
  intros Hc Hload Hw grp.
  pose proof (prepare_notnan rows) as Hnan.
  destruct Hc as [Hperm Hsorted].
  specialize (Hperm Row Votes (map prepare rows)).
  specialize (Hsorted Row Votes (map prepare rows) Hnan).
  unfold load_results in Hload.
  set (sorted := sort_values Row Votes (map prepare rows)) in *.
  apply mapM_Ok_inv in Hload.
  destruct (Forall2_In_r _ _ _ _ Hload Hw) as (g & Hg & Hfirst).
  apply groupby_In in Hg as (x & Hx & ->).
  pose proof (StronglySorted_filter_keep _ (same_key x) _ Hsorted) as Hgs.
  assert (Hnan' : Forall (fun r => float_isnan (Votes r) = false) sorted).
  { eapply Permutation_Forall; [symmetry; exact Hperm|done]. }
  destruct (List.filter (same_key x) sorted) as [|r0 g'] eqn:Eg; [done|].
  simpl in Hfirst.
  assert (Hr0 : In r0 (List.filter (same_key x) sorted)).
  { rewrite Eg. by left. }
  apply filter_In in Hr0 as [Hr0s Hr0k].
  assert (Hr0nan : float_isnan (Votes r0) = false).
  { rewrite List.Forall_forall in Hnan'. by apply Hnan'. }
  assert (Hv : w_Votes w = Votes r0).
  { injection Hfirst as <-. simpl. unfold first_float. simpl.
    by rewrite Hr0nan. }
  assert (Hk : w_ElectoralDistrictID w = ElectoralDistrictID r0 /\
               w_PosteNorm w = PosteNorm r0).
  { injection Hfirst as <-. done. }
  destruct Hk as [Hk1 Hk2]. apply same_key_eq in Hr0k as [Hx1 Hx2].
  split.
  - exists r0. split; [|done]. subst grp. apply filter_In. split.
    + eapply Permutation_in; [exact Hperm|done].
    + rewrite Hk1, Hk2, !String.eqb_refl. done.
  - apply List.Forall_forall. intros r Hr. subst grp.
    apply filter_In in Hr as [Hr Hrk].
    apply andb_true_iff in Hrk as [Hrk1 Hrk2].
    apply String.eqb_eq in Hrk1, Hrk2.
    assert (Hin : In r (r0 :: g')).
    { rewrite <- Eg. apply filter_In. split.
      - eapply Permutation_in; [symmetry; exact Hperm|done].
      - apply same_key_eq. split; congruence. }
    rewrite Hv. destruct Hin as [<-|Hin].
    + by apply float_leb_refl.
    + inversion Hgs as [|? ? _ Hall]; subst.
      rewrite List.Forall_forall in Hall. by apply Hall.
Qed.

End GenMairieFacts.

(** ** The winner among rows of equal votes *)

Section WinnerFacts.
Import Py Spec.


(** [genmap3]: under any conforming sort the winner is a row of the group
    that no row exceeds. *)
Lemma g3_winner_largest (sort_values : sorter) (df : Genmap3.Csv.DataFrame)
    (grp : list Genmap3.Row) (p s : string) (rec : Genmap3.Result) :
  conforming sort_values ->
  Genmap3.group_record sort_values df grp = Ok (p, s, rec) ->
  exists w,
    In w grp /\
    Forall (fun y => Votes_le y w = true) grp /\
    Genmap3.winner_candidate rec = Genmap3.normalize_str (Genmap3.Candidat w) /\
    Genmap3.winner_party rec = Genmap3.normalize_str (Genmap3.Parti w) /\
    int_of_float (Genmap3.Votes w) = Ok (Genmap3.winner_votes rec).
Proof.
  intros Hc H.
  apply g3_group_record_inv in H
    as (w & first & rest & Hw & Hg & Hbd & Hwv & Hwc & Hwp & _).
  apply g3_entries_votes in Hbd as HF.
  pose proof (g3_votes_notnan _ _ HF) as Hnan.
  assert (Hne : grp <> []) by (by rewrite Hg).
  destruct (conforming_head sort_values _ Genmap3.Votes grp Hc Hne Hnan)
    as (w' & rest' & Es & Hin & Hle).
  unfold Genmap3.winner_row in Hw. rewrite Es in Hw. injection Hw as ->.
  exists w. done.
Qed.


End WinnerFacts.

(** ** The order of the breakdown *)

Section BreakdownFacts.
Import Py Spec.

Lemma sorted_desc_votes (l : list GenerateMap.Entry) :
  StronglySorted (fun a b => votes_le b a = true) l ->
  sorted_desc (map GenerateMap.votes l).
Proof.
  unfold sorted_desc.
  induction 1 as [|x l Hs IH Hx]; simpl; constructor; [done|].
  apply Forall_map. eapply Forall_impl; [exact Hx|].
  simpl. unfold votes_le. lia.
Qed.

(** [generate_map]: the rows of a record are the entries of the group,
    sorted by votes, largest first, entries of equal votes in the order of
    the table. *)
Lemma gm_rows_sorted_stable (df : GenerateMap.DataFrame)
    (g : list GenerateMap.NRow) (d b pkey : string)
    (info : GenerateMap.PosteInfo) :
  GenerateMap.group_record df g = Ok (d, b, pkey, info) ->
  exists entries,
    Forall2 (fun r e =>
               GenerateMap.make_entry (GenerateMap.total_valid info) r = Ok e)
      g entries /\
    Permutation (GenerateMap.rows info) entries /\
    sorted_desc (map GenerateMap.votes (GenerateMap.rows info)) /\
    forall v,
      List.filter (fun e => GenerateMap.votes e =? v) (GenerateMap.rows info)
      = List.filter (fun e => GenerateMap.votes e =? v) entries.
Proof.
  intros H.
  apply group_record_inv in H
    as (entries & r & g' & -> & _ & _ & _ & Hent & Hrows & _).
  exists entries. rewrite Hrows.
  split; [by apply mapM_Ok_inv|].
  split; [apply stable_sort_perm|].
  split; [apply sorted_desc_votes, rows_sorted|].
  intros v.
  apply (stable_sort_filter votes_le).
  intros x y Hx Hy. unfold votes_le. lia.
Qed.

(** [genmap3]: the breakdown holds one entry for each row of the group, in
    the order of the table. *)
Lemma g3_breakdown_in_order (sort_values : sorter)
    (df : Genmap3.Csv.DataFrame) (grp : list Genmap3.Row) (p s : string)
    (rec : Genmap3.Result) :
  Genmap3.group_record sort_values df grp = Ok (p, s, rec) ->
  Forall2 (fun r e =>
             int_of_float (Genmap3.Votes r) = Ok (Genmap3.votes e) /\
             Genmap3.candidat e = Genmap3.normalize_str (Genmap3.Candidat r) /\
             Genmap3.parti e = Genmap3.normalize_str (Genmap3.Parti r))
    grp (Genmap3.breakdown rec).
Proof.
  intros H.
  apply g3_group_record_inv in H as (w & first & rest & _ & _ & Hbd & _).
  apply mapM_Ok_inv in Hbd.
  eapply Forall2_impl; [exact Hbd|]. simpl. intros r e He.
  apply g3_make_entry_inv in He. tauto.
Qed.

End BreakdownFacts.

(** ** Percentages *)

Section PctFacts.
Import Py Spec.

Lemma usable_spec (t : option pyfloat) :
  Genmap3.usable t = true <->
  exists x, t = Some x /\ float_ltb (Finite 0) x = true.
Proof.
  unfold Genmap3.usable. destruct t as [x|].
  - split.
    + intros H. apply andb_true_iff in H as [_ H]. eauto.
    + intros (y & [= <-] & H). rewrite H.
      destruct x; simpl in *; done.
  - split; [done|]. by intros (x & ? & _).
Qed.

(** The base of the percentages of [genmap3]: the valid votes when they
    are usable, else the total when it is, else none. *)
Lemma total_for_pct_rule (valid all : option pyfloat) :
  (Genmap3.usable valid = true ->
   Genmap3.total_for_pct valid all = valid) /\
  (Genmap3.usable valid = false -> Genmap3.usable all = true ->
   Genmap3.total_for_pct valid all = all) /\
  (Genmap3.usable valid = false -> Genmap3.usable all = false ->
   Genmap3.total_for_pct valid all = None).
Proof.
  unfold Genmap3.total_for_pct.
  repeat split; intros; repeat match goal with H : _ = _ |- _ => rewrite H end;
    done.
Qed.

Lemma total_for_pct_positive (valid all : option pyfloat) (t : pyfloat) :
  Genmap3.total_for_pct valid all = Some t ->
  float_ltb (Finite 0) t = true.
Proof.
  unfold Genmap3.total_for_pct.
  destruct (Genmap3.usable valid) eqn:Ev.
  - intros ->. apply usable_spec in Ev as (x & [= <-] & H). done.
  - destruct (Genmap3.usable all) eqn:Ea; [|done].
    intros ->. apply usable_spec in Ea as (x & [= <-] & H). done.
Qed.

(** The percentage of every entry of a record of [genmap3]. *)
Lemma g3_pct_rule (sort_values : sorter) (df : Genmap3.Csv.DataFrame)
    (grp : list Genmap3.Row) (p s : string) (rec : Genmap3.Result) :
  Genmap3.group_record sort_values df grp = Ok (p, s, rec) ->
  Forall (fun e =>
            Genmap3.pct e =
              match Genmap3.total_for_pct
                      (Genmap3.group_max (Genmap3.Csv.has_TotalValidVotes df)
                         Genmap3.TotalValidVotes grp)
                      (Genmap3.group_max (Genmap3.Csv.has_TotalVotes df)
                         Genmap3.TotalVotes grp) with
              | Some t =>
                  Some (float_div
                          (Finite (inject_Z (Genmap3.votes e) * 100)) t)
              | None => None
              end)
    (Genmap3.breakdown rec).
Proof.
  intros H.
  apply g3_group_record_inv in H as (w & first & rest & _ & _ & Hbd & _).
  apply mapM_Ok_inv in Hbd.
  apply List.Forall_forall. intros e He.
  destruct (Forall2_In_r _ _ _ _ Hbd He) as (r & _ & Hr).
  apply g3_make_entry_inv in Hr as (_ & _ & _ & Hpct).
  rewrite Hpct.
  destruct (Genmap3.total_for_pct _ _) as [t|] eqn:Et; [|done].
  by rewrite (total_for_pct_positive _ _ _ Et).
Qed.

(** The three cases of the rule, entry by entry. *)
Lemma g3_pct_cases (sort_values : sorter) (df : Genmap3.Csv.DataFrame)
    (grp : list Genmap3.Row) (p s : string) (rec : Genmap3.Result) :
  Genmap3.group_record sort_values df grp = Ok (p, s, rec) ->
  let valid :=
    Genmap3.group_max (Genmap3.Csv.has_TotalValidVotes df)
      Genmap3.TotalValidVotes grp in
  let all :=
    Genmap3.group_max (Genmap3.Csv.has_TotalVotes df)
      Genmap3.TotalVotes grp in
  Forall (fun e =>
            (forall t, valid = Some t -> float_ltb (Finite 0) t = true ->
               Genmap3.pct e =
                 Some (float_div
                         (Finite (inject_Z (Genmap3.votes e) * 100)) t)) /\
            (forall t, Genmap3.usable valid = false ->
               all = Some t -> float_ltb (Finite 0) t = true ->
               Genmap3.pct e =
                 Some (float_div
                         (Finite (inject_Z (Genmap3.votes e) * 100)) t)) /\
            (Genmap3.usable valid = false -> Genmap3.usable all = false ->
               Genmap3.pct e = None))
    (Genmap3.breakdown rec).
Proof.
  intros H valid all.
  pose proof (g3_pct_rule sort_values df grp p s rec H) as Hrule.
  fold valid all in Hrule.
  destruct (total_for_pct_rule valid all) as (R1 & R2 & R3).
  eapply Forall_impl; [exact Hrule|]. simpl. intros e He.
  split; [|split].
  - intros t Hv Ht.
    assert (Hu : Genmap3.usable valid = true).
    { apply usable_spec. eauto. }
    by rewrite He, (R1 Hu), Hv.
  - intros t Hu Ha Ht.
    assert (Hu' : Genmap3.usable all = true).
    { apply usable_spec. eauto. }
    by rewrite He, (R2 Hu Hu'), Ha.
  - intros Hu Hu'. by rewrite He, (R3 Hu Hu').
Qed.

(** The percentage of an entry of [generate_map]. *)
Lemma gm_pct_rule (tv : Z) (r : GenerateMap.NRow) (e : GenerateMap.Entry) :
  GenerateMap.make_entry tv r = Ok e ->
  GenerateMap.pct e =
    if 0 <? tv
    then round2 (inject_Z (100 * GenerateMap.votes e) / inject_Z tv)
    else 0%Q.
Proof.
  unfold GenerateMap.make_entry. intros H.
  apply bind_Ok_inv in H as (v & Hv & H). injection H as <-. simpl.
  by destruct (0 <? tv).
Qed.

(** A conforming sort leaves a table of one row as it is, so the record of
    a group of one row does not depend on the sort. *)
Lemma conforming_singleton (sort_values : sorter) (A : Type)
    (key : A -> pyfloat) (x : A) :
  conforming sort_values -> sort_values A key [x] = [x].
Proof.
  intros [Hperm _]. specialize (Hperm A key [x]).
  symmetry in Hperm. by apply Permutation_length_1_inv in Hperm.
Qed.

Lemma g3_one_row_table (sort_values : sorter) (df : Genmap3.Csv.DataFrame)
    (r : Genmap3.Csv.Row) :
  conforming sort_values ->
  Genmap3.Csv.rows df = [r] ->
  Genmap3.build_results_index sort_values df
  = Genmap3.build_results_index stable_sorter df.
Proof.
  intros Hc Hrows. unfold Genmap3.build_results_index. rewrite Hrows. simpl.
  destruct (Genmap3.prepare r) as [row|e]; [|done]. simpl.
  unfold groupby. simpl.
  assert (Genmap3.same_key row row = true) as ->.
  { unfold Genmap3.same_key. by rewrite !String.eqb_refl. }
  simpl. unfold Genmap3.store, Genmap3.group_record, Genmap3.winner_row.
  rewrite (conforming_singleton sort_values _ _ _ Hc).
  rewrite (conforming_singleton stable_sorter _ _ _ stable_sorter_conforming).
  done.
Qed.

End PctFacts.

(** ** Office codes *)

Section PosteFacts.
Import Py Spec.






End PosteFacts.

(** ** Exceptions *)

Section RaiseFacts.
Import Py Spec.

Lemma foldM_Ok_intro {A S : Type} (f : S -> A -> result S) (l : list A) (s : S) :
  (forall s' x, In x l -> exists s'', f s' x = Ok s'') ->
  exists s', foldM f l s = Ok s'.
Proof.
  revert s. induction l as [|x l IH]; intros s H; simpl; [eauto|].
  destruct (H s x) as [s1 Hs1]; [by left|]. rewrite Hs1. simpl.
  apply IH. intros s' y Hy. apply H. by right.
Qed.

Lemma groupby_group {A : Type} (same : A -> A -> bool) (l g : list A) :
  (forall x, same x x = true) ->
  In g (groupby same l) ->
  g <> [] /\ forall y, In y g -> In y l.
Proof.
  intros Hrefl Hg. apply groupby_In in Hg as (x & Hx & ->). split.
  - intros E.
    assert (Hin : In x (List.filter (same x) l)).
    { apply filter_In. auto. }
    by rewrite E in Hin.
  - intros y Hy. apply filter_In in Hy. tauto.
Qed.

Lemma g3_same_key_refl (r : Genmap3.Row) : Genmap3.same_key r r = true.
Proof. unfold Genmap3.same_key. by rewrite !String.eqb_refl. Qed.

Lemma prepare_readable (r : Genmap3.Csv.Row) :
  g3_readable r -> exists row, Genmap3.prepare r = Ok row /\ g3_clean row.
Proof.
  intros ((q & Hd) & Hv & Htv & Htr & Htt).
  unfold Genmap3.prepare. rewrite Hd. simpl.
  eexists. split; [done|]. unfold g3_clean. simpl.
  split; [|done].
  destruct (to_numeric_coerce (Genmap3.Csv.Votes r)); simpl in *; eauto; done.
Qed.

Lemma mapM_prepare_readable (rows : list Genmap3.Csv.Row) :
  Forall g3_readable rows ->
  exists l, mapM Genmap3.prepare rows = Ok l /\ Forall g3_clean l.
Proof.
  induction 1 as [|r rows Hr _ (l & Hl & Hc)]; simpl; [eauto|].
  destruct (prepare_readable r Hr) as (row & Hrow & Hclean).
  rewrite Hrow. simpl. rewrite Hl. simpl. eauto.
Qed.

Lemma column_max_not_inf (l : list pyfloat) :
  Forall (fun x => float_isinf x = false) l ->
  float_isinf (column_max l) = false.
Proof.
  induction 1 as [|x l Hx _ IH]; simpl; [done|].
  unfold float_max_skipna.
  destruct x, (column_max l) eqn:E; simpl in *; try done;
    by destruct (Qle_bool _ _).
Qed.

Lemma int_or_none_not_inf (t : option pyfloat) :
  (forall x, t = Some x -> float_isinf x = false) ->
  exists o, Genmap3.int_or_none t = Ok o.
Proof.
  intros H. destruct t as [x|]; simpl; [|eauto].
  specialize (H x eq_refl). destruct x; simpl in *; eauto; done.
Qed.

Lemma group_max_not_inf (present : bool) (col : Genmap3.Row -> pyfloat)
    (grp : list Genmap3.Row) :
  Forall (fun r => float_isinf (col r) = false) grp ->
  forall x, Genmap3.group_max present col grp = Some x -> float_isinf x = false.
Proof.
  intros H x. unfold Genmap3.group_max. destruct present; [|done].
  intros [= <-]. apply column_max_not_inf. by apply Forall_map.
Qed.

(** [genmap3]: the body of the loop raises nothing on a group of rows whose
    numbers are finite. *)
Lemma g3_group_record_ok (sort_values : sorter) (df : Genmap3.Csv.DataFrame)
    (grp : list Genmap3.Row) :
  conforming sort_values -> grp <> [] -> Forall g3_clean grp ->
  exists x, Genmap3.group_record sort_values df grp = Ok x.
Proof.
  intros Hc Hne Hclean.
  assert (Hfin : Forall (fun r => exists q, Genmap3.Votes r = Finite q) grp).
  { eapply Forall_impl; [exact Hclean|]. by intros r (H & _). }
  assert (Hnan : Forall (fun r => float_isnan (Genmap3.Votes r) = false) grp).
  { eapply Forall_impl; [exact Hfin|]. simpl. by intros r (q & ->). }
  destruct (conforming_head sort_values _ Genmap3.Votes grp Hc Hne Hnan)
    as (w & rest & Es & Hin & _).
  unfold Genmap3.group_record, Genmap3.winner_row. rewrite Es. simpl.
  destruct (mapM_Ok_intro
              (Genmap3.make_entry
                 (Genmap3.total_for_pct
                    (Genmap3.group_max (Genmap3.Csv.has_TotalValidVotes df)
                       Genmap3.TotalValidVotes grp)
                    (Genmap3.group_max (Genmap3.Csv.has_TotalVotes df)
                       Genmap3.TotalVotes grp))) grp) as (bd & Hbd).
  { eapply Forall_impl; [exact Hfin|]. simpl. intros r (q & Hq).
    unfold Genmap3.make_entry. rewrite Hq. simpl. eauto. }
  rewrite Hbd. simpl.
  destruct grp as [|first grp']; [done|]. simpl.
  rewrite List.Forall_forall in Hfin. destruct (Hfin w Hin) as (q & ->). simpl.
  destruct (int_or_none_not_inf
              (Genmap3.group_max (Genmap3.Csv.has_TotalValidVotes df)
                 Genmap3.TotalValidVotes (first :: grp'))) as (tv & ->).
  { apply group_max_not_inf.
    eapply Forall_impl; [exact Hclean|]. by intros r (_ & H & _). }
  destruct (int_or_none_not_inf
              (Genmap3.group_max (Genmap3.Csv.has_TotalRejectedVotes df)
                 Genmap3.TotalRejectedVotes (first :: grp'))) as (tr & ->).
  { apply group_max_not_inf.
    eapply Forall_impl; [exact Hclean|]. by intros r (_ & _ & H & _). }
  destruct (int_or_none_not_inf
              (Genmap3.group_max (Genmap3.Csv.has_TotalVotes df)
                 Genmap3.TotalVotes (first :: grp'))) as (tt & ->).
  { apply group_max_not_inf.
    eapply Forall_impl; [exact Hclean|]. by intros r (_ & _ & _ & H). }
  simpl. eauto.
Qed.

(** [genmap3]: the whole function raises nothing on such a table. *)
Lemma g3_build_results_index_ok (sort_values : sorter)
    (df : Genmap3.Csv.DataFrame) :
  conforming sort_values ->
  Forall g3_readable (Genmap3.Csv.rows df) ->
  exists index, Genmap3.build_results_index sort_values df = Ok index.
Proof.
  intros Hc Hrows. unfold Genmap3.build_results_index.
  destruct (mapM_prepare_readable _ Hrows) as (l & -> & Hclean). simpl.
  apply foldM_Ok_intro. intros index grp Hgrp.
  destruct (groupby_group _ _ _ g3_same_key_refl Hgrp) as (Hne & Hsub).
  destruct (g3_group_record_ok sort_values df grp Hc Hne) as ([[p s] rec] & Hrec).
  { rewrite List.Forall_forall in *. auto. }
  unfold Genmap3.store. rewrite Hrec. simpl. eauto.
Qed.

(** The normalisers on a value without a digit. *)
Lemma normalisers_no_digit (x : pyval) :
  re_sub_nondigits (py_str x) = "" ->
  GenerateMap.norm_digits x = "" /\ GenerateMap.norm_bureau3 x = "000".
Proof.
  intros H. unfold GenerateMap.norm_digits, GenerateMap.norm_bureau3.
  by rewrite H.
Qed.

(** [generate_map] converts the votes with [int] as they are: a missing
    cell and a text that is not an integer raise. *)
Lemma gm_make_entry_raises (tv : Z) (r : GenerateMap.NRow) :
  (pd_isna (GenerateMap.Votes (GenerateMap.row r)) = true ->
   exists e, GenerateMap.make_entry tv r = Raise e) /\
  (forall s, GenerateMap.Votes (GenerateMap.row r) = VStr s ->
             int_of_string s = None ->
             GenerateMap.make_entry tv r = Raise ValueError).
Proof.
  unfold GenerateMap.make_entry. split.
  - destruct (GenerateMap.Votes (GenerateMap.row r)) as [| | |?|[| | |]];
      simpl; try done; eauto.
  - intros s -> Hs. simpl. by rewrite Hs.
Qed.

End RaiseFacts.

(** ** Totals *)

Section TotalFacts.
Import Py Spec.

Lemma float_max_skipna_nan (x y : pyfloat) :
  float_isnan (float_max_skipna x y) = true <->
  float_isnan x = true /\ float_isnan y = true.
Proof.
  unfold float_max_skipna.
  destruct x, y; simpl; try tauto; destruct (Qle_bool _ _); simpl; tauto.
Qed.

Lemma column_max_nan (l : list pyfloat) :
  float_isnan (column_max l) = true <->
  Forall (fun x => float_isnan x = true) l.
Proof.
  induction l as [|x l IH]; simpl.
  - split; [constructor|done].
  - rewrite float_max_skipna_nan, IH. split.
    + intros [? ?]. by constructor.
    + intros H. by inversion H.
Qed.

Lemma column_max_In (l : list pyfloat) :
  float_isnan (column_max l) = true \/ In (column_max l) l.
Proof.
  induction l as [|x l IH]; simpl; [by left|].
  unfold float_max_skipna.
  destruct IH as [IH|IH].
  - destruct (column_max l); try done. destruct x; auto.
  - destruct x, (column_max l) eqn:E; simpl; auto;
      destruct (Qle_bool _ _); auto.
Qed.

Lemma g3_total_field (present : bool) (col : Genmap3.Row -> pyfloat)
    (grp : list Genmap3.Row) (o : option Z) :
  Genmap3.int_or_none (Genmap3.group_max present col grp) = Ok o ->
  none_or_source present col grp o.
Proof.
  unfold Genmap3.group_max, none_or_source. destruct present; simpl.
  - destruct (float_isnan (column_max (map col grp))) eqn:E.
    + intros [= <-]. apply column_max_nan in E.
      apply Forall_map in E. split; [|done]. split; auto.
    + intros H. apply bind_Ok_inv in H as (n & Hn & [= <-]).
      split.
      * split; [done|]. intros [?|H]; [done|].
        apply (Forall_map col (fun x => float_isnan x = true)) in H.
        apply column_max_nan in H. congruence.
      * intros n' [= <-]. split; [done|].
        destruct (column_max_In (map col grp)) as [H|H]; [congruence|].
        apply in_map_iff in H as (r & Hr & Hin).
        exists r. split; [done|]. by rewrite Hr.
  - intros [= <-]. split; [|done]. split; auto.
Qed.

End TotalFacts.

(** ** The votes of an entry *)

Section VotesFacts.
Import Py Spec.

Lemma to_numeric_missing (v : pyval) :
  pd_isna v = true -> to_numeric_coerce v = NaN.
Proof. destruct v as [| | | |[| | |]]; done. Qed.

Lemma plain_text_number (s : string) :
  plain_text s = true -> no_number_text s = false.
Proof.
  unfold plain_text, no_number_text. intros H.
  apply andb_true_iff in H as [_ H].
  induction s as [|c s IH]; simpl in *; [done|].
  apply andb_true_iff in H as [Hc H]. rewrite (IH H), orb_false_r.
  apply andb_false_iff. right. apply negb_false_iff.
  unfold is_number_char. simpl.
  destruct (is_digit c); [done|]. simpl in Hc.
  destruct (Ascii.eqb c "+"); [done|].
  destruct (Ascii.eqb c "-"); [done|].
  destruct (Ascii.eqb c "."); [done|]. done.
Qed.

Lemma no_number_no_integer (s : string) :
  no_number_text s = true -> no_integer_text s = true.
Proof.
  unfold no_number_text, no_integer_text.
  induction s as [|c s IH]; simpl; [done|].
  intros [H|H]%orb_true_iff; apply orb_true_iff; [left|right; auto].
  apply andb_true_iff in H as [Hp H]. rewrite Hp. simpl.
  apply negb_true_iff in H. apply negb_true_iff.
  unfold is_number_char, is_integer_char in *. simpl in *.
  destruct (is_digit c); [done|]. simpl in *.
  destruct (Ascii.eqb c "+"); [done|].
  destruct (Ascii.eqb c "-"); [done|].
  destruct (Ascii.eqb c "."); [|destruct (Ascii.eqb c "_")]; done.
Qed.

Lemma to_numeric_no_number (s : string) :
  no_number_text s = true -> to_numeric_coerce (VStr s) = NaN.
Proof. intros H. cbn [to_numeric_coerce]. unfold to_numeric_str. by rewrite H. Qed.

Lemma to_numeric_plain (s : string) (q : Q) :
  plain_text s = true -> decimal_value s = Some q ->
  to_numeric_coerce (VStr s) = Finite q.
Proof.
  intros Hp Hq. cbn [to_numeric_coerce]. unfold to_numeric_str.
  by rewrite (plain_text_number s Hp), Hp, Hq.
Qed.

Lemma float_of_string_no_number (s : string) :
  no_number_text s = true -> float_of_string s = None.
Proof. intros H. unfold float_of_string. by rewrite H. Qed.

Lemma float_of_string_plain (s : string) (q : Q) :
  plain_text s = true -> decimal_value s = Some q ->
  float_of_string s = Some (Finite q).
Proof.
  intros Hp Hq. unfold float_of_string.
  by rewrite (plain_text_number s Hp), Hp, Hq.
Qed.

Lemma int_of_string_no_integer (s : string) :
  no_integer_text s = true -> int_of_string s = None.
Proof. intros H. unfold int_of_string. by rewrite H. Qed.

Lemma to_numeric_coerced_missing (v : pyval) :
  coerced_missing v = true -> to_numeric_coerce v = NaN.
Proof.
  destruct v as [| |s| |[| | |]]; try done.
  apply to_numeric_no_number.
Qed.

Lemma to_numeric_holds_number (v : pyval) (q : Q) :
  holds_number v q -> to_numeric_coerce v = Finite q.
Proof.
  destruct v as [| |s|z|[x| | |]]; simpl; try done.
  - intros [Hp Hq]. by apply to_numeric_plain.
  - by intros ->.
  - by intros ->.
Qed.

Lemma plain_cell_finite (v : pyval) :
  plain_cell v -> float_isinf (to_numeric_coerce v) = false.
Proof.
  intros [H|[q H]].
  - by rewrite (to_numeric_coerced_missing v H).
  - by rewrite (to_numeric_holds_number v q H).
Qed.

Lemma g3_plain_row_readable (r : Genmap3.Csv.Row) :
  g3_plain_row r -> g3_readable r.
Proof.
  intros ([q Hd] & Hv & Ha & Hb & Hc). split.
  - exists q. by apply to_numeric_holds_number.
  - repeat split; by apply plain_cell_finite.
Qed.

Lemma prepare_Votes (r : Genmap3.Csv.Row) (row : Genmap3.Row) :
  Genmap3.prepare r = Ok row ->
  Genmap3.Votes row = fillna0 (to_numeric_coerce (Genmap3.Csv.Votes r)).
Proof.
  unfold Genmap3.prepare. intros H.
  apply bind_Ok_inv in H as (d & _ & [= <-]). done.
Qed.

(** [genmap3]: the votes of an entry are the number read from the cell,
    truncated; 0 when the cell does not read as a number. *)
Lemma g3_votes_coerced (r : Genmap3.Csv.Row) (row : Genmap3.Row)
    (base : option pyfloat) :
  Genmap3.prepare r = Ok row ->
  (to_numeric_coerce (Genmap3.Csv.Votes r) = NaN ->
   exists e, Genmap3.make_entry base row = Ok e /\ Genmap3.votes e = 0) /\
  (forall q,
      to_numeric_coerce (Genmap3.Csv.Votes r) = Finite q ->
      exists e,
        Genmap3.make_entry base row = Ok e /\
        Genmap3.votes e = trunc q /\
        ((0 <= q)%Q -> 0 <= Genmap3.votes e)).
Proof.
  intros H. apply prepare_Votes in H. unfold Genmap3.make_entry. split.
  - intros Hn. rewrite H, Hn. simpl. eauto.
  - intros q Hq. rewrite H, Hq. simpl. eexists. split; [done|]. simpl.
    split; [done|]. apply trunc_nonneg.
Qed.

End VotesFacts.

(** ** Totals made up from the votes *)

Section SumFacts.
Import Py Spec.

Lemma trunc_comp (a b : Q) : (a == b)%Q -> trunc a = trunc b.
Proof.
  intros H. unfold trunc.
  assert (E : Qle_bool 0 a = Qle_bool 0 b).
  { destruct (Qle_bool 0 a) eqn:Ea, (Qle_bool 0 b) eqn:Eb; try done.
    - apply Qle_bool_iff in Ea. rewrite H in Ea.
      apply Qle_bool_iff in Ea. congruence.
    - apply Qle_bool_iff in Eb. rewrite <- H in Eb.
      apply Qle_bool_iff in Eb. congruence. }
  rewrite E. destruct (Qle_bool 0 b).
  - by apply Qfloor_comp.
  - by apply Qceiling_comp.
Qed.

Lemma trunc_inject_Z (z : Z) : trunc (inject_Z z) = z.
Proof.
  unfold trunc. destruct (Qle_bool 0 (inject_Z z)).
  - apply Qfloor_Z.
  - apply Qceiling_Z.
Qed.

Lemma wrap64_id (z : Z) : in_int64 z -> wrap64 z = z.
Proof.
  unfold in_int64, wrap64. intros H. rewrite Z.mod_small; lia.
Qed.

Lemma wrap64_add (a b : Z) : wrap64 (wrap64 a + b) = wrap64 (a + b).
Proof.
  unfold wrap64.
  replace ((a + 2 ^ 63) mod 2 ^ 64 - 2 ^ 63 + b + 2 ^ 63)
    with ((a + 2 ^ 63) mod 2 ^ 64 + b) by lia.
  rewrite Zplus_mod_idemp_l. do 2 f_equal. lia.
Qed.

Lemma wrap64_range (z : Z) : in_int64 (wrap64 z).
Proof.
  unfold in_int64, wrap64.
  pose proof (Z.mod_pos_bound (z + 2 ^ 63) (2 ^ 64)). lia.
Qed.

(** The sum of an [int64] column is the sum of its integers, wrapped. *)
Lemma foldM_py_add_int (zs : list Z) (a : Z) :
  foldM py_add (map VInt zs) (VInt (wrap64 a))
  = Ok (VInt (wrap64 (a + sum_Z zs))).
Proof.
  revert a. induction zs as [|z zs IH]; intros a; cbn [map foldM sum_Z fold_right].
  - by rewrite Z.add_0_r.
  - cbn [py_add]. change (Ok ?v ≫= ?k) with (k v). cbv beta.
    rewrite wrap64_add, IH. unfold sum_Z. by rewrite Z.add_assoc.
Qed.

Lemma column_sum_int (zs : list Z) :
  Forall in_int64 zs ->
  column_sum (map VInt zs) = Ok (VInt (wrap64 (sum_Z zs))).
Proof.
  intros H. unfold column_sum.
  assert (E : map nan_to_zero (map VInt zs) = map VInt zs).
  { clear H. induction zs as [|z zs IH]; cbn [map]; [done|]. by rewrite IH. }
  rewrite E. destruct H as [|z zs Hz _]; cbn [map]; [reflexivity|].
  rewrite <- (wrap64_id z Hz) at 1. apply foldM_py_add_int.
Qed.

Lemma sum_Z_perm (l k : list Z) : Permutation l k -> sum_Z l = sum_Z k.
Proof.
  induction 1; simpl; try lia.
Qed.

(** The votes of the entries of a group of an [int64] column are the
    integers of its cells. *)
Lemma gm_entries_votes (tv : Z) (g : list GenerateMap.NRow)
    (entries : list GenerateMap.Entry) :
  Forall (fun r => exists z, int64_votes r z) g ->
  mapM (GenerateMap.make_entry tv) g = Ok entries ->
  map (fun r => GenerateMap.Votes (GenerateMap.row r)) g
  = map VInt (map GenerateMap.votes entries) /\
  Forall in_int64 (map GenerateMap.votes entries) /\
  map GenerateMap.votes entries = votes_cells g.
Proof.
  intros Hall Hent. apply mapM_Ok_inv in Hent. unfold votes_cells.
  induction Hent as [|x e l k He _ IH]; cbn [map]; [by repeat split|].
  inversion Hall as [|? ? (z & Hz & Hr) Hall']; subst.
  destruct (IH Hall') as (E & HF & Ec).
  apply make_entry_votes in He. rewrite Hz in He. cbn in He.
  injection He as <-. rewrite Hz, E, Ec.
  split; [done|]. split; [|done]. constructor; [done|]. by rewrite <- Ec.
Qed.

(** [generate_map]: the totals of a group whose columns are absent.  The
    sum of the votes is that of an [int64] column. *)
Lemma gm_totals_made_up (df : GenerateMap.DataFrame)
    (g : list GenerateMap.NRow) (d b pkey : string)
    (info : GenerateMap.PosteInfo) :
  GenerateMap.group_record df g = Ok (d, b, pkey, info) ->
  (GenerateMap.has_TotalValidVotes df = false ->
   Forall (fun r => exists z, int64_votes r z) g ->
   GenerateMap.total_valid info
   = wrap64 (sum_Z (map GenerateMap.votes (GenerateMap.rows info))) /\
   sum_Z (map GenerateMap.votes (GenerateMap.rows info))
   = sum_Z (votes_cells g)) /\
  (GenerateMap.has_TotalRejectedVotes df = false ->
   GenerateMap.rejected info = 0) /\
  (GenerateMap.has_TotalVotes df = false ->
   GenerateMap.total info
   = GenerateMap.total_valid info + GenerateMap.rejected info).
Proof.
  intros H.
  apply group_record_inv in H
    as (entries & r & g' & Hg & Htv & Hrej & Htot & Hent & Hrows & _).
  split; [|split].
  - intros Hno Hall.
    destruct (gm_entries_votes _ g entries Hall Hent) as (E & HF & Ec).
    unfold GenerateMap.group_total_valid in Htv. rewrite Hno, E in Htv.
    rewrite (column_sum_int _ HF) in Htv. cbn in Htv.
    injection Htv as <-.
    assert (Es : sum_Z (map GenerateMap.votes (GenerateMap.rows info))
                 = sum_Z (map GenerateMap.votes entries)).
    { rewrite Hrows. apply sum_Z_perm, Permutation_map, stable_sort_perm. }
    rewrite Es. split; [done|by rewrite Ec].
  - intros Hno. unfold GenerateMap.group_rejected in Hrej.
    rewrite Hno in Hrej. by injection Hrej.
  - intros Hno. unfold GenerateMap.group_total in Htot.
    rewrite Hno in Htot. by injection Htot.
Qed.

End SumFacts.

(** ** The records of an index *)

Section IndexFacts.
Import Py Spec.

Lemma g3_foldM_store_records (sort_values : sorter)
    (df : Genmap3.Csv.DataFrame) (groups : list (list Genmap3.Row))
    (index0 index : gmap string (gmap string Genmap3.Result)) :
  foldM (Genmap3.store sort_values df) groups index0 = Ok index ->
  forall p s rec,
    (index !! p ≫= fun sections => sections !! s) = Some rec ->
    (index0 !! p ≫= fun sections => sections !! s) = Some rec \/
    exists grp,
      In grp groups /\
      Genmap3.group_record sort_values df grp = Ok (p, s, rec).
Proof.
  revert index0. induction groups as [|grp groups IH]; intros index0 H p s rec.
  - simpl in H. injection H as <-. auto.
  - simpl in H. apply bind_Ok_inv in H as (index1 & Hstore & H).
    intros Hl. destruct (IH index1 H p s rec Hl) as [Hl1|(grp' & Hin & Hrec)].
    + unfold Genmap3.store in Hstore.
      apply bind_Ok_inv in Hstore as ([[p0 s0] rec0] & Hrec0 & [= <-]).
      rewrite lookup_insert in Hl1. destruct (decide (p0 = p)) as [->|Hp].
      * simpl in Hl1. rewrite lookup_insert in Hl1.
        destruct (decide (s0 = s)) as [->|Hs].
        -- injection Hl1 as ->. right. exists grp. split; [by left|done].
        -- left. destruct (index0 !! p); simpl in *; [done|].
           by rewrite lookup_empty in Hl1.
      * by left.
    + right. exists grp'. split; [by right|done].
Qed.

(** [genmap3]: every record of the index is the record of a group, and a
    group is the rows of one poste and section in the order of the
    table. *)
Lemma g3_index_records (sort_values : sorter) (df : Genmap3.Csv.DataFrame)
    (index : gmap string (gmap string Genmap3.Result))
    (p s : string) (rec : Genmap3.Result) :
  Genmap3.build_results_index sort_values df = Ok index ->
  (index !! p ≫= fun sections => sections !! s) = Some rec ->
  exists rows x,
    mapM Genmap3.prepare (Genmap3.Csv.rows df) = Ok rows /\
    In x rows /\
    Genmap3.group_record sort_values df
      (List.filter (Genmap3.same_key x) rows) = Ok (p, s, rec).
Proof.
  unfold Genmap3.build_results_index. intros H Hl.
  apply bind_Ok_inv in H as (rows & Hrows & H).
  destruct (g3_foldM_store_records _ _ _ _ _ H p s rec Hl)
    as [Hl0|(grp & Hin & Hrec)].
  - by rewrite lookup_empty in Hl0.
  - apply groupby_In in Hin as (x & Hx & ->). by exists rows, x.
Qed.

Lemma gm_foldM_store_records (df : GenerateMap.DataFrame)
    (groups : list (list GenerateMap.NRow))
    (index0 index : gmap (string * string) (gmap string GenerateMap.PosteInfo)) :
  foldM (GenerateMap.store df) groups index0 = Ok index ->
  forall d b pkey info,
    (index !! (d, b) ≫= fun postes => postes !! pkey) = Some info ->
    (index0 !! (d, b) ≫= fun postes => postes !! pkey) = Some info \/
    exists g,
      In g groups /\
      GenerateMap.group_record df g = Ok (d, b, pkey, info).
Proof.
  revert index0. induction groups as [|g groups IH];
    intros index0 H d b pkey info.
  - simpl in H. injection H as <-. auto.
  - simpl in H. apply bind_Ok_inv in H as (index1 & Hstore & H).
    intros Hl.
    destruct (IH index1 H d b pkey info Hl) as [Hl1|(g' & Hin & Hrec)].
    + unfold GenerateMap.store in Hstore.
      apply bind_Ok_inv in Hstore as ([[[d0 b0] k0] info0] & Hrec0 & [= <-]).
      rewrite lookup_insert in Hl1.
      destruct (decide ((d0, b0) = (d, b))) as [[= -> ->]|Hk].
      * simpl in Hl1. rewrite lookup_insert in Hl1.
        destruct (decide (k0 = pkey)) as [->|Hs].
        -- injection Hl1 as ->. right. exists g. split; [by left|done].
        -- left. destruct (index0 !! (d, b)); simpl in *; [done|].
           by rewrite lookup_empty in Hl1.
      * by left.
    + right. exists g'. split; [by right|done].
Qed.


(** [gen_mairie]: [GroupBy.first] takes each column apart.  A winner with
    a missing party gets the party of the next row of the group. *)
Lemma gen_mairie_first_skips_missing :
  (GenMairie.load_results stable_sorter
     [Examples.mairie_row "A" (VFloat NaN) (VInt 30);
      Examples.mairie_row "B" (VStr "PartyY") (VInt 20)]
     ≫= fun ws =>
          Ok (map (fun w => (GenMairie.w_Candidat w, GenMairie.w_Parti w,
                             GenMairie.w_Votes w)) ws))
  = Ok [(VStr "A", VStr "PartyY", Finite 30)].
Proof. vm_compute. reflexivity. Qed.

(** [generate_map]: the sum of a column of texts is their concatenation. *)
Lemma column_sum_of_texts :
  column_sum [VStr "30"; VStr "20"] = Ok (VStr "3020").
Proof. reflexivity. Qed.

End IndexFacts.

(** * The keys, the page and the maps *)

(** ** Texts *)

Section TextFacts.
Import Py Shape.

Lemma re_sub_nondigits_digits (s : string) :
  digits_only (re_sub_nondigits s) = true.
Proof.
  induction s as [|c s IH]; simpl; [done|].
  destruct (is_digit c) eqn:E; simpl; [by rewrite E|done].
Qed.

(** On the bytes of a text the JavaScript replacement does what the
    Python one does on ASCII text. *)
Lemma replace_nondigits_sub (s : string) :
  MapPage.replace_nondigits s = re_sub_nondigits s.
Proof. induction s as [|c s IH]; simpl; [done|]. by rewrite IH. Qed.

Lemma replace_nondigits_digits (s : string) :
  digits_only (MapPage.replace_nondigits s) = true.
Proof. rewrite replace_nondigits_sub. apply re_sub_nondigits_digits. Qed.

Lemma re_sub_nondigits_id (s : string) :
  digits_only s = true -> re_sub_nondigits s = s.
Proof.
  induction s as [|c s IH]; simpl; [done|].
  intros H. apply andb_true_iff in H as [Hc Hs]. by rewrite Hc, IH.
Qed.

Lemma lstrip_char_digits (s : string) :
  digits_only s = true -> digits_only (lstrip_char "0" s) = true.
Proof.
  induction s as [|c s IH]; simpl; [done|].
  intros H. apply andb_true_iff in H as [Hc Hs].
  destruct (Ascii.eqb c "0"); [auto|]. simpl. by rewrite Hc, Hs.
Qed.

Lemma lstrip_char_no_leading_zero (s : string) :
  no_leading_zero (lstrip_char "0" s) = true.
Proof.
  induction s as [|c s IH]; simpl; [done|].
  destruct (Ascii.eqb c "0") eqn:E; [done|]. simpl. by rewrite E.
Qed.

Lemma lstrip_char_id (s : string) :
  no_leading_zero s = true -> lstrip_char "0" s = s.
Proof.
  destruct s as [|c s]; simpl; [done|].
  by destruct (Ascii.eqb c "0").
Qed.

Lemma substring_digits (n m : nat) (s : string) :
  digits_only s = true -> digits_only (substring n m s) = true.
Proof.
  revert n m. induction s as [|c s IH]; intros n m H.
  - by destruct n, m.
  - simpl in H. apply andb_true_iff in H as [Hc Hs].
    destruct n as [|n]; simpl.
    + destruct m as [|m]; [done|]. simpl. by rewrite Hc, IH.
    + by apply IH.
Qed.

Lemma substring_length (n m : nat) (s : string) :
  String.length (substring n m s) = Nat.min m (String.length s - n).
Proof.
  revert n m. induction s as [|c s IH]; intros n m.
  - destruct n, m; simpl; lia.
  - destruct n as [|n]; simpl.
    + destruct m as [|m]; [done|]. simpl. rewrite IH. lia.
    + by rewrite IH.
Qed.

Lemma substring_all (s : string) :
  substring 0 (String.length s) s = s.
Proof. induction s as [|c s IH]; simpl; [done|]. by rewrite IH. Qed.

Lemma last_n_length (n : nat) (s : string) :
  String.length (last_n n s) = Nat.min n (String.length s).
Proof. unfold last_n. rewrite substring_length. lia. Qed.

Lemma append_length (s t : string) :
  String.length (s ++ t) = (String.length s + String.length t)%nat.
Proof. induction s as [|c s IH]; simpl; [done|]. by rewrite IH. Qed.

Lemma append_digits (s t : string) :
  digits_only s = true -> digits_only t = true ->
  digits_only (s ++ t) = true.
Proof.
  induction s as [|c s IH]; simpl; [done|].
  intros H Ht. apply andb_true_iff in H as [Hc Hs]. by rewrite Hc, IH.
Qed.

Lemma append_empty_r (s : string) : (s ++ "")%string = s.
Proof.
  induction s as [|c s IH]; [done|].
  change (String c (s ++ "")%string = String c s). by f_equal.
Qed.

Lemma zeros_length (n : nat) : String.length (zeros n) = n.
Proof. induction n as [|n IH]; simpl; [done|]. by rewrite IH. Qed.

Lemma zeros_digits (n : nat) : digits_only (zeros n) = true.
Proof. induction n as [|n IH]; simpl; done. Qed.

Lemma digit_not_sign (c : ascii) :
  is_digit c = true -> (Ascii.eqb c "+" || Ascii.eqb c "-")%bool = false.
Proof.
  intros H. destruct (Ascii.eqb c "+") eqn:E1.
  { apply Ascii.eqb_eq in E1. by subst. }
  destruct (Ascii.eqb c "-") eqn:E2; [|done].
  apply Ascii.eqb_eq in E2. by subst.
Qed.

(** On a text of digits Python's [zfill] is JavaScript's [padStart]. *)
Lemma zfill_digits (w : nat) (s : string) :
  digits_only s = true -> zfill w s = MapPage.padStart0 w s.
Proof.
  unfold zfill, MapPage.padStart0. destruct s as [|c s]; simpl.
  - intros _. by rewrite append_empty_r.
  - intros H. apply andb_true_iff in H as [Hc _].
    by rewrite (digit_not_sign c Hc).
Qed.

Lemma padStart0_bureau (s : string) :
  digits_only s = true -> (String.length s <= 3)%nat ->
  bureau_key (MapPage.padStart0 3 s).
Proof.
  intros Hd Hl. unfold MapPage.padStart0. split.
  - rewrite append_length, zeros_length. lia.
  - apply append_digits; [apply zeros_digits|done].
Qed.

Lemma padStart0_id (s : string) :
  String.length s = 3%nat -> MapPage.padStart0 3 s = s.
Proof. unfold MapPage.padStart0. by intros ->. Qed.

Lemma last_n_id (s : string) :
  String.length s = 3%nat -> last_n 3 s = s.
Proof.
  intros H. unfold last_n. rewrite H. simpl.
  rewrite <- H at 1. apply substring_all.
Qed.

Lemma digits_text_bureau (s : string) :
  digits_only s = true ->
  bureau_key (zfill 3 (if String.eqb s "" then "" else last_n 3 s)) /\
  zfill 3 (if String.eqb s "" then "" else last_n 3 s)
  = MapPage.padStart0 3 (last_n 3 s).
Proof.
  intros Hd.
  assert (E : (if String.eqb s "" then "" else last_n 3 s) = last_n 3 s).
  { destruct (String.eqb s "") eqn:E; [|done].
    apply String.eqb_eq in E. by subst. }
  rewrite E.
  assert (Hd' : digits_only (last_n 3 s) = true)
    by (by apply substring_digits).
  rewrite (zfill_digits 3 _ Hd'). split; [|done].
  apply padStart0_bureau; [done|]. rewrite last_n_length. lia.
Qed.

End TextFacts.

(** ** The normalisers *)

Section NormaliserFacts.
Import Py Shape.

Lemma norm_digits_district (x : pyval) :
  district_key (GenerateMap.norm_digits x).
Proof.
  unfold GenerateMap.norm_digits.
  pose proof (re_sub_nondigits_digits (py_str x)) as Hd.
  split; [by apply lstrip_char_digits|apply lstrip_char_no_leading_zero].
Qed.

Lemma norm_bureau3_bureau (x : pyval) :
  bureau_key (GenerateMap.norm_bureau3 x).
Proof.
  unfold GenerateMap.norm_bureau3.
  pose proof (re_sub_nondigits_digits (py_str x)) as Hd.
  destruct (digits_text_bureau _ Hd) as [[Hl Hb] E]. by split.
Qed.

(** X1.  On a value that prints as ASCII text, [norm_digits] gives a
    text of digits that does not begin with 0, and leaves such a text as it
    is: a key that is normalised again does not change. *)
Theorem norm_digits_canonical (x : pyval) :
  ascii_text (py_str x) = true ->
  district_key (GenerateMap.norm_digits x) /\
  GenerateMap.norm_digits (VStr (GenerateMap.norm_digits x))
  = GenerateMap.norm_digits x.
Proof.
  intros _. unfold GenerateMap.norm_digits.
  pose proof (re_sub_nondigits_digits (py_str x)) as Hd.
  pose proof (lstrip_char_digits _ Hd) as Hd'.
  pose proof (lstrip_char_no_leading_zero (re_sub_nondigits (py_str x))) as Hz.
  split; [by split|].
  simpl. by rewrite (re_sub_nondigits_id _ Hd'), (lstrip_char_id _ Hz).
Qed.

Lemma norm_digits_canonical_witness :
  district_key (GenerateMap.norm_digits (VStr "D-011")) /\
  GenerateMap.norm_digits (VStr (GenerateMap.norm_digits (VStr "D-011")))
  = GenerateMap.norm_digits (VStr "D-011").
Proof.
  apply (norm_digits_canonical (VStr "D-011")). reflexivity.
Defined.

(** X2.  On a value that prints as ASCII text, [norm_bureau3] gives
    exactly three digits, and leaves three digits as they are. *)
Theorem norm_bureau3_canonical (x : pyval) :
  ascii_text (py_str x) = true ->
  bureau_key (GenerateMap.norm_bureau3 x) /\
  GenerateMap.norm_bureau3 (VStr (GenerateMap.norm_bureau3 x))
  = GenerateMap.norm_bureau3 x.
Proof.
  intros _. unfold GenerateMap.norm_bureau3.
  pose proof (re_sub_nondigits_digits (py_str x)) as Hd.
  destruct (digits_text_bureau _ Hd) as [[Hl Hb] E].
  split; [by split|].
  simpl. rewrite (re_sub_nondigits_id _ Hb).
  destruct (digits_text_bureau _ Hb) as [_ E'].
  rewrite E'. rewrite (last_n_id _ Hl). by apply padStart0_id.
Qed.

Lemma norm_bureau3_canonical_witness :
  bureau_key (GenerateMap.norm_bureau3 (VStr "B 1037")) /\
  GenerateMap.norm_bureau3 (VStr (GenerateMap.norm_bureau3 (VStr "B 1037")))
  = GenerateMap.norm_bureau3 (VStr "B 1037").
Proof.
  apply (norm_bureau3_canonical (VStr "B 1037")). reflexivity.
Defined.

Lemma str_int_sign (z : Z) :
  str_int z = ((if (z <? 0)%Z then "-" else "") ++ str_int (Z.abs z))%string.
Proof. destruct z as [|p|p]; reflexivity. Qed.

Lemma js_plain_range_int (z : Z) :
  Z.abs z < 10 ^ 21 -> js_plain_range (inject_Z z) = true.
Proof.
  intros H. unfold js_plain_range.
  destruct (Z.eq_dec z 0) as [->|Hz]; [reflexivity|].
  apply orb_true_iff. right. apply andb_true_iff. split.
  - apply Qle_bool_iff. change (pow10 (-6)) with (1 # 1000000)%Q.
    unfold Qle, Qabs, inject_Z. cbn [Qnum Qden]. lia.
  - apply negb_true_iff, not_true_is_false. intros Hc.
    apply Qle_bool_iff in Hc.
    change (pow10 21) with (inject_Z (10 ^ 21)) in Hc.
    unfold Qle, Qabs, inject_Z in Hc. cbn [Qnum Qden] in Hc. lia.
Qed.

(** JavaScript prints an integer below [1e21] as Python prints it. *)
Lemma js_String_int (z : Z) :
  Z.abs z < 10 ^ 21 -> js_String (float_of_int z) = str_int z.
Proof.
  intros H. unfold float_of_int, js_String.
  rewrite (js_plain_range_int z H). unfold decimal_form.
  cbn [Qnum Qden inject_Z].
  rewrite Z.div_1_r, Z.mod_1_r. change (0 =? 0) with true. cbv iota.
  rewrite append_empty_r. symmetry. apply str_int_sign.
Qed.

(** X3.  The JavaScript normalisers of the page give the keys of the
    Python ones on an ASCII text, on an integer that a JavaScript number
    holds exactly (up to [2 ^ 53] either way) and on a missing value, so
    that a feature and a row of the table that name the same district and
    bureau meet.  They part on a float: Python prints 11.0 with its
    decimal. *)
Theorem js_normalisers_agree :
  (forall s,
      ascii_text s = true ->
      MapPage.normDigits (MapPage.JStr s) = GenerateMap.norm_digits (VStr s) /\
      MapPage.normBureau3 (MapPage.JStr s)
      = GenerateMap.norm_bureau3 (VStr s)) /\
  (forall z,
      Z.abs z <= 2 ^ 53 ->
      MapPage.normDigits (MapPage.JNum (float_of_int z))
      = GenerateMap.norm_digits (VInt z) /\
      MapPage.normBureau3 (MapPage.JNum (float_of_int z))
      = GenerateMap.norm_bureau3 (VInt z)) /\
  (MapPage.normDigits MapPage.JNull = GenerateMap.norm_digits VNone /\
   MapPage.normBureau3 MapPage.JNull = GenerateMap.norm_bureau3 VNone) /\
  (MapPage.normDigits (MapPage.JNum (Finite 11)) = "11" /\
   GenerateMap.norm_digits (VFloat (Finite 11)) = "110").
Proof.
  assert (Hb : forall t,
    MapPage.padStart0 3 (last_n 3 (re_sub_nondigits t))
    = zfill 3 (if String.eqb (re_sub_nondigits t) "" then ""
               else last_n 3 (re_sub_nondigits t))).
  { intros t. symmetry.
    apply (digits_text_bureau _ (re_sub_nondigits_digits t)). }
  split; [|split; [|split]].
  - intros s _.
    unfold MapPage.normDigits, MapPage.normBureau3, GenerateMap.norm_digits,
      GenerateMap.norm_bureau3.
    cbn [MapPage.String_or_empty py_str]. rewrite replace_nondigits_sub.
    split; [reflexivity|apply Hb].
  - intros z Hz.
    unfold MapPage.normDigits, MapPage.normBureau3, GenerateMap.norm_digits,
      GenerateMap.norm_bureau3.
    cbn [MapPage.String_or_empty py_str]. rewrite replace_nondigits_sub.
    rewrite js_String_int by lia. split; [reflexivity|apply Hb].
  - split; vm_compute; reflexivity.
  - split; vm_compute; reflexivity.
Qed.

End NormaliserFacts.

(** ** The join of the page *)

Section JoinFacts.
Import Py Shape.

Lemma normDigits_district (x : MapPage.jsval) :
  district_key (MapPage.normDigits x).
Proof.
  unfold MapPage.normDigits.
  pose proof (replace_nondigits_digits (MapPage.String_or_empty x)) as Hd.
  split; [by apply lstrip_char_digits|apply lstrip_char_no_leading_zero].
Qed.

Lemma normBureau3_bureau (x : MapPage.jsval) :
  bureau_key (MapPage.normBureau3 x).
Proof.
  unfold MapPage.normBureau3.
  pose proof (replace_nondigits_digits (MapPage.String_or_empty x)) as Hd.
  apply padStart0_bureau; [by apply substring_digits|].
  rewrite last_n_length. lia.
Qed.

Lemma truthy_Some (o : option string) :
  MapPage.truthy o = true -> exists s, o = Some s /\ s <> "".
Proof. destruct o as [[|c s]|]; simpl; try done. eauto. Qed.

Lemma scan_texts_shape (digits : list string) (d b : option string) :
  Forall (fun s => digits_only s = true) digits ->
  (forall s, d = Some s -> district_key s) ->
  (forall s, b = Some s -> bureau_key s) ->
  dist_bureau_shape (MapPage.scan_texts digits d b).
Proof.
  intros HF. revert d b.
  induction HF as [|s digits Hs _ IH]; intros d b Hd Hb; [by left|].
  cbn [MapPage.scan_texts].
  set (d' := if (negb (MapPage.truthy d) && (String.length s <=? 3)%nat)%bool
             then Some (lstrip_char "0" s) else d).
  set (b' := if (negb (MapPage.truthy b) && (String.length s =? 3)%nat)%bool
             then Some s else b).
  assert (Hd' : forall t, d' = Some t -> district_key t).
  { subst d'. intros t.
    destruct (negb (MapPage.truthy d) && (String.length s <=? 3)%nat)%bool;
      [|by apply Hd].
    intros [= <-].
    split; [by apply lstrip_char_digits|apply lstrip_char_no_leading_zero]. }
  assert (Hb' : forall t, b' = Some t -> bureau_key t).
  { subst b'. intros t.
    destruct (negb (MapPage.truthy b) && (String.length s =? 3)%nat)%bool
      eqn:E; [|by apply Hb].
    intros [= <-]. apply andb_true_iff in E as [_ E].
    apply Nat.eqb_eq in E. by split. }
  destruct (MapPage.truthy d' && MapPage.truthy b')%bool eqn:E; [|by apply IH].
  apply andb_true_iff in E as [Ed Eb].
  apply truthy_Some in Ed as (ds & Ed & Hne).
  apply truthy_Some in Eb as (bs & Eb & _).
  right. exists ds, bs. rewrite Ed, Eb. auto.
Qed.

(** X4.  [extractDistBureau] never returns half a pair: it gives
    [(null, null)], or a district that is not empty, made of digits without
    a leading 0, together with a bureau of exactly three digits. *)
Theorem extractDistBureau_shape (props : MapPage.Props) :
  dist_bureau_shape (MapPage.extractDistBureau props).
Proof.
  unfold MapPage.extractDistBureau.
  destruct (MapPage.truthy _ && MapPage.truthy _)%bool eqn:E.
  - apply andb_true_iff in E as [Ed Eb].
    apply truthy_Some in Ed as (ds & Ed & Hne).
    apply truthy_Some in Eb as (bs & Eb & _).
    right. exists ds, bs. rewrite Ed, Eb. split; [done|]. split; [done|].
    destruct (MapPage.first_present MapPage.DISTRICT_KEYS props) as [v|];
      [|done].
    destruct (MapPage.first_present MapPage.BUREAU_KEYS props) as [w|];
      [|done].
    injection Ed as <-. injection Eb as <-.
    split; [apply normDigits_district|apply normBureau3_bureau].
  - apply scan_texts_shape; [|done|done].
    apply List.Forall_forall. intros s Hs.
    apply filter_In in Hs as [Hs _].
    apply in_map_iff in Hs as (kv & <- & _).
    apply replace_nondigits_digits.
Qed.

Lemma append_nil_l (t : string) : ("" ++ t)%string = t.
Proof. reflexivity. Qed.

Lemma append_cons (c : ascii) (s t : string) :
  (String c s ++ t)%string = String c (s ++ t)%string.
Proof. reflexivity. Qed.

Lemma bar_not_digits (x y : string) :
  digits_only (x ++ String "|" y) = false.
Proof.
  induction x as [|c x IH].
  - reflexivity.
  - rewrite append_cons. cbn [digits_only]. rewrite IH. apply andb_false_r.
Qed.

Lemma flat_key_nil (b : string) : MapPage.flat_key ("", b) = String "|" b.
Proof. reflexivity. Qed.

Lemma flat_key_cons (c : ascii) (d b : string) :
  MapPage.flat_key (String c d, b) = String c (MapPage.flat_key (d, b)).
Proof. reflexivity. Qed.

Lemma flat_key_not_digits (d b : string) :
  digits_only (MapPage.flat_key (d, b)) = false.
Proof. apply bar_not_digits. Qed.

(** The flat key tells the pairs of digit texts apart. *)
Lemma flat_key_inj (k k' : string * string) :
  digits_only k.1 = true -> digits_only k.2 = true ->
  MapPage.flat_key k = MapPage.flat_key k' -> k = k'.
Proof.
  destruct k as [d b], k' as [d' b']. cbn [fst snd].
  revert d'. induction d as [|c d IH]; intros d' Hd Hb H.
  - destruct d' as [|c' d'].
    + rewrite !flat_key_nil in H. by injection H as <-.
    + rewrite flat_key_nil, flat_key_cons in H. injection H as <- ->.
      by rewrite flat_key_not_digits in Hb.
  - cbn [digits_only] in Hd. apply andb_true_iff in Hd as [Hc Hd].
    destruct d' as [|c' d'].
    + rewrite flat_key_nil, flat_key_cons in H. injection H as -> _. done.
    + rewrite !flat_key_cons in H. injection H as <- H.
      by injection (IH d' Hd Hb H) as <- <-.
Qed.

(** Flattening keeps the lookups of an index whose keys are digit texts. *)
Lemma flatten_lookup
    (index : gmap (string * string) (gmap string GenerateMap.PosteInfo)) :
  (forall k, is_Some (index !! k) ->
             digits_only k.1 = true /\ digits_only k.2 = true) ->
  forall k, MapPage.flatten index !! MapPage.flat_key k = index !! k.
Proof.
  unfold MapPage.flatten.
  apply (map_fold_weak_ind
           (fun flat (m : gmap (string * string)
                            (gmap string GenerateMap.PosteInfo)) =>
              (forall k, is_Some (m !! k) ->
                         digits_only k.1 = true /\ digits_only k.2 = true) ->
              forall k, flat !! MapPage.flat_key k = m !! k)).
  - intros _ k. by rewrite !lookup_empty.
  - intros i x m flat Hi IH Hok k.
    assert (Hoki : digits_only i.1 = true /\ digits_only i.2 = true).
    { apply Hok. rewrite lookup_insert_eq. eauto. }
    assert (IH' : forall k, flat !! MapPage.flat_key k = m !! k).
    { apply IH. intros k' Hk'. apply Hok.
      destruct (decide (i = k')) as [->|Hne].
      - rewrite lookup_insert_eq. eauto.
      - by rewrite lookup_insert_ne. }
    destruct (decide (i = k)) as [->|Hne].
    + by rewrite !lookup_insert_eq.
    + assert (Hk : MapPage.flat_key i <> MapPage.flat_key k).
      { intros E. apply Hne. destruct Hoki. by apply flat_key_inj. }
      rewrite (lookup_insert_ne flat _ _ _ Hk).
      rewrite (lookup_insert_ne m _ _ _ Hne). apply IH'.
Qed.

End JoinFacts.

(** ** The keys of the index of generate_map *)

Section IndexKeyFacts.
Import Py Shape.

(** Every row has a representative among the first occurrences. *)
Lemma first_occurrences_cover {A : Type} (same : A -> A -> bool) (l : list A) :
  (forall x, same x x = true) ->
  (forall x y z, same x y = true -> same y z = true -> same x z = true) ->
  forall r, In r l ->
    exists x, In x (first_occurrences same l) /\ same x r = true.
Proof.
  intros Hrefl Htrans. induction l as [|y l IH]; intros r Hr; [done|].
  cbn [first_occurrences]. destruct Hr as [->|Hr].
  - exists r. split; [by left|done].
  - destruct (IH r Hr) as (x & Hx & Hxr).
    destruct (same y x) eqn:E.
    + exists y. split; [by left|]. by eapply Htrans.
    + exists x. split; [|done]. right. apply filter_In. split; [done|].
      by rewrite E.
Qed.

Lemma groupby_cover {A : Type} (same : A -> A -> bool) (l : list A) :
  (forall x, same x x = true) ->
  (forall x y z, same x y = true -> same y z = true -> same x z = true) ->
  forall r, In r l ->
    exists x, In (List.filter (same x) l) (groupby same l) /\
              same x r = true.
Proof.
  intros Hrefl Htrans r Hr.
  destruct (first_occurrences_cover same l Hrefl Htrans r Hr) as (x & Hx & Hxr).
  exists x. split; [|done]. unfold groupby. apply in_map_iff. eauto.
Qed.

Lemma poste_same_refl (p : pyfloat) : GenerateMap.poste_same p p = true.
Proof.
  unfold GenerateMap.poste_same, float_eqb.
  destruct (float_isnan p) eqn:E.
  - by rewrite orb_true_r.
  - by rewrite (float_leb_refl p E).
Qed.

Lemma poste_same_trans (p q r : pyfloat) :
  GenerateMap.poste_same p q = true -> GenerateMap.poste_same q r = true ->
  GenerateMap.poste_same p r = true.
Proof.
  unfold GenerateMap.poste_same, float_eqb. intros H1 H2.
  apply orb_true_iff in H1 as [H1|H1], H2 as [H2|H2];
    apply andb_true_iff in H1 as [H1a H1b];
    apply andb_true_iff in H2 as [H2a H2b].
  - apply orb_true_iff. left. apply andb_true_iff.
    split; by eapply float_leb_trans.
  - apply float_leb_nan_l in H1b. congruence.
  - apply float_leb_nan_l in H2a. congruence.
  - by rewrite H1a, H2b, orb_true_r.
Qed.

Lemma gm_same_key_refl (r : GenerateMap.NRow) : GenerateMap.same_key r r = true.
Proof.
  unfold GenerateMap.same_key. by rewrite !String.eqb_refl, poste_same_refl.
Qed.

Lemma gm_same_key_inv (r1 r2 : GenerateMap.NRow) :
  GenerateMap.same_key r1 r2 = true ->
  GenerateMap.DistrictID_norm r1 = GenerateMap.DistrictID_norm r2 /\
  GenerateMap.Bureau_norm r1 = GenerateMap.Bureau_norm r2 /\
  GenerateMap.poste_same (GenerateMap.Poste (GenerateMap.row r1))
    (GenerateMap.Poste (GenerateMap.row r2)) = true.
Proof.
  unfold GenerateMap.same_key. intros H.
  apply andb_true_iff in H as [H H3]. apply andb_true_iff in H as [H1 H2].
  apply String.eqb_eq in H1, H2. done.
Qed.

Lemma gm_same_key_trans (x y z : GenerateMap.NRow) :
  GenerateMap.same_key x y = true -> GenerateMap.same_key y z = true ->
  GenerateMap.same_key x z = true.
Proof.
  intros H1 H2.
  apply gm_same_key_inv in H1 as (D1 & B1 & P1).
  apply gm_same_key_inv in H2 as (D2 & B2 & P2).
  unfold GenerateMap.same_key.
  rewrite D1, D2, B1, B2, !String.eqb_refl. simpl.
  by eapply poste_same_trans.
Qed.

Lemma gm_store_inv (df : GenerateMap.DataFrame)
    (index index' : gmap (string * string) (gmap string GenerateMap.PosteInfo))
    (g : list GenerateMap.NRow) :
  GenerateMap.store df index g = Ok index' ->
  exists r g' pkey info,
    g = r :: g' /\
    index' =
      <[(GenerateMap.DistrictID_norm r, GenerateMap.Bureau_norm r) :=
          <[pkey := info]>
            (default ∅
               (index !! (GenerateMap.DistrictID_norm r,
                          GenerateMap.Bureau_norm r)))]> index.
Proof.
  unfold GenerateMap.store. intros H.
  apply bind_Ok_inv in H as ([[[d b] pk] info] & Hrec & [= <-]).
  apply group_record_inv in Hrec
    as (entries & r & g' & -> & _ & _ & _ & _ & _ & _ & -> & ->).
  by exists r, g', pk, info.
Qed.

(** The keys of the index are those of the first rows of the groups. *)
Lemma gm_foldM_store_keys (df : GenerateMap.DataFrame)
    (groups : list (list GenerateMap.NRow))
    (index0 index : gmap (string * string) (gmap string GenerateMap.PosteInfo)) :
  foldM (GenerateMap.store df) groups index0 = Ok index ->
  forall k,
    is_Some (index !! k) <->
    is_Some (index0 !! k) \/
    exists r g',
      In (r :: g') groups /\
      k = (GenerateMap.DistrictID_norm r, GenerateMap.Bureau_norm r).
Proof.
  revert index0. induction groups as [|g groups IH]; intros index0 H k.
  - cbn [foldM] in H. injection H as <-. split; [auto|].
    intros [?|(r & g' & [] & _)]. done.
  - cbn [foldM] in H. apply bind_Ok_inv in H as (index1 & Hstore & H).
    rewrite (IH index1 H k).
    apply gm_store_inv in Hstore as (r & g' & pk & info & -> & ->).
    split.
    + intros [H1|(r1 & g1 & Hin & ->)].
      * destruct (decide ((GenerateMap.DistrictID_norm r,
                           GenerateMap.Bureau_norm r) = k)) as [<-|Hne].
        -- right. exists r, g'. split; [by left|done].
        -- rewrite lookup_insert_ne in H1 by done. by left.
      * right. exists r1, g1. split; [by right|done].
    + intros [H0|(r1 & g1 & [Hin|Hin] & ->)].
      * left.
        destruct (decide ((GenerateMap.DistrictID_norm r,
                           GenerateMap.Bureau_norm r) = k)) as [<-|Hne].
        -- rewrite lookup_insert_eq. eauto.
        -- by rewrite lookup_insert_ne.
      * injection Hin as <- <-. left. rewrite lookup_insert_eq. eauto.
      * right. exists r1, g1. done.
Qed.

Lemma filter_postes_In (only_poste : option (list pyfloat))
    (l : list GenerateMap.NRow) (r : GenerateMap.NRow) :
  In r (GenerateMap.filter_postes only_poste l) -> In r l.
Proof.
  unfold GenerateMap.filter_postes.
  destruct only_poste as [[|p ps]|]; try done.
  intros H. apply filter_In in H. tauto.
Qed.

Lemma is_Some_test {A : Type} (o : option A) :
  match o with Some _ => true | None => false end = true -> is_Some o.
Proof. destruct o; [eauto|done]. Qed.

Lemma gm_index_of_ok (df : GenerateMap.DataFrame) :
  is_ok (GenerateMap.build_results_index df None) = true ->
  GenerateMap.build_results_index df None = Ok (PageExamples.gm_index_of df).
Proof.
  unfold PageExamples.gm_index_of.
  by destruct (GenerateMap.build_results_index df None).
Qed.

(** Every key of the index is that of a row of the table. *)
Lemma gm_index_key_row (df : GenerateMap.DataFrame)
    (only_poste : option (list pyfloat))
    (index : gmap (string * string) (gmap string GenerateMap.PosteInfo))
    (d b : string) :
  GenerateMap.build_results_index df only_poste = Ok index ->
  is_Some (index !! (d, b)) ->
  exists r0,
    In r0 (GenerateMap.df_rows df) /\
    d = GenerateMap.norm_digits (GenerateMap.DistrictID r0) /\
    b = GenerateMap.norm_bureau3 (GenerateMap.Bureau r0).
Proof.
  unfold GenerateMap.build_results_index. intros H Hk.
  apply (gm_foldM_store_keys _ _ _ _ H) in Hk
    as [Hk|(r & g' & Hin & [= -> ->])].
  { rewrite lookup_empty in Hk. by destruct Hk. }
  apply groupby_In in Hin as (x & _ & Hg).
  assert (Hr : In r (r :: g')) by (by left).
  rewrite Hg in Hr. apply filter_In in Hr as [Hr _].
  apply filter_postes_In in Hr.
  apply in_map_iff in Hr as (r0 & <- & Hr0). by exists r0.
Qed.

Lemma gm_index_keys_digits (df : GenerateMap.DataFrame)
    (only_poste : option (list pyfloat))
    (index : gmap (string * string) (gmap string GenerateMap.PosteInfo)) :
  GenerateMap.build_results_index df only_poste = Ok index ->
  forall k, is_Some (index !! k) ->
            digits_only k.1 = true /\ digits_only k.2 = true.
Proof.
  intros H [d b] Hk.
  destruct (gm_index_key_row df only_poste index d b H Hk)
    as (r0 & _ & -> & ->).
  split.
  - apply norm_digits_district.
  - apply norm_bureau3_bureau.
Qed.

(** X5.  When the districts and the bureaus of the table print as ASCII
    text, every key of the index that [build_results_index] of
    [generate_map] returns is a pair of a district made of digits without a
    leading 0 and a bureau of exactly three digits. *)
Theorem index_keys_canonical (df : GenerateMap.DataFrame)
    (only_poste : option (list pyfloat))
    (index : gmap (string * string) (gmap string GenerateMap.PosteInfo))
    (d b : string) :
  Spec.ascii_keys df = true ->
  GenerateMap.build_results_index df only_poste = Ok index ->
  is_Some (index !! (d, b)) ->
  district_key d /\ bureau_key b.
Proof.
  intros _ H Hk.
  destruct (gm_index_key_row df only_poste index d b H Hk)
    as (r0 & _ & -> & ->).
  split.
  - apply norm_digits_district.
  - apply norm_bureau3_bureau.
Qed.

Lemma index_keys_canonical_witness :
  is_Some (PageExamples.gm_index_of PageExamples.gm_sections !! ("5", "007")) /\
  district_key "5" /\ bureau_key "007".
Proof.
  assert (H : is_Some (PageExamples.gm_index_of PageExamples.gm_sections
                         !! ("5", "007"))).
  { apply is_Some_test. vm_compute. reflexivity. }
  split; [exact H|].
  apply (index_keys_canonical PageExamples.gm_sections None
           (PageExamples.gm_index_of PageExamples.gm_sections) "5" "007");
    [vm_compute; reflexivity| |exact H].
  apply gm_index_of_ok. vm_compute. reflexivity.
Defined.

End IndexKeyFacts.

(** ** From the table to the page *)

Section ServingFacts.
Import Py Shape.

Lemma cross_div (x y d1 d2 : Z) :
  0 < d1 -> 0 < d2 -> x * d2 = y * d1 -> x / d1 = y / d2.
Proof.
  intros H1 H2 E.
  rewrite <- (Z.div_mul_cancel_r x d1 d2) by lia.
  rewrite <- (Z.div_mul_cancel_r y d2 d1) by lia.
  rewrite E. f_equal. lia.
Qed.

Lemma cross_mod (x y d1 d2 : Z) :
  0 < d1 -> 0 < d2 -> x * d2 = y * d1 ->
  (x mod d1) * d2 = (y mod d2) * d1.
Proof.
  intros H1 H2 E.
  rewrite (Z.mod_eq x d1), (Z.mod_eq y d2) by lia.
  rewrite (cross_div x y d1 d2 H1 H2 E). nia.
Qed.

Lemma frac_digits_comp (n : nat) (d1 d2 : Z) :
  0 < d1 -> 0 < d2 ->
  forall r1 r2, r1 * d2 = r2 * d1 ->
    frac_digits n r1 d1 = frac_digits n r2 d2.
Proof.
  intros H1 H2. induction n as [|n IH]; intros r1 r2 E; [done|].
  cbn [frac_digits].
  assert (E0 : (r1 =? 0) = (r2 =? 0)).
  { destruct (Z.eqb_spec r1 0), (Z.eqb_spec r2 0); try done; nia. }
  rewrite E0. destruct (r2 =? 0); [done|].
  assert (E10 : r1 * 10 * d2 = r2 * 10 * d1) by lia.
  rewrite (cross_div _ _ d1 d2 H1 H2 E10).
  f_equal. apply IH. by apply cross_mod.
Qed.

(** The decimal form does not depend on the fraction that stands for the
    number. *)
Lemma decimal_form_comp (a b : Q) (suffix : string) :
  (a == b)%Q -> decimal_form a suffix = decimal_form b suffix.
Proof.
  destruct a as [n1 p1], b as [n2 p2]. unfold Qeq, decimal_form.
  cbn [Qnum Qden]. intros E.
  assert (H1 : 0 < Z.pos p1) by lia. assert (H2 : 0 < Z.pos p2) by lia.
  assert (Es : (n1 <? 0) = (n2 <? 0)).
  { destruct (Z.ltb_spec n1 0), (Z.ltb_spec n2 0); try done; nia. }
  assert (Ea : Z.abs n1 * Z.pos p2 = Z.abs n2 * Z.pos p1).
  { rewrite <- (Z.abs_eq (Z.pos p2)), <- (Z.abs_eq (Z.pos p1)) by lia.
    rewrite <- !Z.abs_mul. by rewrite E. }
  rewrite Es, (cross_div _ _ _ _ H1 H2 Ea).
  pose proof (cross_mod _ _ _ _ H1 H2 Ea) as Em.
  assert (E0 : (Z.abs n1 mod Z.pos p1 =? 0) = (Z.abs n2 mod Z.pos p2 =? 0)).
  { destruct (Z.eqb_spec (Z.abs n1 mod Z.pos p1) 0),
             (Z.eqb_spec (Z.abs n2 mod Z.pos p2) 0); try done; nia. }
  rewrite E0.
  by rewrite (frac_digits_comp 17 _ _ H1 H2 _ _ Em).
Qed.

Lemma float_eqb_Finite (a b : Q) :
  float_eqb (Finite a) (Finite b) = true -> (a == b)%Q.
Proof.
  unfold float_eqb. cbn [float_leb]. intros H.
  apply andb_true_iff in H as [H1 H2].
  apply Qle_bool_iff in H1, H2. by apply Qle_antisym.
Qed.

Lemma float_is_integer_comp (a b : Q) :
  (a == b)%Q ->
  float_is_integer (Finite a) = float_is_integer (Finite b).
Proof.
  intros E. cbn [float_is_integer]. rewrite (Qfloor_comp a b E).
  destruct (Qeq_bool b (inject_Z (Qfloor b))) eqn:Eb.
  - apply Qeq_bool_iff. apply Qeq_bool_iff in Eb. by rewrite E.
  - apply not_true_is_false. intros Ea. apply Qeq_bool_iff in Ea.
    rewrite E in Ea. apply Qeq_bool_iff in Ea. congruence.
Qed.

(** Two postes that make one group have one key. *)
Lemma poste_key_same (p1 p2 : pyfloat) :
  GenerateMap.poste_same p1 p2 = true ->
  GenerateMap.poste_key p1 = GenerateMap.poste_key p2.
Proof.
  destruct p1 as [a| | |], p2 as [b| | |]; try done.
  unfold GenerateMap.poste_same. cbn [float_isnan].
  rewrite andb_false_r, orb_false_r. intros H.
  apply float_eqb_Finite in H.
  unfold GenerateMap.poste_key. rewrite (float_is_integer_comp a b H).
  destruct (float_is_integer (Finite b)).
  - cbn [int_of_float]. by rewrite (trunc_comp a b H).
  - cbn [str_float]. by rewrite (decimal_form_comp a b _ H).
Qed.

(** The record of every group is found in the index under its keys. *)
Lemma gm_foldM_store_complete (df : GenerateMap.DataFrame)
    (groups : list (list GenerateMap.NRow))
    (index0 index : gmap (string * string) (gmap string GenerateMap.PosteInfo)) :
  foldM (GenerateMap.store df) groups index0 = Ok index ->
  forall d b pkey,
    (is_Some (index0 !! (d, b) ≫= fun postes => postes !! pkey) \/
     exists g info,
       In g groups /\ GenerateMap.group_record df g = Ok (d, b, pkey, info)) ->
    is_Some (index !! (d, b) ≫= fun postes => postes !! pkey).
Proof.
  revert index0. induction groups as [|g groups IH]; intros index0 H d b pkey.
  - cbn [foldM] in H. injection H as <-.
    intros [?|(g & info & [] & _)]. done.
  - cbn [foldM] in H. apply bind_Ok_inv in H as (index1 & Hstore & H).
    intros Hc. apply (IH index1 H).
    unfold GenerateMap.store in Hstore.
    apply bind_Ok_inv in Hstore as ([[[d0 b0] k0] info0] & Hrec0 & [= <-]).
    destruct Hc as [H0|(g1 & info & [<-|Hin] & Hrec)].
    + left. destruct (decide ((d0, b0) = (d, b))) as [[= -> ->]|Hne].
      * rewrite lookup_insert_eq. cbn.
        destruct (index0 !! (d, b)) as [postes|]; cbn in *;
          [|by destruct H0].
        destruct (decide (k0 = pkey)) as [->|Hk].
        -- rewrite lookup_insert_eq. eauto.
        -- by rewrite lookup_insert_ne.
      * by rewrite lookup_insert_ne.
    + left. rewrite Hrec0 in Hrec. injection Hrec as -> -> -> ->.
      rewrite lookup_insert_eq. cbn. rewrite lookup_insert_eq. eauto.
    + right. by exists g1, info.
Qed.

(** The group of a row of the table has a record, under the keys of the
    row. *)
Lemma gm_row_record (df : GenerateMap.DataFrame)
    (only_poste : option (list pyfloat))
    (index : gmap (string * string) (gmap string GenerateMap.PosteInfo))
    (r : GenerateMap.NRow) :
  GenerateMap.build_results_index df only_poste = Ok index ->
  In r (GenerateMap.filter_postes only_poste
          (map GenerateMap.add_norm_columns (GenerateMap.df_rows df))) ->
  exists pkey postes info,
    GenerateMap.poste_key (GenerateMap.Poste (GenerateMap.row r)) = Ok pkey /\
    index !! (GenerateMap.DistrictID_norm r, GenerateMap.Bureau_norm r)
    = Some postes /\
    postes !! pkey = Some info /\
    GenerateMap.rows info <> [].
Proof.
  intros H Hr.
  destruct (groupby_cover GenerateMap.same_key _ gm_same_key_refl
              gm_same_key_trans r Hr) as (x & Hg & Hxr).
  set (l := GenerateMap.filter_postes only_poste
              (map GenerateMap.add_norm_columns (GenerateMap.df_rows df)))
    in *.
  set (g := List.filter (GenerateMap.same_key x) l) in *.
  assert (Hrg : In r g) by (apply filter_In; by split).
  unfold GenerateMap.build_results_index in H. fold l in H.
  (* the fold went through the group, so that its record was computed *)
  assert (Hrec : exists d b pk info,
             GenerateMap.group_record df g = Ok (d, b, pk, info)).
  { clear -H Hg. revert H. generalize (∅ : gmap (string * string)
                                        (gmap string GenerateMap.PosteInfo)).
    induction (groupby GenerateMap.same_key l) as [|g0 gs IH];
      intros index0 H; [done|].
    cbn [foldM] in H. apply bind_Ok_inv in H as (index1 & Hstore & H).
    destruct Hg as [->|Hg]; [|by eapply IH].
    unfold GenerateMap.store in Hstore.
    apply bind_Ok_inv in Hstore as ([[[d0 b0] k0] info0] & Hrec0 & _).
    by exists d0, b0, k0, info0. }
  destruct Hrec as (d & b & pk & info0 & Hrec).
  pose proof (gm_foldM_store_complete _ _ _ _ H d b pk
                (or_intror (ex_intro _ g (ex_intro _ info0 (conj Hg Hrec)))))
    as [info Hinfo].
  destruct (index !! (d, b)) as [postes|] eqn:Ep; [|done]. cbn in Hinfo.
  apply group_record_inv in Hrec
    as (entries0 & r1 & g' & Hg1 & _ & _ & _ & _ & _ & Hpk & -> & ->).
  assert (Hr1 : In r1 g) by (rewrite Hg1; by left).
  apply filter_In in Hr1 as [_ Hx1].
  apply gm_same_key_inv in Hx1 as (D1 & B1 & P1).
  apply gm_same_key_inv in Hxr as (D2 & B2 & P2).
  exists pk, postes, info. repeat split.
  - rewrite <- Hpk. apply poste_key_same.
    apply (poste_same_trans _ (GenerateMap.Poste (GenerateMap.row x)));
      [|done].
    clear -P2. unfold GenerateMap.poste_same, float_eqb in *.
    by rewrite (andb_comm (float_leb _ _)), (andb_comm (float_isnan _)).
  - by rewrite <- D2, <- B2, D1, B1.
  - done.
  - (* what is stored is the record of a group, and a group has a row *)
    assert (Hl : (index !! (GenerateMap.DistrictID_norm r1,
                            GenerateMap.Bureau_norm r1)
                    ≫= fun postes => postes !! pk) = Some info)
      by (by rewrite Ep).
    destruct (gm_foldM_store_records _ _ _ _ H _ _ _ _ Hl)
      as [H0|(g2 & _ & Hrec2)].
    { by rewrite lookup_empty in H0. }
    apply group_record_inv in Hrec2
      as (entries & r2 & g2' & -> & _ & _ & _ & Hent & Hrows & _).
    rewrite Hrows. intros E.
    assert (Hperm := stable_sort_perm (desc_int GenerateMap.votes) entries).
    rewrite E in Hperm. apply Permutation_nil in Hperm. subst entries.
    cbn [mapM] in Hent.
    destruct (GenerateMap.make_entry (GenerateMap.total_valid info) r2);
      [|done].
    cbn in Hent.
    destruct (mapM (GenerateMap.make_entry (GenerateMap.total_valid info)) g2');
      done.
Qed.

End ServingFacts.

Section PageFacts.
Import Py Shape.

Lemma gm_flatten_lookup (df : GenerateMap.DataFrame)
    (only_poste : option (list pyfloat))
    (index : gmap (string * string) (gmap string GenerateMap.PosteInfo)) :
  GenerateMap.build_results_index df only_poste = Ok index ->
  forall d b, MapPage.flatten index !! (d ++ "|" ++ b)%string = index !! (d, b).
Proof.
  intros H d b.
  change (d ++ "|" ++ b)%string with (MapPage.flat_key (d, b)).
  apply (flatten_lookup index).
  by apply (gm_index_keys_digits df only_poste).
Qed.

(** X6.  Flattening the index for the page loses and confuses nothing: under
    the text [d|b] the page finds what the index of [build_results_index]
    holds under the pair [(d, b)], and nothing where the index holds
    nothing. *)
Theorem flatten_keeps_index (df : GenerateMap.DataFrame)
    (only_poste : option (list pyfloat))
    (index : gmap (string * string) (gmap string GenerateMap.PosteInfo)) :
  GenerateMap.build_results_index df only_poste = Ok index ->
  forall d b, MapPage.flatten index !! (d ++ "|" ++ b)%string = index !! (d, b).
Proof.
  intros H d b.
  change (d ++ "|" ++ b)%string with (MapPage.flat_key (d, b)).
  apply (flatten_lookup index).
  intros [d' b'] Hk.
  destruct (gm_index_key_row df only_poste index d' b' H Hk)
    as (r0 & _ & -> & ->).
  split.
  - apply norm_digits_district.
  - apply norm_bureau3_bureau.
Qed.

Lemma flatten_keeps_index_witness :
  MapPage.flatten (PageExamples.gm_index_of PageExamples.gm_sections)
    !! "11|012"
  = PageExamples.gm_index_of PageExamples.gm_sections !! ("11", "012") /\
  MapPage.flatten (PageExamples.gm_index_of PageExamples.gm_sections)
    !! "1|1012"
  = None.
Proof.
  assert (H : GenerateMap.build_results_index PageExamples.gm_sections None
              = Ok (PageExamples.gm_index_of PageExamples.gm_sections))
    by (apply gm_index_of_ok; vm_compute; reflexivity).
  split.
  - exact (flatten_keeps_index PageExamples.gm_sections None _ H "11" "012").
  - pose proof (flatten_keeps_index PageExamples.gm_sections None _ H
                  "1" "1012") as E.
    change ("1" ++ "|" ++ "1012")%string with "1|1012" in E.
    rewrite E. vm_compute. reflexivity.
Defined.

(** X7.  No row of the table is lost on the way to the page: for every row
    that passes the filter of the postes, the flattened index has, under the
    normalised district and bureau of the row joined by a bar and then under
    the key of its poste, a record with at least one entry. *)
Theorem every_row_reaches_page (df : GenerateMap.DataFrame)
    (only_poste : option (list pyfloat))
    (index : gmap (string * string) (gmap string GenerateMap.PosteInfo))
    (r : GenerateMap.Row) :
  GenerateMap.build_results_index df only_poste = Ok index ->
  In (GenerateMap.add_norm_columns r)
     (GenerateMap.filter_postes only_poste
        (map GenerateMap.add_norm_columns (GenerateMap.df_rows df))) ->
  exists pkey postes info,
    GenerateMap.poste_key (GenerateMap.Poste r) = Ok pkey /\
    MapPage.flatten index
      !! (GenerateMap.norm_digits (GenerateMap.DistrictID r) ++ "|" ++
          GenerateMap.norm_bureau3 (GenerateMap.Bureau r))%string
    = Some postes /\
    postes !! pkey = Some info /\
    GenerateMap.rows info <> [].
Proof.
  intros H Hr.
  destruct (gm_row_record df only_poste index _ H Hr)
    as (pk & postes & info & Hpk & Hp & Hi & Hrows).
  exists pk, postes, info. repeat split; try done.
  rewrite <- Hp. by apply (gm_flatten_lookup df only_poste).
Qed.

Lemma every_row_reaches_page_witness :
  exists postes info,
    MapPage.flatten (PageExamples.gm_index_of PageExamples.gm_sections)
      !! "11|037" = Some postes /\
    postes !! "1.5" = Some info /\
    GenerateMap.rows info <> [].
Proof.
  destruct (every_row_reaches_page PageExamples.gm_sections None
              (PageExamples.gm_index_of PageExamples.gm_sections)
              (PageExamples.gm_section_row 11 "037" 1.5 "D" "PartyY" 50))
    as (pk & postes & info & Hpk & Hp & Hi & Hrows).
  - apply gm_index_of_ok. vm_compute. reflexivity.
  - vm_compute. tauto.
  - exists postes, info.
    assert (E : pk = "1.5").
    { assert (E' : GenerateMap.poste_key (Finite 1.5) = Ok "1.5")
        by (vm_compute; reflexivity).
      cbn [PageExamples.gm_section_row GenerateMap.Poste] in Hpk.
      rewrite E' in Hpk. by injection Hpk. }
    subst pk. repeat split; try done.
Defined.

(** X8.  The poste that [main] reads from [--winner-poste] is rendered as
    the index renders the poste of a row.  So for every row of the table
    whose poste is the number that the argument reads as, the page finds a
    winner for the section of the row: [getWinnerInfo], on the entry of the
    flattened index for the section and with the key of [main], does not
    return null. *)
Theorem winner_poste_finds_winner (df : GenerateMap.DataFrame)
    (only_poste : option (list pyfloat))
    (index : gmap (string * string) (gmap string GenerateMap.PosteInfo))
    (r : GenerateMap.Row) (winner_poste : string) (p : pyfloat) :
  GenerateMap.build_results_index df only_poste = Ok index ->
  In (GenerateMap.add_norm_columns r)
     (GenerateMap.filter_postes only_poste
        (map GenerateMap.add_norm_columns (GenerateMap.df_rows df))) ->
  float_of_string winner_poste = Some p ->
  GenerateMap.poste_same p (GenerateMap.Poste r) = true ->
  is_Some
    (GenerateMap.getWinnerInfo
       (MapPage.flatten index
          !! (GenerateMap.norm_digits (GenerateMap.DistrictID r) ++ "|" ++
              GenerateMap.norm_bureau3 (GenerateMap.Bureau r))%string)
       (GenerateMap.winner_key winner_poste)).
Proof.
  intros H Hr Hs Hp.
  destruct (gm_row_record df only_poste index _ H Hr)
    as (pk & postes & info & Hpk & Hpo & Hi & Hrows).
  cbn [GenerateMap.add_norm_columns GenerateMap.row GenerateMap.DistrictID_norm
       GenerateMap.Bureau_norm] in Hpk, Hpo.
  assert (Hf : MapPage.flatten index
                 !! (GenerateMap.norm_digits (GenerateMap.DistrictID r) ++ "|" ++
                     GenerateMap.norm_bureau3 (GenerateMap.Bureau r))%string
               = Some postes).
  { rewrite <- Hpo. by apply (gm_flatten_lookup df only_poste). }
  rewrite Hf.
  assert (Hw : GenerateMap.winner_key winner_poste = pk).
  { unfold GenerateMap.winner_key. rewrite Hs.
    by rewrite (poste_key_same _ _ Hp), Hpk. }
  rewrite Hw. unfold GenerateMap.getWinnerInfo. rewrite Hi.
  destruct (stable_sort (desc_int GenerateMap.votes) (GenerateMap.rows info))
    as [|top rest] eqn:E; [|eauto].
  exfalso. apply Hrows.
  assert (Hperm := stable_sort_perm (desc_int GenerateMap.votes)
                     (GenerateMap.rows info)).
  rewrite E in Hperm. by apply Permutation_nil in Hperm.
Qed.

Lemma winner_poste_finds_winner_witness :
  is_Some
    (GenerateMap.getWinnerInfo
       (MapPage.flatten (PageExamples.gm_index_of PageExamples.gm_sections)
          !! "5|007")
       (GenerateMap.winner_key "0.00")).
Proof.
  apply (winner_poste_finds_winner PageExamples.gm_sections None
           (PageExamples.gm_index_of PageExamples.gm_sections)
           (PageExamples.gm_section_row 5 "7" 0 "C" "PartyX" 10)
           "0.00" (Finite 0)).
  - apply gm_index_of_ok. vm_compute. reflexivity.
  - vm_compute. tauto.
  - vm_compute. reflexivity.
  - vm_compute. reflexivity.
Defined.

End PageFacts.

(** ** The index of genmap3 *)

Section Genmap3Facts.
Import Py Shape.

Lemma g3_same_key_inv (r1 r2 : Genmap3.Row) :
  Genmap3.same_key r1 r2 = true ->
  Genmap3.PosteNorm r1 = Genmap3.PosteNorm r2 /\
  Genmap3.SectionCode r1 = Genmap3.SectionCode r2.
Proof.
  unfold Genmap3.same_key. intros H.
  apply andb_true_iff in H as [H1 H2].
  by apply String.eqb_eq in H1, H2.
Qed.

Lemma g3_same_key_trans (x y z : Genmap3.Row) :
  Genmap3.same_key x y = true -> Genmap3.same_key y z = true ->
  Genmap3.same_key x z = true.
Proof.
  intros H1 H2.
  apply g3_same_key_inv in H1 as [P1 S1].
  apply g3_same_key_inv in H2 as [P2 S2].
  unfold Genmap3.same_key. by rewrite P1, P2, S1, S2, !String.eqb_refl.
Qed.

(** Rows with the same keys select the same group. *)
Lemma g3_same_group (x r : Genmap3.Row) (l : list Genmap3.Row) :
  Genmap3.PosteNorm x = Genmap3.PosteNorm r ->
  Genmap3.SectionCode x = Genmap3.SectionCode r ->
  List.filter (Genmap3.same_key x) l = List.filter (Genmap3.same_key r) l.
Proof.
  intros P S. apply filter_ext. intros y.
  unfold Genmap3.same_key. by rewrite P, S.
Qed.

(** The record of every group is found in the index under its keys. *)
Lemma g3_foldM_store_complete (sort_values : sorter)
    (df : Genmap3.Csv.DataFrame) (groups : list (list Genmap3.Row))
    (index0 index : gmap string (gmap string Genmap3.Result)) :
  foldM (Genmap3.store sort_values df) groups index0 = Ok index ->
  forall p s,
    (is_Some (index0 !! p ≫= fun sections => sections !! s) \/
     exists grp rec,
       In grp groups /\
       Genmap3.group_record sort_values df grp = Ok (p, s, rec)) ->
    is_Some (index !! p ≫= fun sections => sections !! s).
Proof.
  revert index0. induction groups as [|g groups IH]; intros index0 H p s.
  - cbn [foldM] in H. injection H as <-.
    intros [?|(g & rec & [] & _)]. done.
  - cbn [foldM] in H. apply bind_Ok_inv in H as (index1 & Hstore & H).
    intros Hc. apply (IH index1 H).
    unfold Genmap3.store in Hstore.
    apply bind_Ok_inv in Hstore as ([[p0 s0] rec0] & Hrec0 & [= <-]).
    destruct Hc as [H0|(g1 & rec & [<-|Hin] & Hrec)].
    + left. destruct (decide (p0 = p)) as [->|Hne].
      * rewrite lookup_insert_eq. cbn.
        destruct (index0 !! p) as [sections|]; cbn in *; [|by destruct H0].
        destruct (decide (s0 = s)) as [->|Hs].
        -- rewrite lookup_insert_eq. eauto.
        -- by rewrite lookup_insert_ne.
      * by rewrite lookup_insert_ne.
    + left. rewrite Hrec0 in Hrec. injection Hrec as -> -> ->.
      rewrite lookup_insert_eq. cbn. rewrite lookup_insert_eq. eauto.
    + right. by exists g1, rec.
Qed.

(** A fold that returns has computed the record of each of its groups. *)
Lemma g3_foldM_store_ran (sort_values : sorter)
    (df : Genmap3.Csv.DataFrame) (groups : list (list Genmap3.Row))
    (index0 index : gmap string (gmap string Genmap3.Result))
    (grp : list Genmap3.Row) :
  foldM (Genmap3.store sort_values df) groups index0 = Ok index ->
  In grp groups ->
  exists x, Genmap3.group_record sort_values df grp = Ok x.
Proof.
  revert index0. induction groups as [|g groups IH]; intros index0 H Hin;
    [done|].
  cbn [foldM] in H. apply bind_Ok_inv in H as (index1 & Hstore & H).
  destruct Hin as [->|Hin]; [|by eapply IH].
  unfold Genmap3.store in Hstore.
  apply bind_Ok_inv in Hstore as (x & Hrec & _). by exists x.
Qed.

(** The record of the group of a row is in the index, under the keys of
    the row. *)
Lemma g3_row_record (sort_values : sorter) (df : Genmap3.Csv.DataFrame)
    (index : gmap string (gmap string Genmap3.Result))
    (rows : list Genmap3.Row) (r : Genmap3.Row) :
  Genmap3.build_results_index sort_values df = Ok index ->
  mapM Genmap3.prepare (Genmap3.Csv.rows df) = Ok rows ->
  In r rows ->
  exists rec,
    (index !! Genmap3.PosteNorm r
       ≫= fun sections => sections !! Genmap3.SectionCode r) = Some rec /\
    Genmap3.group_record sort_values df
      (List.filter (Genmap3.same_key r) rows)
    = Ok (Genmap3.PosteNorm r, Genmap3.SectionCode r, rec).
Proof.
  intros H Hrows Hr.
  pose proof H as Hbuild.
  unfold Genmap3.build_results_index in H. rewrite Hrows in H. cbn in H.
  destruct (groupby_cover Genmap3.same_key rows g3_same_key_refl
              g3_same_key_trans r Hr) as (x & Hg & Hxr).
  apply g3_same_key_inv in Hxr as [Px Sx].
  rewrite (g3_same_group x r rows Px Sx) in Hg.
  destruct (g3_foldM_store_ran _ _ _ _ _ _ H Hg) as ([[p s] rec0] & Hrec0).
  pose proof Hrec0 as Hinv.
  apply g3_group_record_inv in Hinv
    as (w & first & rest & _ & Hfirst & _ & _ & _ & _ & _ & _ & _ & -> & ->).
  assert (Hf : In first (List.filter (Genmap3.same_key r) rows))
    by (rewrite Hfirst; by left).
  apply filter_In in Hf as [_ Hf].
  apply g3_same_key_inv in Hf as [Pf Sf]. rewrite <- Pf, <- Sf in *.
  destruct (g3_foldM_store_complete _ _ _ _ _ H (Genmap3.PosteNorm r)
              (Genmap3.SectionCode r)) as [rec Hrec].
  { right. by exists (List.filter (Genmap3.same_key r) rows), rec0. }
  exists rec. split; [done|].
  destruct (g3_index_records _ _ _ _ _ _ Hbuild Hrec)
    as (rows' & y & Hrows' & Hy & Hgy).
  rewrite Hrows in Hrows'. injection Hrows' as <-.
  pose proof Hgy as Hinv.
  apply g3_group_record_inv in Hinv
    as (w' & first' & rest' & _ & Hfirst' & _ & _ & _ & _ & _ & _ & _ & Py & Sy).
  assert (Hf' : In first' (List.filter (Genmap3.same_key y) rows))
    by (rewrite Hfirst'; by left).
  apply filter_In in Hf' as [_ Hf'].
  apply g3_same_key_inv in Hf' as [Pf' Sf'].
  rewrite <- (g3_same_group y r rows); [done|congruence|congruence].
Qed.

End Genmap3Facts.

Section Genmap3Index.
Import Py Shape.

Lemma g3_index_of_ok (df : Genmap3.Csv.DataFrame) :
  is_ok (Genmap3.build_results_index stable_sorter df) = true ->
  Genmap3.build_results_index stable_sorter df
  = Ok (PageExamples.g3_index_of df).
Proof.
  unfold PageExamples.g3_index_of.
  by destruct (Genmap3.build_results_index stable_sorter df).
Qed.

Lemma g3_prepared_ok (rows : list Genmap3.Csv.Row) :
  is_ok (mapM Genmap3.prepare rows) = true ->
  mapM Genmap3.prepare rows = Ok (Examples.g3_prepared rows).
Proof.
  unfold Examples.g3_prepared. by destruct (mapM Genmap3.prepare rows).
Qed.

(** X9.  No row of the table of [genmap3] is lost: when
    [build_results_index] returns, every row has an entry in the breakdown
    of the record stored under its poste and its section, with its
    normalised candidate and party and its votes as an integer; and that
    breakdown has as many entries as the table has rows of that poste and
    section. *)
Theorem every_row_in_breakdown (sort_values : sorter)
    (df : Genmap3.Csv.DataFrame)
    (index : gmap string (gmap string Genmap3.Result))
    (rows : list Genmap3.Row) (r : Genmap3.Row) :
  Genmap3.build_results_index sort_values df = Ok index ->
  mapM Genmap3.prepare (Genmap3.Csv.rows df) = Ok rows ->
  In r rows ->
  exists rec e,
    (index !! Genmap3.PosteNorm r
       ≫= fun sections => sections !! Genmap3.SectionCode r) = Some rec /\
    In e (Genmap3.breakdown rec) /\
    Genmap3.candidat e = Genmap3.normalize_str (Genmap3.Candidat r) /\
    Genmap3.parti e = Genmap3.normalize_str (Genmap3.Parti r) /\
    int_of_float (Genmap3.Votes r) = Ok (Genmap3.votes e) /\
    length (Genmap3.breakdown rec)
    = length (List.filter (Genmap3.same_key r) rows).
Proof.
  intros H Hrows Hr.
  destruct (g3_row_record sort_values df index rows r H Hrows Hr)
    as (rec & Hrec & Hgrp).
  apply g3_group_record_inv in Hgrp
    as (w & first & rest & _ & _ & Hbd & _).
  apply mapM_Ok_inv in Hbd.
  assert (Hin : In r (List.filter (Genmap3.same_key r) rows)).
  { apply filter_In. split; [done|apply g3_same_key_refl]. }
  destruct (Forall2_In_l _ _ _ _ Hbd Hin) as (e & He & Hentry).
  apply g3_make_entry_inv in Hentry as (Hv & Hc & Hp & _).
  exists rec, e. repeat split; try done.
  symmetry. by eapply Forall2_length.
Qed.

Lemma every_row_in_breakdown_witness :
  exists rec e,
    (PageExamples.g3_index_of PageExamples.g3_sections !! "0.00"
       ≫= fun sections => sections !! "005-007") = Some rec /\
    In e (Genmap3.breakdown rec) /\
    Genmap3.candidat e = "E" /\
    Genmap3.votes e = 40 /\
    length (Genmap3.breakdown rec) = 2%nat.
Proof.
  assert (Hrows : mapM Genmap3.prepare (Genmap3.Csv.rows PageExamples.g3_sections)
                  = Ok (Examples.g3_prepared
                          (Genmap3.Csv.rows PageExamples.g3_sections)))
    by (apply g3_prepared_ok; vm_compute; reflexivity).
  assert (Hr : exists r,
             Genmap3.prepare
               (PageExamples.g3_section_row "0,00" 5 7 "E" "PartyY" 40)
             = Ok r /\
             In r (Examples.g3_prepared
                     (Genmap3.Csv.rows PageExamples.g3_sections))).
  { eexists. split; [vm_compute; reflexivity|]. vm_compute. tauto. }
  destruct Hr as (r & Hp & Hr).
  destruct (every_row_in_breakdown stable_sorter PageExamples.g3_sections
              (PageExamples.g3_index_of PageExamples.g3_sections)
              (Examples.g3_prepared (Genmap3.Csv.rows PageExamples.g3_sections))
              r)
    as (rec & e & Hrec & He & Hc & _ & Hv & Hlen).
  - apply g3_index_of_ok. vm_compute. reflexivity.
  - exact Hrows.
  - exact Hr.
  - vm_compute in Hp. injection Hp as <-.
    exists rec, e.
    split; [exact Hrec|]. split; [exact He|].
    split; [vm_compute in Hc; exact Hc|].
    split; [vm_compute in Hv; by injection Hv|].
    rewrite Hlen. vm_compute. reflexivity.
Defined.

(** X10.  The winner that [genmap3] stores for a section is one of the
    entries of the breakdown it stores beside it: the same candidate, party
    and votes.  This holds for every [sort_values] that returns the rows of
    the group in descending order. *)
Theorem winner_is_in_breakdown (sort_values : sorter)
    (df : Genmap3.Csv.DataFrame)
    (index : gmap string (gmap string Genmap3.Result))
    (p s : string) (rec : Genmap3.Result) :
  conforming sort_values ->
  Genmap3.build_results_index sort_values df = Ok index ->
  (index !! p ≫= fun sections => sections !! s) = Some rec ->
  exists e,
    In e (Genmap3.breakdown rec) /\
    Genmap3.candidat e = Genmap3.winner_candidate rec /\
    Genmap3.parti e = Genmap3.winner_party rec /\
    Genmap3.votes e = Genmap3.winner_votes rec.
Proof.
  intros Hsort H Hrec.
  destruct (g3_index_records _ _ _ _ _ _ H Hrec)
    as (rows & x & _ & _ & Hgrp).
  destruct (g3_winner_largest _ _ _ _ _ _ Hsort Hgrp)
    as (w & Hw & _ & Hc & Hp & Hv).
  apply g3_group_record_inv in Hgrp
    as (_ & first & rest & _ & _ & Hbd & _).
  apply mapM_Ok_inv in Hbd.
  destruct (Forall2_In_l _ _ _ _ Hbd Hw) as (e & He & Hentry).
  apply g3_make_entry_inv in Hentry as (Hv' & Hc' & Hp' & _).
  exists e. repeat split; try done; congruence.
Qed.

Lemma winner_is_in_breakdown_witness :
  conforming stable_sorter /\
  exists rec e,
    (PageExamples.g3_index_of PageExamples.g3_sections !! "0.00"
       ≫= fun sections => sections !! "011-037") = Some rec /\
    In e (Genmap3.breakdown rec) /\
    Genmap3.candidat e = Genmap3.winner_candidate rec /\
    Genmap3.votes e = Genmap3.winner_votes rec.
Proof.
  split; [exact stable_sorter_conforming|].
  assert (Hrec : exists rec,
             (PageExamples.g3_index_of PageExamples.g3_sections !! "0.00"
                ≫= fun sections => sections !! "011-037") = Some rec).
  { apply is_Some_test. vm_compute. reflexivity. }
  destruct Hrec as (rec & Hrec).
  destruct (winner_is_in_breakdown stable_sorter PageExamples.g3_sections
              (PageExamples.g3_index_of PageExamples.g3_sections)
              "0.00" "011-037" rec stable_sorter_conforming)
    as (e & He & Hc & _ & Hv).
  - apply g3_index_of_ok. vm_compute. reflexivity.
  - exact Hrec.
  - exists rec, e.
    split; [exact Hrec|]. split; [exact He|]. split; [exact Hc|exact Hv].
Defined.

Lemma mapM_Raise {A B : Type} (f : A -> result B) (l : list A) (E : exn) :
  (forall x e, f x = Raise e -> e = E) ->
  (exists x, In x l /\ f x = Raise E) ->
  mapM f l = Raise E.
Proof.
  intros Hone. induction l as [|y l IH]; intros (x & Hx & Hfx); [done|].
  cbn [mapM]. destruct (f y) as [b|e] eqn:Ey.
  - destruct Hx as [->|Hx]; [congruence|].
    cbn. rewrite IH; [done|by exists x].
  - cbn. f_equal. by eapply Hone.
Qed.

(** X11.  One district cell that is missing, that is a text with a
    character of no number, or that is an infinity, in any row of the
    table, makes [build_results_index] of [genmap3] raise
    [IntCastingNaNError]: no index is built from the other rows. *)
Theorem unreadable_district_raises (sort_values : sorter)
    (df : Genmap3.Csv.DataFrame) (r : Genmap3.Csv.Row) :
  In r (Genmap3.Csv.rows df) ->
  Spec.coerced_missing (Genmap3.Csv.ElectoralDistrictID r) = true \/
  (exists x, Genmap3.Csv.ElectoralDistrictID r = VFloat x /\
             Spec.float_isinf x = true) ->
  Genmap3.build_results_index sort_values df = Raise IntCastingNaNError.
Proof.
  intros Hr Hcell.
  assert (Hbad : forall q,
             to_numeric_coerce (Genmap3.Csv.ElectoralDistrictID r)
             <> Finite q).
  { intros q. destruct Hcell as [Hm|(x & -> & Hx)].
    - by rewrite (to_numeric_coerced_missing _ Hm).
    - cbn [to_numeric_coerce]. by destruct x. }
  unfold Genmap3.build_results_index.
  rewrite (mapM_Raise Genmap3.prepare _ IntCastingNaNError); [done| |].
  - intros x e. unfold Genmap3.prepare.
    destruct (to_numeric_coerce (Genmap3.Csv.ElectoralDistrictID x));
      cbn; congruence.
  - exists r. split; [done|]. unfold Genmap3.prepare.
    destruct (to_numeric_coerce (Genmap3.Csv.ElectoralDistrictID r)) as [q| | |]
      eqn:E; cbn; try done.
    by destruct (Hbad q).
Qed.

Lemma unreadable_district_raises_witness :
  Genmap3.build_results_index stable_sorter
    (Examples.g3_table true true true
       (Examples.g3_two ++ Examples.g3_bad_district))
  = Raise IntCastingNaNError.
Proof.
  apply (unreadable_district_raises stable_sorter
           (Examples.g3_table true true true
              (Examples.g3_two ++ Examples.g3_bad_district))
           {| Genmap3.Csv.Poste := VStr "0,00";
              Genmap3.Csv.ElectoralDistrictID := VStr "abc";
              Genmap3.Csv.Bureau := VInt 37;
              Genmap3.Csv.Votes := VInt 30;
              Genmap3.Csv.Candidat := VStr "A";
              Genmap3.Csv.Parti := VStr "PartyX";
              Genmap3.Csv.TotalValidVotes := VInt 50;
              Genmap3.Csv.TotalRejectedVotes := VInt 0;
              Genmap3.Csv.TotalVotes := VInt 51 |}).
  - vm_compute. tauto.
  - left. reflexivity.
Defined.

End Genmap3Index.

Section SectionCodeFacts.
Import Py Shape.

Lemma g3_group_record_fields (sort_values : sorter)
    (df : Genmap3.Csv.DataFrame) (grp : list Genmap3.Row) (p s : string)
    (rec : Genmap3.Result) :
  Genmap3.group_record sort_values df grp = Ok (p, s, rec) ->
  exists first rest,
    grp = first :: rest /\
    p = Genmap3.PosteNorm first /\
    s = Genmap3.SectionCode first /\
    Genmap3.district_id rec = str_int (Genmap3.ElectoralDistrictID first) /\
    Genmap3.bureau rec = py_str (Genmap3.Bureau first).
Proof.
  unfold Genmap3.group_record. intros H.
  apply bind_Ok_inv in H as (w & _ & H).
  apply bind_Ok_inv in H as (bd & _ & H).
  apply bind_Ok_inv in H as (first & Hfirst & H).
  apply bind_Ok_inv in H as (wv & _ & H).
  apply bind_Ok_inv in H as (tv & _ & H).
  apply bind_Ok_inv in H as (tr & _ & H).
  apply bind_Ok_inv in H as (tt & _ & H).
  destruct grp as [|r rest]; [done|].
  injection Hfirst as <-. injection H as <- <- <-.
  by exists r, rest.
Qed.

Lemma prepare_fields (r : Genmap3.Csv.Row) (row : Genmap3.Row) :
  Genmap3.prepare r = Ok row ->
  Genmap3.astype_int (to_numeric_coerce (Genmap3.Csv.ElectoralDistrictID r))
  = Ok (Genmap3.ElectoralDistrictID row) /\
  Genmap3.Bureau row = Genmap3.Csv.Bureau r /\
  Genmap3.PosteNorm row = Genmap3.poste_norm (Genmap3.Csv.Poste r) /\
  Genmap3.SectionCode row
  = (zfill 3 (str_int (Genmap3.ElectoralDistrictID row)) ++ "-" ++
     zfill 3 (py_str (Genmap3.Csv.Bureau r)))%string.
Proof.
  unfold Genmap3.prepare. intros H.
  apply bind_Ok_inv in H as (d & Hd & [= <-]). by cbn.
Qed.

(** X12.  The section key of a record of [genmap3] is made of the district
    and the bureau that the record shows in its popup: the two texts, each
    filled with zeros to three characters, joined by a hyphen. *)
Theorem section_key_matches_fields (sort_values : sorter)
    (df : Genmap3.Csv.DataFrame)
    (index : gmap string (gmap string Genmap3.Result))
    (p s : string) (rec : Genmap3.Result) :
  Genmap3.build_results_index sort_values df = Ok index ->
  (index !! p ≫= fun sections => sections !! s) = Some rec ->
  s = (zfill 3 (Genmap3.district_id rec) ++ "-" ++
       zfill 3 (Genmap3.bureau rec))%string.
Proof.
  intros H Hrec.
  destruct (g3_index_records _ _ _ _ _ _ H Hrec)
    as (rows & x & Hrows & _ & Hgrp).
  apply g3_group_record_fields in Hgrp
    as (first & rest & Hgrp & _ & -> & -> & ->).
  assert (Hf : In first rows).
  { assert (Hin : In first (List.filter (Genmap3.same_key x) rows))
      by (rewrite Hgrp; by left).
    apply filter_In in Hin. tauto. }
  apply mapM_Ok_inv in Hrows.
  destruct (Forall2_In_r _ _ _ _ Hrows Hf) as (r0 & _ & Hprep).
  apply prepare_fields in Hprep as (_ & -> & _ & ->). done.
Qed.

Lemma section_key_matches_fields_witness :
  exists rec,
    (PageExamples.g3_index_of PageExamples.g3_sections !! "0.00"
       ≫= fun sections => sections !! "005-007") = Some rec /\
    "005-007" = (zfill 3 (Genmap3.district_id rec) ++ "-" ++
                 zfill 3 (Genmap3.bureau rec))%string.
Proof.
  assert (Hrec : exists rec,
             (PageExamples.g3_index_of PageExamples.g3_sections !! "0.00"
                ≫= fun sections => sections !! "005-007") = Some rec).
  { apply is_Some_test. vm_compute. reflexivity. }
  destruct Hrec as (rec & Hrec). exists rec. split; [exact Hrec|].
  apply (section_key_matches_fields stable_sorter PageExamples.g3_sections
           (PageExamples.g3_index_of PageExamples.g3_sections) "0.00").
  - apply g3_index_of_ok. vm_compute. reflexivity.
  - exact Hrec.
Defined.

Lemma str_int_small_check :
  forallb (fun n => (digits_only (str_int (Z.of_nat n)) &&
                     (String.length (str_int (Z.of_nat n)) <=? 3)%nat)%bool)
    (seq 0 1000) = true.
Proof. vm_compute. reflexivity. Qed.

Lemma str_int_small (z : Z) :
  0 <= z < 1000 ->
  digits_only (str_int z) = true /\ (String.length (str_int z) <= 3)%nat.
Proof.
  intros Hz. pose proof str_int_small_check as H.
  rewrite forallb_forall in H. specialize (H (Z.to_nat z)).
  rewrite Z2Nat.id in H by lia.
  assert (Hin : In (Z.to_nat z) (seq 0 1000)) by (apply in_seq; lia).
  apply H in Hin. apply andb_true_iff in Hin as [Hd Hl].
  split; [done|]. by apply Nat.leb_le.
Qed.

(** X13.  For a district and a bureau that are integers from 0 to 999,
    [genmap3] gives the section code the form DDD-SSS of the CODE_SECTION of
    the map: the district as exactly three digits, a hyphen, the bureau as
    exactly three digits, each the number filled with zeros on the left. *)
Theorem section_code_three_digits (r : Genmap3.Csv.Row) (d b : Z) :
  Genmap3.Csv.ElectoralDistrictID r = VInt d ->
  Genmap3.Csv.Bureau r = VInt b ->
  0 <= d < 1000 -> 0 <= b < 1000 ->
  exists row,
    Genmap3.prepare r = Ok row /\
    Genmap3.SectionCode row
    = (Genmap3.DistCode row ++ "-" ++ Genmap3.BureauStr row)%string /\
    Genmap3.DistCode row = MapPage.padStart0 3 (str_int d) /\
    Genmap3.BureauStr row = MapPage.padStart0 3 (str_int b) /\
    bureau_key (Genmap3.DistCode row) /\
    bureau_key (Genmap3.BureauStr row).
Proof.
  intros Hd Hb Hdr Hbr.
  destruct (str_int_small d Hdr) as [Dd Dl].
  destruct (str_int_small b Hbr) as [Bd Bl].
  unfold Genmap3.prepare. rewrite Hd, Hb.
  cbn [to_numeric_coerce float_of_int Genmap3.astype_int py_str].
  rewrite trunc_inject_Z. eexists. split; [reflexivity|].
  cbn [Genmap3.SectionCode Genmap3.DistCode Genmap3.BureauStr].
  rewrite !zfill_digits by done.
  repeat split; try apply padStart0_bureau; done.
Qed.

Lemma section_code_three_digits_witness :
  exists row,
    Genmap3.prepare (PageExamples.g3_section_row "0,00" 5 7 "E" "PartyY" 40)
    = Ok row /\
    Genmap3.SectionCode row = "005-007".
Proof.
  destruct (section_code_three_digits
              (PageExamples.g3_section_row "0,00" 5 7 "E" "PartyY" 40) 5 7)
    as (row & Hrow & Hs & Hd & Hb & _); [reflexivity|reflexivity|lia|lia|].
  exists row. split; [exact Hrow|].
  rewrite Hs, Hd, Hb. vm_compute. reflexivity.
Defined.

End SectionCodeFacts.

Section ColourFacts.
Import Py Shape.

Lemma extractDistBureau_named (props : MapPage.Props)
    (dv bv : MapPage.jsval) :
  MapPage.first_present MapPage.DISTRICT_KEYS props = Some dv ->
  MapPage.first_present MapPage.BUREAU_KEYS props = Some bv ->
  MapPage.normDigits dv <> "" ->
  MapPage.extractDistBureau props
  = (Some (MapPage.normDigits dv), Some (MapPage.normBureau3 bv)).
Proof.
  intros Hd Hb Hne. unfold MapPage.extractDistBureau.
  rewrite Hd, Hb. cbn [option_map].
  destruct (normBureau3_bureau bv) as [Hl _].
  destruct (MapPage.normDigits dv) as [|c d]; [done|].
  destruct (MapPage.normBureau3 bv) as [|c' b]; [done|].
  reflexivity.
Qed.

(** X14.  The join of the page, from the table to the colour: a section of
    the map that names its district and its bureau under keys of the two
    lists, with values that normalise to those of a row of the table, is
    filled with the colour of the party of the winner of the poste given to
    [--winner-poste], whenever the row is of that poste. *)
Theorem section_coloured_by_winner (df : GenerateMap.DataFrame)
    (only_poste : option (list pyfloat))
    (index : gmap (string * string) (gmap string GenerateMap.PosteInfo))
    (r : GenerateMap.Row) (winner_poste : string) (p : pyfloat)
    (props : MapPage.Props) (dv bv : MapPage.jsval) :
  GenerateMap.build_results_index df only_poste = Ok index ->
  In (GenerateMap.add_norm_columns r)
     (GenerateMap.filter_postes only_poste
        (map GenerateMap.add_norm_columns (GenerateMap.df_rows df))) ->
  float_of_string winner_poste = Some p ->
  GenerateMap.poste_same p (GenerateMap.Poste r) = true ->
  MapPage.first_present MapPage.DISTRICT_KEYS props = Some dv ->
  MapPage.first_present MapPage.BUREAU_KEYS props = Some bv ->
  MapPage.normDigits dv = GenerateMap.norm_digits (GenerateMap.DistrictID r) ->
  MapPage.normBureau3 bv = GenerateMap.norm_bureau3 (GenerateMap.Bureau r) ->
  GenerateMap.norm_digits (GenerateMap.DistrictID r) <> "" ->
  exists win,
    GenerateMap.getWinnerInfo
      (MapPage.flatten index
         !! (GenerateMap.norm_digits (GenerateMap.DistrictID r) ++ "|" ++
             GenerateMap.norm_bureau3 (GenerateMap.Bureau r))%string)
      (GenerateMap.winner_key winner_poste) = Some win /\
    MapPage.sectionFillColor (MapPage.flatten index)
      (GenerateMap.winner_key winner_poste) props
    = MapPage.colorForParty (GenerateMap.w_parti win).
Proof.
  intros H Hr Hs Hp Hdv Hbv Ed Eb Hne.
  destruct (gm_row_record df only_poste index _ H Hr)
    as (pk & postes & info & Hpk & Hpo & Hi & Hrows).
  cbn [GenerateMap.add_norm_columns GenerateMap.row GenerateMap.DistrictID_norm
       GenerateMap.Bureau_norm] in Hpk, Hpo.
  rewrite <- (gm_flatten_lookup df only_poste index H) in Hpo.
  assert (Hw : GenerateMap.winner_key winner_poste = pk).
  { unfold GenerateMap.winner_key. rewrite Hs.
    by rewrite (poste_key_same _ _ Hp), Hpk. }
  assert (Hwin : is_Some (GenerateMap.getWinnerInfo (Some postes) pk)).
  { unfold GenerateMap.getWinnerInfo. rewrite Hi.
    destruct (stable_sort (desc_int GenerateMap.votes) (GenerateMap.rows info))
      as [|top rest] eqn:E; [|eauto].
    exfalso. apply Hrows.
    assert (Hperm := stable_sort_perm (desc_int GenerateMap.votes)
                       (GenerateMap.rows info)).
    rewrite E in Hperm. by apply Permutation_nil in Hperm. }
  destruct Hwin as [win Hwin]. exists win.
  rewrite Hpo, Hw. split; [exact Hwin|].
  unfold MapPage.sectionFillColor.
  rewrite (extractDistBureau_named props dv bv Hdv Hbv) by (by rewrite Ed).
  rewrite Ed, Eb.
  destruct (norm_bureau3_bureau (GenerateMap.Bureau r)) as [Hl _].
  destruct (GenerateMap.norm_digits (GenerateMap.DistrictID r)) as [|c d];
    [done|].
  destruct (GenerateMap.norm_bureau3 (GenerateMap.Bureau r)) as [|c' b];
    [done|].
  by rewrite Hpo, Hwin.
Qed.

Lemma section_coloured_by_winner_witness :
  MapPage.sectionFillColor
    (MapPage.flatten (PageExamples.gm_index_of PageExamples.gm_sections))
    (GenerateMap.winner_key "0.00")
    [("NOM", MapPage.JStr "Section 7"); ("ARR", MapPage.JStr "05");
     ("SECTION", MapPage.JNum (Finite 7))]
  = MapPage.OTHER.
Proof.
  destruct (section_coloured_by_winner PageExamples.gm_sections None
              (PageExamples.gm_index_of PageExamples.gm_sections)
              (PageExamples.gm_section_row 5 "7" 0 "C" "PartyX" 10)
              "0.00" (Finite 0)
              [("NOM", MapPage.JStr "Section 7"); ("ARR", MapPage.JStr "05");
               ("SECTION", MapPage.JNum (Finite 7))]
              (MapPage.JStr "05") (MapPage.JNum (Finite 7)))
    as (win & Hwin & Hcol).
  - apply gm_index_of_ok. vm_compute. reflexivity.
  - vm_compute. tauto.
  - vm_compute. reflexivity.
  - vm_compute. reflexivity.
  - vm_compute. reflexivity.
  - vm_compute. reflexivity.
  - vm_compute. reflexivity.
  - vm_compute. reflexivity.
  - vm_compute. discriminate.
  - rewrite Hcol. vm_compute in Hwin. injection Hwin as <-.
    vm_compute. reflexivity.
Defined.

End ColourFacts.

(** ** The map of gen_mairie *)

Section MairieFacts.
Import Py Shape.

(** No two first occurrences have the same key. *)
Lemma first_occurrences_distinct {A : Type} (same : A -> A -> bool)
    (l : list A) :
  StronglySorted (fun x y => same x y = false) (first_occurrences same l).
Proof.
  induction l as [|x l IH]; cbn [first_occurrences]; constructor.
  - by apply StronglySorted_filter_keep.
  - apply List.Forall_forall. intros y Hy. apply filter_In in Hy as [_ Hy].
    by apply negb_true_iff.
Qed.

Lemma mairie_same_key_refl (r : GenMairie.Row) : GenMairie.same_key r r = true.
Proof. unfold GenMairie.same_key. by rewrite !String.eqb_refl. Qed.

Lemma mairie_same_key_trans (x y z : GenMairie.Row) :
  GenMairie.same_key x y = true -> GenMairie.same_key y z = true ->
  GenMairie.same_key x z = true.
Proof.
  rewrite !same_key_eq. intros [-> ->] [-> ->]. done.
Qed.

(** [groupby(...).first()] always returns, with one row for each first
    occurrence of a key, under that key. *)
Lemma first_of_groups (l : list GenMairie.Row) :
  exists ws,
    mapM GenMairie.first_of_group (groupby GenMairie.same_key l) = Ok ws /\
    map MairieMap.index_key ws
    = map MairieMap.row_key (first_occurrences GenMairie.same_key l).
Proof.
  unfold groupby.
  assert (Hsub : forall x, In x (first_occurrences GenMairie.same_key l) ->
                           In x l)
    by (intros x; apply first_occurrences_In).
  induction (first_occurrences GenMairie.same_key l) as [|x fo IH].
  - by exists [].
  - destruct IH as (ws & Hws & Hkeys); [intros y Hy; apply Hsub; by right|].
    assert (Hx : In x (List.filter (GenMairie.same_key x) l)).
    { apply filter_In. split; [apply Hsub; by left|apply mairie_same_key_refl]. }
    cbn [map mapM].
    destruct (List.filter (GenMairie.same_key x) l) as [|r g] eqn:E; [done|].
    assert (Hr : GenMairie.same_key x r = true).
    { assert (Hin : In r (List.filter (GenMairie.same_key x) l))
        by (rewrite E; by left).
      apply filter_In in Hin. tauto. }
    apply same_key_eq in Hr as [Hd Hp].
    cbn [GenMairie.first_of_group]. cbn. rewrite Hws. cbn.
    eexists. split; [reflexivity|].
    cbn [map]. rewrite Hkeys. f_equal.
    unfold MairieMap.index_key, MairieMap.row_key. cbn. by rewrite Hd, Hp.
Qed.

Lemma first_occurrences_keys_NoDup (l : list GenMairie.Row) :
  NoDup (map MairieMap.row_key (first_occurrences GenMairie.same_key l)).
Proof.
  pose proof (first_occurrences_distinct GenMairie.same_key l) as H.
  induction H as [|x fo Hs IH Hx]; cbn [map]; constructor; [|done].
  rewrite list_elem_of_In. intros Hin. apply in_map_iff in Hin as (y & Hy & Hin).
  rewrite List.Forall_forall in Hx. specialize (Hx y Hin).
  assert (Hsame : GenMairie.same_key x y = true).
  { apply same_key_eq. unfold MairieMap.row_key in Hy. by injection Hy as -> ->. }
  congruence.
Qed.

(** An index built from rows with distinct keys holds exactly these rows,
    each under its key. *)
Lemma build_winner_index_NoDup (ws : list GenMairie.Winner)
    (idx0 : MairieMap.WinnerIndex) :
  NoDup (map MairieMap.index_key ws) ->
  (forall w, In w ws -> idx0 !! MairieMap.index_key w = None) ->
  exists idx,
    foldM (fun (idx : MairieMap.WinnerIndex) w =>
             match idx !! MairieMap.index_key w with
             | Some _ => Raise ValueError
             | None => Ok (<[MairieMap.index_key w := w]> idx)
             end) ws idx0 = Ok idx /\
    forall k w,
      idx !! k = Some w <->
      idx0 !! k = Some w \/ (In w ws /\ MairieMap.index_key w = k).
Proof.
  revert idx0. induction ws as [|w0 ws IH]; intros idx0 Hnd Hfresh.
  - exists idx0. split; [done|]. intros k w. split; [auto|].
    intros [?|[[] _]]. done.
  - cbn [map] in Hnd. apply NoDup_cons in Hnd as [Hnot Hnd].
    cbn [foldM]. rewrite (Hfresh w0) by (by left). cbn.
    destruct (IH (<[MairieMap.index_key w0 := w0]> idx0) Hnd)
      as (idx & Hidx & Hlook).
    { intros w Hw. rewrite lookup_insert_ne; [apply Hfresh; by right|].
      intros E. apply Hnot. rewrite E. apply list_elem_of_In.
      by apply in_map. }
    exists idx. split; [done|]. intros k w. rewrite Hlook.
    split.
    + intros [H|[Hw Hk]].
      * destruct (decide (MairieMap.index_key w0 = k)) as [<-|Hne].
        -- rewrite lookup_insert_eq in H. injection H as <-.
           right. split; [by left|done].
        -- rewrite lookup_insert_ne in H by done. by left.
      * right. split; [by right|done].
    + intros [H|[[<-|Hw] Hk]].
      * left. rewrite lookup_insert_ne; [done|].
        intros <-. rewrite (Hfresh w0) in H by (by left). done.
      * left. subst k. by rewrite lookup_insert_eq.
      * right. done.
Qed.

Lemma load_results_index (sort_values : sorter)
    (rows : list GenMairie.Csv.Row) :
  exists ws idx,
    GenMairie.load_results sort_values rows = Ok ws /\
    MairieMap.build_winner_index ws = Ok idx /\
    (forall k w, idx !! k = Some w <-> In w ws /\ MairieMap.index_key w = k) /\
    map MairieMap.index_key ws
    = map MairieMap.row_key
        (first_occurrences GenMairie.same_key
           (sort_values GenMairie.Row GenMairie.Votes
              (map GenMairie.prepare rows))).
Proof.
  unfold GenMairie.load_results.
  destruct (first_of_groups
              (sort_values GenMairie.Row GenMairie.Votes
                 (map GenMairie.prepare rows))) as (ws & Hws & Hkeys).
  destruct (build_winner_index_NoDup ws ∅) as (idx & Hidx & Hlook).
  { rewrite Hkeys. apply first_occurrences_keys_NoDup. }
  { intros w _. apply lookup_empty. }
  exists ws, idx. split; [done|]. split; [done|]. split; [|done].
  intros k w. rewrite Hlook, lookup_empty. split; [|auto].
  intros [?|?]; done.
Qed.

End MairieFacts.

Section MairieMapFacts.
Import Py Shape.

(** X15.  For [gen_mairie], [load_results] followed by
    [build_winner_index] never raises, whatever the cells of the table
    hold: the rows of [winners] have distinct keys, so that [to_dict]
    accepts them.  The index holds exactly the rows of [winners], each under
    its district and poste, and it has an entry for the district and the
    normalised poste of every row of the table. *)
Theorem winner_index_covers_table (sort_values : sorter)
    (rows : list GenMairie.Csv.Row) :
  conforming sort_values ->
  exists ws idx,
    GenMairie.load_results sort_values rows = Ok ws /\
    MairieMap.build_winner_index ws = Ok idx /\
    (forall k w, idx !! k = Some w <-> In w ws /\ MairieMap.index_key w = k) /\
    (forall r, In r rows ->
       is_Some (idx !! (py_str (GenMairie.Csv.ElectoralDistrictID r),
                        replace_comma_dot (py_str (GenMairie.Csv.Poste r))))).
Proof.
  intros [Hperm _].
  destruct (load_results_index sort_values rows)
    as (ws & idx & Hws & Hidx & Hlook & Hkeys).
  exists ws, idx. split; [done|]. split; [done|]. split; [done|].
  intros r Hr.
  assert (Hin : In (GenMairie.prepare r)
                  (sort_values GenMairie.Row GenMairie.Votes
                     (map GenMairie.prepare rows))).
  { eapply Permutation_in; [symmetry; apply Hperm|]. by apply in_map. }
  destruct (first_occurrences_cover GenMairie.same_key _ mairie_same_key_refl
              mairie_same_key_trans _ Hin) as (x & Hx & Hsame).
  apply same_key_eq in Hsame as [Hd Hp].
  assert (Hk : In (MairieMap.row_key x) (map MairieMap.index_key ws)).
  { rewrite Hkeys. by apply in_map. }
  apply in_map_iff in Hk as (w & Hw & Hwin).
  exists w. apply Hlook. split; [done|].
  rewrite Hw. unfold MairieMap.row_key. by rewrite Hd, Hp.
Qed.

Lemma winner_index_covers_table_witness :
  conforming stable_sorter /\
  exists ws idx,
    GenMairie.load_results stable_sorter PageExamples.mairie_districts
    = Ok ws /\
    MairieMap.build_winner_index ws = Ok idx /\
    is_Some (idx !! ("5", "0.00")).
Proof.
  split; [exact stable_sorter_conforming|].
  destruct (winner_index_covers_table stable_sorter
              PageExamples.mairie_districts stable_sorter_conforming)
    as (ws & idx & Hws & Hidx & _ & Hrows).
  exists ws, idx. split; [exact Hws|]. split; [exact Hidx|].
  apply (Hrows (PageExamples.mairie_district_row 5 "C" "PartyX" 10)).
  vm_compute. tauto.
Defined.

(** X16.  From the table to the feature, in [gen_mairie]: a feature whose
    id reads as the district of a row of the table gets, for the normalised
    poste of that row, the candidate and the party of the row of [winners]
    for that district and poste, and its votes as an integer.  These votes
    are the largest of the rows of the table for that district and poste;
    when they are infinite the call raises [OverflowError]. *)
Theorem feature_gets_group_winner (sort_values : sorter)
    (rows : list GenMairie.Csv.Row) (ws : list GenMairie.Winner)
    (idx : MairieMap.WinnerIndex) (id_field : string)
    (props : MairieMap.Props) (v : pyval) (r : GenMairie.Csv.Row) :
  conforming sort_values ->
  GenMairie.load_results sort_values rows = Ok ws ->
  MairieMap.build_winner_index ws = Ok idx ->
  props !! id_field = Some v -> v <> VNone ->
  In r rows ->
  py_str v = py_str (GenMairie.Csv.ElectoralDistrictID r) ->
  exists w,
    idx !! (py_str v, replace_comma_dot (py_str (GenMairie.Csv.Poste r)))
    = Some w /\
    (exists r', In r' rows /\
                GenMairie.same_key (GenMairie.prepare r) (GenMairie.prepare r')
                = true /\
                GenMairie.Votes (GenMairie.prepare r') = GenMairie.w_Votes w) /\
    (forall r', In r' rows ->
                GenMairie.same_key (GenMairie.prepare r) (GenMairie.prepare r')
                = true ->
                float_leb (GenMairie.Votes (GenMairie.prepare r'))
                  (GenMairie.w_Votes w) = true) /\
    MairieMap.inject_feature idx
      (replace_comma_dot (py_str (GenMairie.Csv.Poste r))) id_field
      (MairieMap.Object props)
    = match int_of_float (GenMairie.w_Votes w) with
      | Ok n =>
          MairieMap.Returns
            (MairieMap.Object
               (<["winner_votes" := VInt n]>
                  (<["winner_party" := GenMairie.w_Parti w]>
                     (<["winner_candidate" := GenMairie.w_Candidat w]> props))))
      | Raise e => MairieMap.Raises e
      end.
Proof.
  intros Hsort Hws Hidx Hv Hnone Hr Hid.
  destruct (load_results_index sort_values rows)
    as (ws' & idx' & Hws' & Hidx' & Hlook & Hkeys).
  rewrite Hws in Hws'. injection Hws' as <-.
  rewrite Hidx in Hidx'. injection Hidx' as <-.
  assert (Hin : In (GenMairie.prepare r)
                  (sort_values GenMairie.Row GenMairie.Votes
                     (map GenMairie.prepare rows))).
  { eapply Permutation_in;
      [symmetry; apply (sort_values_perm _ Hsort)|]. by apply in_map. }
  destruct (first_occurrences_cover GenMairie.same_key _ mairie_same_key_refl
              mairie_same_key_trans _ Hin) as (x & Hx & Hsame).
  apply same_key_eq in Hsame as [Hd Hp].
  assert (Hk : In (MairieMap.row_key x) (map MairieMap.index_key ws)).
  { rewrite Hkeys. by apply in_map. }
  apply in_map_iff in Hk as (w & Hw & Hwin).
  assert (Hkey : MairieMap.index_key w
                 = (py_str v,
                    replace_comma_dot (py_str (GenMairie.Csv.Poste r)))).
  { rewrite Hw, Hid. unfold MairieMap.row_key. by rewrite Hd, Hp. }
  assert (Hlk : idx !! (py_str v,
                        replace_comma_dot (py_str (GenMairie.Csv.Poste r)))
                = Some w).
  { apply Hlook. by split. }
  exists w. split; [exact Hlk|].
  destruct (load_results_votes_max sort_values rows ws w Hsort Hws Hwin)
    as [(r1 & Hr1 & Hv1) Hmax].
  injection Hkey as Hkd Hkp.
  assert (Hgrp : forall y,
             In y (List.filter
                     (fun r0 =>
                        (String.eqb (GenMairie.ElectoralDistrictID r0)
                           (GenMairie.w_ElectoralDistrictID w)
                         && String.eqb (GenMairie.PosteNorm r0)
                              (GenMairie.w_PosteNorm w))%bool)
                     (map GenMairie.prepare rows)) <->
             exists r', In r' rows /\ y = GenMairie.prepare r' /\
                        GenMairie.same_key (GenMairie.prepare r) y = true).
  { intros y. rewrite filter_In, in_map_iff, andb_true_iff, !String.eqb_eq.
    rewrite Hkd, Hkp, Hid. split.
    - intros [(r' & <- & Hr') [E1 E2]]. exists r'. split; [done|].
      split; [done|]. apply same_key_eq. cbn in *. by rewrite E1, E2.
    - intros (r' & Hr' & -> & Hs). apply same_key_eq in Hs as [E1 E2].
      split; [by exists r'|]. cbn in *. by rewrite <- E1, <- E2. }
  split; [|split].
  - apply Hgrp in Hr1 as (r' & Hr' & -> & Hs). by exists r'.
  - intros r' Hr' Hs. rewrite List.Forall_forall in Hmax. apply Hmax.
    apply Hgrp. by exists r'.
  - unfold MairieMap.inject_feature, MairieMap.dict_get. rewrite Hv.
    change (default VNone (Some v)) with v.
    destruct v; [done|cbv iota; by rewrite Hlk..].
Qed.

Lemma mairie_winners_ok (rows : list GenMairie.Csv.Row) :
  GenMairie.load_results stable_sorter rows
  = Ok (PageExamples.mairie_winners rows) /\
  MairieMap.build_winner_index (PageExamples.mairie_winners rows)
  = Ok (PageExamples.mairie_index rows).
Proof.
  destruct (load_results_index stable_sorter rows)
    as (ws & idx & Hws & Hidx & _).
  unfold PageExamples.mairie_index, PageExamples.mairie_winners.
  by rewrite Hws, Hidx.
Qed.

Lemma feature_gets_group_winner_witness :
  MairieMap.inject_feature
    (PageExamples.mairie_index PageExamples.mairie_districts)
    "0.00" "district_id" (MairieMap.Object PageExamples.feature_11)
  = MairieMap.Returns
      (MairieMap.Object
         (<["winner_votes" := VInt 30]>
            (<["winner_party" := VStr "PartyX"]>
               (<["winner_candidate" := VStr "A"]> PageExamples.feature_11)))).
Proof.
  destruct (mairie_winners_ok PageExamples.mairie_districts) as [Hws Hidx].
  destruct (feature_gets_group_winner stable_sorter
              PageExamples.mairie_districts
              (PageExamples.mairie_winners PageExamples.mairie_districts)
              (PageExamples.mairie_index PageExamples.mairie_districts)
              "district_id" PageExamples.feature_11 (VInt 11)
              (PageExamples.mairie_district_row 11 "B" "PartyY" 20)
              stable_sorter_conforming Hws Hidx)
    as (w & Hlk & _ & _ & Hinj).
  - vm_compute. reflexivity.
  - discriminate.
  - vm_compute. tauto.
  - reflexivity.
  - vm_compute in Hlk. injection Hlk as <-.
    etransitivity; [exact Hinj|]. vm_compute. reflexivity.
Defined.

Lemma setdefault_lookup (k k' : string) (v : pyval) (props : MairieMap.Props) :
  MairieMap.setdefault k v props !! k'
  = match props !! k' with
    | Some x => Some x
    | None => if decide (k = k') then Some v else None
    end.
Proof.
  unfold MairieMap.setdefault.
  destruct (decide (k = k')) as [<-|Hne].
  - destruct (props !! k) eqn:E; [by rewrite ?E|].
    by rewrite lookup_insert_eq.
  - destruct (props !! k) eqn:E; [by destruct (props !! k')|].
    rewrite lookup_insert_ne by done. by destruct (props !! k').
Qed.

(** X17.  [inject_results_in_geojson] touches nothing but the three winner
    properties of a feature: every other property keeps its value, no
    property is removed, and a feature that has no id, or a null one, keeps
    all its properties as they are.  A feature without a [properties] member
    gets an empty one; a feature whose [properties] member is null stops the
    whole run with [AttributeError]. *)
Theorem inject_touches_winner_only (idx : MairieMap.WinnerIndex)
    (poste id_field : string) :
  (forall props feat',
      MairieMap.inject_feature idx poste id_field (MairieMap.Object props)
      = MairieMap.Returns feat' ->
      exists props',
        feat' = MairieMap.Object props' /\
        (forall k, ~ winner_property k -> props' !! k = props !! k) /\
        (forall k, is_Some (props !! k) -> is_Some (props' !! k)) /\
        (MairieMap.dict_get props id_field = VNone -> props' = props)) /\
  MairieMap.inject_feature idx poste id_field MairieMap.Missing
  = MairieMap.Returns (MairieMap.Object ∅) /\
  (forall feats1 feats2,
      Forall (fun f => exists f',
                MairieMap.inject_feature idx poste id_field f
                = MairieMap.Returns f') feats1 ->
      MairieMap.inject_results_in_geojson
        (Some (feats1 ++ MairieMap.Null :: feats2)) idx poste id_field
      = MairieMap.RaisesAttributeError).
Proof.
  split; [|split; [reflexivity|]].
  - intros props feat' H. unfold MairieMap.inject_feature in H.
    destruct (MairieMap.dict_get props id_field) eqn:Eid.
    { injection H as <-. exists props. repeat split; auto. }
    all: destruct (idx !! (_, poste)) as [res|];
      [destruct (int_of_float (GenMairie.w_Votes res)) as [n|e]; [|done]|];
      injection H as <-; eexists; (split; [reflexivity|]);
      (split; [|split; [|done]]).
    all: try (intros k Hk;
              rewrite !lookup_insert_ne; [done|..];
              intros <-; apply Hk; unfold winner_property; auto).
    all: try (intros k Hk;
              destruct (decide ("winner_votes" = k)) as [<-|?];
              [rewrite lookup_insert_eq; eauto|];
              rewrite lookup_insert_ne by done;
              destruct (decide ("winner_party" = k)) as [<-|?];
              [rewrite lookup_insert_eq; eauto|];
              rewrite lookup_insert_ne by done;
              destruct (decide ("winner_candidate" = k)) as [<-|?];
              [rewrite lookup_insert_eq; eauto|];
              by rewrite lookup_insert_ne).
    all: try (intros k Hk; rewrite !setdefault_lookup;
              destruct (props !! k) eqn:E; [done|];
              repeat destruct (decide _) as [<-|?]; try done;
              exfalso; apply Hk; unfold winner_property; auto).
    all: intros k [x Hk]; rewrite !setdefault_lookup, Hk; eauto.
  - intros feats1 feats2 H. unfold MairieMap.inject_results_in_geojson.
    induction H as [|f feats1 (f' & Hf) _ IH]; [reflexivity|].
    cbn [app MairieMap.inject_features]. rewrite Hf.
    by destruct (MairieMap.inject_features idx poste id_field
                   (feats1 ++ MairieMap.Null :: feats2)).
Qed.

Lemma inject_touches_winner_only_witness :
  exists props',
    MairieMap.inject_feature
      (PageExamples.mairie_index PageExamples.mairie_districts)
      "0.00" "district_id" (MairieMap.Object PageExamples.feature_11)
    = MairieMap.Returns (MairieMap.Object props') /\
    props' !! "nom" = Some (VStr "Ville-Marie").
Proof.
  destruct (inject_touches_winner_only
              (PageExamples.mairie_index PageExamples.mairie_districts)
              "0.00" "district_id") as (H & _ & _).
  destruct (H PageExamples.feature_11
              (MairieMap.Object
                 (<["winner_votes" := VInt 30]>
                    (<["winner_party" := VStr "PartyX"]>
                       (<["winner_candidate" := VStr "A"]>
                          PageExamples.feature_11)))))
    as (props' & E & Hother & _).
  - vm_compute. reflexivity.
  - exists props'. split; [by rewrite <- E; vm_compute|].
    rewrite Hother; [reflexivity|].
    unfold winner_property. intros [?|[?|?]]; discriminate.
Defined.

End MairieMapFacts.

Section MairieRunFacts.
Import Py Shape.

Lemma setdefault_present (k : string) (v x : pyval) (props : MairieMap.Props) :
  props !! k = Some x -> MairieMap.setdefault k v props = props.
Proof. unfold MairieMap.setdefault. by intros ->. Qed.

Lemma setdefault_is_Some (k : string) (v : pyval) (props : MairieMap.Props) :
  is_Some (MairieMap.setdefault k v props !! k).
Proof.
  rewrite setdefault_lookup. destruct (props !! k); [eauto|].
  destruct (decide (k = k)); [eauto|done].
Qed.

Lemma setdefault_keeps (k k' : string) (v : pyval) (props : MairieMap.Props) :
  is_Some (props !! k') -> is_Some (MairieMap.setdefault k v props !! k').
Proof. intros [x Hx]. rewrite setdefault_lookup, Hx. eauto. Qed.

Lemma inject_feature_inv (idx : MairieMap.WinnerIndex)
    (poste id_field : string) (props : MairieMap.Props)
    (feat' : MairieMap.member) :
  MairieMap.inject_feature idx poste id_field (MairieMap.Object props)
  = MairieMap.Returns feat' ->
  (MairieMap.dict_get props id_field = VNone /\
   feat' = MairieMap.Object props) \/
  (exists res n,
      MairieMap.dict_get props id_field <> VNone /\
      idx !! (py_str (MairieMap.dict_get props id_field), poste) = Some res /\
      int_of_float (GenMairie.w_Votes res) = Ok n /\
      feat' = MairieMap.Object
                (<["winner_votes" := VInt n]>
                   (<["winner_party" := GenMairie.w_Parti res]>
                      (<["winner_candidate" := GenMairie.w_Candidat res]>
                         props)))) \/
  (MairieMap.dict_get props id_field <> VNone /\
   idx !! (py_str (MairieMap.dict_get props id_field), poste) = None /\
   feat' = MairieMap.Object
             (MairieMap.setdefault "winner_votes" (VInt 0)
                (MairieMap.setdefault "winner_party" (VStr "N/A")
                   (MairieMap.setdefault "winner_candidate" (VStr "N/A")
                      props)))).
Proof.
  unfold MairieMap.inject_feature. intros H.
  destruct (MairieMap.dict_get props id_field) as [| |s|z|x] eqn:Eid.
  { left. by injection H as <-. }
  all: right;
    destruct (idx !! (_, poste)) as [res|] eqn:Elk;
    [destruct (int_of_float (GenMairie.w_Votes res)) as [n|e] eqn:En; [|done];
     left; exists res, n; injection H as <-; by repeat split
    |right; injection H as <-; by repeat split].
Qed.

Lemma inject_feature_intro (idx : MairieMap.WinnerIndex)
    (poste id_field : string) (props : MairieMap.Props) :
  MairieMap.dict_get props id_field <> VNone ->
  MairieMap.inject_feature idx poste id_field (MairieMap.Object props)
  = match idx !! (py_str (MairieMap.dict_get props id_field), poste) with
    | Some res =>
        match int_of_float (GenMairie.w_Votes res) with
        | Ok n =>
            MairieMap.Returns
              (MairieMap.Object
                 (<["winner_votes" := VInt n]>
                    (<["winner_party" := GenMairie.w_Parti res]>
                       (<["winner_candidate" := GenMairie.w_Candidat res]>
                          props))))
        | Raise e => MairieMap.Raises e
        end
    | None =>
        MairieMap.Returns
          (MairieMap.Object
             (MairieMap.setdefault "winner_votes" (VInt 0)
                (MairieMap.setdefault "winner_party" (VStr "N/A")
                   (MairieMap.setdefault "winner_candidate" (VStr "N/A")
                      props))))
    end.
Proof.
  unfold MairieMap.inject_feature. intros H.
  by destruct (MairieMap.dict_get props id_field).
Qed.

Lemma winner_inserts_twice (a b c : pyval) (props : MairieMap.Props) :
  let props' :=
    <["winner_votes" := c]>
      (<["winner_party" := b]> (<["winner_candidate" := a]> props)) in
  <["winner_votes" := c]>
    (<["winner_party" := b]> (<["winner_candidate" := a]> props'))
  = props'.
Proof.
  cbv zeta. apply map_eq. intros k.
  rewrite !lookup_insert. repeat case_decide; congruence.
Qed.

Lemma winner_defaults_twice (props : MairieMap.Props) :
  let props' :=
    MairieMap.setdefault "winner_votes" (VInt 0)
      (MairieMap.setdefault "winner_party" (VStr "N/A")
         (MairieMap.setdefault "winner_candidate" (VStr "N/A") props)) in
  MairieMap.setdefault "winner_votes" (VInt 0)
    (MairieMap.setdefault "winner_party" (VStr "N/A")
       (MairieMap.setdefault "winner_candidate" (VStr "N/A") props'))
  = props'.
Proof.
  cbv zeta.
  set (p1 := MairieMap.setdefault "winner_candidate" (VStr "N/A") props).
  set (p2 := MairieMap.setdefault "winner_party" (VStr "N/A") p1).
  set (p3 := MairieMap.setdefault "winner_votes" (VInt 0) p2).
  assert (H1 : is_Some (p3 !! "winner_candidate")).
  { do 2 apply setdefault_keeps. apply setdefault_is_Some. }
  assert (H2 : is_Some (p3 !! "winner_party")).
  { apply setdefault_keeps. apply setdefault_is_Some. }
  assert (H3 : is_Some (p3 !! "winner_votes")) by apply setdefault_is_Some.
  destruct H1 as [x1 H1], H2 as [x2 H2], H3 as [x3 H3].
  rewrite (setdefault_present _ _ x1 p3 H1).
  rewrite (setdefault_present _ _ x2 p3 H2).
  by rewrite (setdefault_present _ _ x3 p3 H3).
Qed.

(** X18.  Injecting twice is injecting once: when the id field is not one
    of the three winner properties, a second run of the loop body with the
    same index and poste leaves the feature as the first run returned it. *)
Theorem inject_twice (idx : MairieMap.WinnerIndex) (poste id_field : string)
    (feat feat' : MairieMap.member) :
  ~ winner_property id_field ->
  MairieMap.inject_feature idx poste id_field feat = MairieMap.Returns feat' ->
  MairieMap.inject_feature idx poste id_field feat' = MairieMap.Returns feat'.
Proof.
  intros Hid H.
  assert (Hc : "winner_candidate" <> id_field)
    by (intros E; apply Hid; unfold winner_property; auto).
  assert (Hp : "winner_party" <> id_field)
    by (intros E; apply Hid; unfold winner_property; auto).
  assert (Hv : "winner_votes" <> id_field)
    by (intros E; apply Hid; unfold winner_property; auto).
  destruct feat as [| |props]; [|done|].
  { injection H as <-. reflexivity. }
  apply inject_feature_inv in H
    as [[Eid ->]|[(res & n & Eid & Elk & En & ->)|(Eid & Elk & ->)]].
  - unfold MairieMap.inject_feature. by rewrite Eid.
  - assert (Eid' : MairieMap.dict_get
                     (<["winner_votes" := VInt n]>
                        (<["winner_party" := GenMairie.w_Parti res]>
                           (<["winner_candidate" := GenMairie.w_Candidat res]>
                              props))) id_field
                   = MairieMap.dict_get props id_field).
    { unfold MairieMap.dict_get. by rewrite !lookup_insert_ne by done. }
    rewrite inject_feature_intro by (by rewrite Eid').
    rewrite Eid', Elk, En. do 2 f_equal. apply winner_inserts_twice.
  - assert (Eid' : MairieMap.dict_get
                     (MairieMap.setdefault "winner_votes" (VInt 0)
                        (MairieMap.setdefault "winner_party" (VStr "N/A")
                           (MairieMap.setdefault "winner_candidate"
                              (VStr "N/A") props))) id_field
                   = MairieMap.dict_get props id_field).
    { unfold MairieMap.dict_get. rewrite !setdefault_lookup.
      destruct (props !! id_field); [done|].
      by rewrite !decide_False by done. }
    rewrite inject_feature_intro by (by rewrite Eid').
    rewrite Eid', Elk. do 2 f_equal. apply winner_defaults_twice.
Qed.

Lemma inject_twice_witness :
  MairieMap.inject_feature
    (PageExamples.mairie_index PageExamples.mairie_districts)
    "0.00" "district_id"
    (MairieMap.Object
       (<["winner_votes" := VInt 30]>
          (<["winner_party" := VStr "PartyX"]>
             (<["winner_candidate" := VStr "A"]> PageExamples.feature_11))))
  = MairieMap.Returns
      (MairieMap.Object
         (<["winner_votes" := VInt 30]>
            (<["winner_party" := VStr "PartyX"]>
               (<["winner_candidate" := VStr "A"]> PageExamples.feature_11)))).
Proof.
  apply (inject_twice
           (PageExamples.mairie_index PageExamples.mairie_districts)
           "0.00" "district_id"
           (MairieMap.Object PageExamples.feature_11)).
  - unfold winner_property. intros [?|[?|?]]; discriminate.
  - vm_compute. reflexivity.
Defined.

End MairieRunFacts.

Section PosteChoiceFacts.
Import Py Shape.

Lemma replace_comma_dot_fixed (s : string) :
  replace_comma_dot s = s <-> count_commas s = 0%nat.
Proof.
  induction s as [|c s IH]; [done|].
  cbn [replace_comma_dot count_commas].
  destruct (Ascii.eqb c ",") eqn:E.
  - apply Ascii.eqb_eq in E. subst c. split; [|done].
    intros H. by injection H.
  - rewrite <- IH. split; [intros H; by injection H|by intros ->].
Qed.

Lemma replace_first_or_all (s : string) :
  MairieMap.replace_first_comma_dot s = replace_comma_dot s <->
  (count_commas s <= 1)%nat.
Proof.
  induction s as [|c s IH]; [cbn; split; [lia|done]|].
  cbn [MairieMap.replace_first_comma_dot replace_comma_dot count_commas].
  destruct (Ascii.eqb c ",") eqn:E.
  - pose proof (replace_comma_dot_fixed s) as Hf. split.
    + intros H. injection H as H. symmetry in H. apply Hf in H. lia.
    + intros H. f_equal. symmetry. apply Hf. lia.
  - rewrite <- IH. split; [intros H; by injection H|by intros ->].
Qed.

(** X19.  [make_map] normalises the [--poste] argument by replacing its
    first comma only, and [load_results] normalises the postes of the table
    by replacing every comma.  The argument is normalised as the same text
    in the table is exactly when it has at most one comma. *)
Theorem poste_argument_normalised (s : string) (available : list string) :
  MairieMap.choose_poste (Some s) available = Ok (replace_comma_dot s) <->
  (count_commas s <= 1)%nat.
Proof.
  cbn [MairieMap.choose_poste]. rewrite <- replace_first_or_all.
  split; [intros H; by injection H|by intros ->].
Qed.

Lemma string_compare_trans (s1 s2 s3 : string) :
  String.compare s1 s2 <> Gt -> String.compare s2 s3 <> Gt ->
  String.compare s1 s3 <> Gt.
Proof.
  revert s2 s3. induction s1 as [|c1 s1 IH]; intros [|c2 s2] [|c3 s3];
    cbn [String.compare]; try done.
  unfold Ascii.compare.
  destruct (N.compare_spec (N_of_ascii c1) (N_of_ascii c2)) as [E12|L12|G12],
           (N.compare_spec (N_of_ascii c2) (N_of_ascii c3)) as [E23|L23|G23],
           (N.compare_spec (N_of_ascii c1) (N_of_ascii c3)) as [E13|L13|G13];
    try done; try lia.
  apply IH.
Qed.

Lemma string_leb_trans (s1 s2 s3 : string) :
  String.leb s1 s2 = true -> String.leb s2 s3 = true ->
  String.leb s1 s3 = true.
Proof.
  unfold String.leb. intros H1 H2.
  pose proof (string_compare_trans s1 s2 s3) as H.
  destruct (String.compare s1 s2), (String.compare s2 s3),
           (String.compare s1 s3); try done; exfalso; by apply H.
Qed.

Lemma string_eqb_trans (x y z : string) :
  String.eqb x y = true -> String.eqb y z = true -> String.eqb x z = true.
Proof. rewrite !String.eqb_eq. congruence. Qed.

Lemma string_leb_refl (s : string) : String.leb s s = true.
Proof. by destruct (String.leb_total s s). Qed.

(** The first of the sorted postes is the least of the postes. *)
Lemma postes_disponibles_head (ws : list GenMairie.Winner) :
  ws <> [] ->
  exists p rest,
    MairieMap.postes_disponibles ws = p :: rest /\
    In p (map GenMairie.w_PosteNorm ws) /\
    forall w, In w ws -> String.leb p (GenMairie.w_PosteNorm w) = true.
Proof.
  intros Hne. unfold MairieMap.postes_disponibles.
  set (l := first_occurrences String.eqb (map GenMairie.w_PosteNorm ws)).
  assert (Hl : l <> []).
  { subst l. destruct ws as [|w ws]; [done|]. done. }
  destruct (stable_sort_head (fun x y => String.leb y x) (fun _ => True))
    with (l := l) as (l1 & p & l2 & rest & El & Es & H1 & H2).
  - intros x y z Hxy Hyz. by apply (string_leb_trans z y x).
  - intros x y _ _. apply String.leb_total.
  - apply List.Forall_forall. done.
  - done.
  - exists p, rest. split; [exact Es|].
    assert (Hp : In p l) by (rewrite El; apply in_or_app; right; by left).
    split; [subst l; by apply first_occurrences_In in Hp|].
    intros w Hw.
    destruct (first_occurrences_cover String.eqb
                (map GenMairie.w_PosteNorm ws) String.eqb_refl
                string_eqb_trans (GenMairie.w_PosteNorm w))
      as (x & Hx & Hxw); [by apply in_map|].
    apply String.eqb_eq in Hxw. subst x. fold l in Hx.
    rewrite El in Hx. apply in_app_or in Hx as [Hx|[<-|Hx]].
    + rewrite List.Forall_forall in H1. specialize (H1 _ Hx).
      destruct (String.leb_total p (GenMairie.w_PosteNorm w)); [done|].
      congruence.
    + apply string_leb_refl.
    + rewrite List.Forall_forall in H2. by apply H2.
Qed.

(** X20.  Without [--poste], [make_map] takes the least of the normalised
    postes of the table, in the order of their characters.  On a table
    without rows there is none, and [make_map] raises [IndexError]. *)
Theorem default_poste (sort_values : sorter) :
  conforming sort_values ->
  (forall features id_field,
      MairieMap.make_map sort_values [] features None id_field
      = MairieMap.Raises IndexError) /\
  (forall ws,
      ws <> [] ->
      exists p,
        MairieMap.choose_poste None (MairieMap.postes_disponibles ws) = Ok p /\
        In p (map GenMairie.w_PosteNorm ws) /\
        forall w, In w ws -> String.leb p (GenMairie.w_PosteNorm w) = true).
Proof.
  intros [Hperm _]. split.
  - intros features id_field. unfold MairieMap.make_map, GenMairie.load_results.
    cbn [map].
    pose proof (Hperm GenMairie.Row GenMairie.Votes []) as Hnil.
    apply Permutation_sym, Permutation_nil in Hnil. rewrite Hnil.
    reflexivity.
  - intros ws Hne.
    destruct (postes_disponibles_head ws Hne) as (p & rest & E & Hin & Hle).
    exists p. rewrite E. done.
Qed.

Lemma default_poste_witness :
  conforming stable_sorter /\
  MairieMap.make_map stable_sorter [] (Some [MairieMap.Missing]) None
    "district_id"
  = MairieMap.Raises IndexError.
Proof.
  split; [exact stable_sorter_conforming|].
  destruct (default_poste stable_sorter stable_sorter_conforming) as [H _].
  apply H.
Defined.

End PosteChoiceFacts.

(** ** The labels of the postes *)

Section PosteLabelFacts.
Import Py Shape.

Lemma row_label_nonempty (format_2f : pyfloat -> string)
    (row : PosteLabels.PosteRow) (code label : string) :
  PosteLabels.row_label format_2f row = Some (code, label) ->
  label = "" -> code = "".
Proof.
  unfold PosteLabels.row_label.
  destruct (pd_isna (PosteLabels.no row)); [done|].
  destruct (PosteLabels.py_float (PosteLabels.no row)) as [f|]; [|done].
  destruct (Genmap3.normalize_str (PosteLabels.type_ row)) as [|c t],
           (Genmap3.normalize_str (PosteLabels.poste row)) as [|c' n];
    intros [= <- <-]; done.
Qed.

Lemma labels_raw_nonempty (format_2f : pyfloat -> string)
    (rows : list PosteLabels.PosteRow) (code label : string) :
  PosteLabels.labels_raw format_2f rows !! code = Some label ->
  label = "" -> code = "".
Proof.
  unfold PosteLabels.labels_raw.
  assert (H0 : forall c l, (∅ : gmap string string) !! c = Some l ->
                           l = "" -> c = "")
    by (intros c l; by rewrite lookup_empty).
  revert H0. generalize (∅ : gmap string string).
  induction rows as [|row rows IH]; intros acc Hacc; cbn [fold_left].
  - apply Hacc.
  - apply IH. intros c l.
    destruct (PosteLabels.row_label format_2f row) as [[code' label']|] eqn:E;
      [|apply Hacc].
    destruct (decide (code' = c)) as [->|Hne].
    + rewrite lookup_insert_eq. intros [= <-].
      by apply (row_label_nonempty format_2f row).
    + rewrite lookup_insert_ne by done. apply Hacc.
Qed.

(** X21.  [load_poste_labels] gives a label to every poste code of the
    index and to nothing else, and never an empty label to a code that is
    not empty, whatever [postes.csv] holds: a row without type and without
    name is labelled with its code.  When [postes.csv] does not exist every
    code is its own label. *)
Theorem every_poste_has_label {V : Type} (format_2f : pyfloat -> string)
    (postes_csv : option (list PosteLabels.PosteRow))
    (poste_codes : gmap string V) :
  (forall code,
      is_Some (PosteLabels.load_poste_labels format_2f postes_csv poste_codes
                 !! code) <->
      is_Some (poste_codes !! code)) /\
  (forall code label,
      PosteLabels.load_poste_labels format_2f postes_csv poste_codes !! code
      = Some label ->
      code <> "" -> label <> "") /\
  (forall code,
      is_Some (poste_codes !! code) ->
      PosteLabels.load_poste_labels format_2f None poste_codes !! code
      = Some code).
Proof.
  split; [|split].
  - intros code. unfold PosteLabels.load_poste_labels.
    destruct postes_csv as [rows|]; cbv zeta; rewrite map_lookup_imap;
      destruct (poste_codes !! code); cbn; split; eauto;
      intros [? ?]; done.
  - intros code label H Hcode Hlabel. apply Hcode.
    unfold PosteLabels.load_poste_labels in H.
    destruct postes_csv as [rows|]; cbv zeta in H;
      rewrite map_lookup_imap in H;
      destruct (poste_codes !! code); cbn in H; try done.
    + destruct (PosteLabels.labels_raw format_2f rows !! code) as [l|] eqn:E;
        cbn in H; injection H as <-.
      * by apply (labels_raw_nonempty format_2f rows code l).
      * done.
    + by injection H as <-.
  - intros code [v Hv]. unfold PosteLabels.load_poste_labels.
    by rewrite map_lookup_imap, Hv.
Qed.

End PosteLabelFacts.

(** ** The percentages of generate_map *)

Section PercentFacts.
Import Py Shape Spec.

Lemma sum_Z_elem (l : list Z) (x : Z) :
  Forall (fun y => 0 <= y) l -> In x l -> 0 <= x <= sum_Z l.
Proof.
  induction 1 as [|y l Hy Hl IH]; [done|]. cbn [sum_Z fold_right].
  assert (Hs : 0 <= sum_Z l).
  { clear -Hl. induction Hl as [|z l Hz _ IH]; cbn; [done|].
    unfold sum_Z in IH. lia. }
  unfold sum_Z in *. intros [<-|Hx]; [lia|].
  specialize (IH Hx). lia.
Qed.

Lemma round_half_even_bounds (q : Q) (n : Z) :
  (0 <= q)%Q -> (q <= inject_Z n)%Q ->
  0 <= round_half_even q <= n.
Proof.
  intros H0 Hn. unfold round_half_even.
  pose proof (Qfloor_nonneg q H0) as Hf0.
  assert (Hfn : Qfloor q <= n).
  { rewrite <- (Qfloor_Z n). by apply Qfloor_resp_le. }
  assert (Hstrict : (0 < q - inject_Z (Qfloor q))%Q -> Qfloor q < n).
  { intros Hr. rewrite Zlt_Qlt.
    apply Qlt_le_trans with q; [|done].
    apply (Qplus_lt_l _ _ (- inject_Z (Qfloor q))%Q).
    rewrite Qplus_opp_r. exact Hr. }
  destruct (Qcompare (q - inject_Z (Qfloor q)) (1 # 2)) eqn:E.
  - apply Qeq_alt in E. destruct (Z.even (Qfloor q)); [lia|].
    assert (Qfloor q < n); [|lia]. apply Hstrict. by rewrite E.
  - lia.
  - apply Qgt_alt in E. assert (Qfloor q < n); [|lia].
    apply Hstrict. by apply Qlt_trans with (1 # 2)%Q.
Qed.

Lemma round2_bounds (q : Q) :
  (0 <= q)%Q -> (q <= 100)%Q -> (0 <= round2 q <= 100)%Q.
Proof.
  intros H0 H100. unfold round2. rewrite Qred_correct.
  destruct (round_half_even_bounds (q * 100) 10000) as [Hl Hu].
  - by apply Qmult_le_0_compat.
  - change (inject_Z 10000) with (100 * 100)%Q.
    by apply Qmult_le_compat_r.
  - set (n := round_half_even (q * 100)) in *.
    unfold Qle, Qdiv, Qmult, Qinv, inject_Z. cbn. lia.
Qed.

Lemma share_bounds (v tv : Z) :
  0 <= v <= tv -> 0 < tv ->
  (0 <= inject_Z (100 * v) / inject_Z tv)%Q /\
  (inject_Z (100 * v) / inject_Z tv <= 100)%Q.
Proof.
  intros Hv Htv. destruct tv as [|p|p]; try lia.
  unfold Qle, Qdiv, Qmult, Qinv, inject_Z. cbn. split; nia.
Qed.

(** X22.  When the table has no [TotalValidVotes] column, the votes are
    integers of an [int64] column that are not negative, and the votes of
    the group add up to less than [2 ^ 63], every percentage that
    [generate_map] stores is between 0 and 100: the base is then the sum of
    the votes of the group. *)
Theorem made_up_percentages_in_range (df : GenerateMap.DataFrame)
    (g : list GenerateMap.NRow) (d b pkey : string)
    (info : GenerateMap.PosteInfo) :
  GenerateMap.group_record df g = Ok (d, b, pkey, info) ->
  GenerateMap.has_TotalValidVotes df = false ->
  Forall (fun r => exists z, int64_votes r z /\ 0 <= z) g ->
  sum_Z (votes_cells g) < 2 ^ 63 ->
  Forall (fun e => (0 <= GenerateMap.pct e <= 100)%Q) (GenerateMap.rows info).
Proof.
  intros Hrec Hcol Hvotes Hsum.
  assert (Hint : Forall (fun r => exists z, int64_votes r z) g).
  { eapply List.Forall_impl; [|exact Hvotes]. intros r (z & Hz & _). eauto. }
  destruct (gm_totals_made_up df g d b pkey info Hrec) as (Htv & _).
  destruct (Htv Hcol Hint) as [Etv Es]. clear Htv.
  apply group_record_inv in Hrec
    as (entries & r0 & g' & _ & _ & _ & _ & Hent & Hrows & _).
  apply mapM_Ok_inv in Hent.
  assert (Hnn : Forall (fun e => 0 <= GenerateMap.votes e)
                  (GenerateMap.rows info)).
  { rewrite Hrows. eapply Permutation_Forall;
      [symmetry; apply stable_sort_perm|].
    apply List.Forall_forall. intros e He.
    destruct (Forall2_In_r _ _ _ _ Hent He) as (r & Hr & Hmk).
    apply make_entry_votes in Hmk.
    rewrite List.Forall_forall in Hvotes.
    destruct (Hvotes r Hr) as (z & [Hz _] & Hz0).
    rewrite Hz in Hmk. cbn in Hmk. injection Hmk as <-. done. }
  assert (Hnn' : Forall (fun y => 0 <= y)
                   (map GenerateMap.votes (GenerateMap.rows info))).
  { clear -Hnn. induction Hnn; constructor; done. }
  assert (Hrange : in_int64
                     (sum_Z (map GenerateMap.votes (GenerateMap.rows info)))).
  { rewrite Es. split; [|done]. rewrite <- Es.
    clear -Hnn'. induction Hnn' as [|y l Hy _ IH]; cbn; [lia|].
    unfold sum_Z in IH. lia. }
  rewrite (wrap64_id _ Hrange) in Etv.
  apply List.Forall_forall. intros e He.
  assert (Hv : 0 <= GenerateMap.votes e <= GenerateMap.total_valid info).
  { rewrite Etv. apply sum_Z_elem; [done|by apply in_map]. }
  assert (He' : In e entries).
  { eapply Permutation_in; [apply stable_sort_perm|]. by rewrite <- Hrows. }
  destruct (Forall2_In_r _ _ _ _ Hent He') as (r & Hr & Hmk).
  rewrite (gm_pct_rule _ _ _ Hmk).
  destruct (0 <? GenerateMap.total_valid info) eqn:Epos.
  - apply Z.ltb_lt in Epos.
    destruct (share_bounds _ _ Hv Epos) as [Hl Hu].
    by apply round2_bounds.
  - done.
Qed.

Lemma made_up_percentages_in_range_witness :
  exists info,
    GenerateMap.group_record (Examples.gm_table false false false Examples.gm_two)
      (map GenerateMap.add_norm_columns Examples.gm_two)
    = Ok ("11", "037", "0", info) /\
    Forall (fun e => (0 <= GenerateMap.pct e <= 100)%Q) (GenerateMap.rows info).
Proof.
  eexists. split; [vm_compute; reflexivity|].
  match goal with
  | |- Forall _ (GenerateMap.rows ?i) =>
      apply (made_up_percentages_in_range
               (Examples.gm_table false false false Examples.gm_two)
               (map GenerateMap.add_norm_columns Examples.gm_two)
               "11" "037" "0" i)
  end.
  - vm_compute. reflexivity.
  - reflexivity.
  - repeat constructor.
    + exists 30. split; [split; [reflexivity|split; lia]|lia].
    + exists 20. split; [split; [reflexivity|split; lia]|lia].
  - vm_compute. reflexivity.
Defined.

End PercentFacts.

(** ** The record of the group of a row *)

Section RowGroupFacts.
Import Py Spec.









(** [generate_map]: when the index is built, the loop made an entry of
    every row. *)
Lemma gm_row_entry (df : GenerateMap.DataFrame)
    (only_poste : option (list pyfloat))
    (index : gmap (string * string) (gmap string GenerateMap.PosteInfo))
    (r : GenerateMap.NRow) :
  GenerateMap.build_results_index df only_poste = Ok index ->
  In r (gm_rows df only_poste) ->
  exists tv e, GenerateMap.make_entry tv r = Ok e.
Proof.
  unfold gm_rows. intros H Hr.
  destruct (groupby_cover GenerateMap.same_key _ gm_same_key_refl
              gm_same_key_trans r Hr) as (x & Hg & Hxr).
  set (l := GenerateMap.filter_postes only_poste
              (map GenerateMap.add_norm_columns (GenerateMap.df_rows df)))
    in *.
  set (g := List.filter (GenerateMap.same_key x) l) in *.
  assert (Hrg : In r g) by (apply filter_In; by split).
  unfold GenerateMap.build_results_index in H. fold l in H.
  assert (Hrec : exists d b pk info,
             GenerateMap.group_record df g = Ok (d, b, pk, info)).
  { clear -H Hg. revert H. generalize (∅ : gmap (string * string)
                                        (gmap string GenerateMap.PosteInfo)).
    induction (groupby GenerateMap.same_key l) as [|g0 gs IH];
      intros index0 H; [done|].
    cbn [foldM] in H. apply bind_Ok_inv in H as (index1 & Hstore & H).
    destruct Hg as [->|Hg]; [|by eapply IH].
    unfold GenerateMap.store in Hstore.
    apply bind_Ok_inv in Hstore as ([[[d0 b0] k0] info0] & Hrec0 & _).
    by exists d0, b0, k0, info0. }
  destruct Hrec as (d & b & pk & info & Hrec).
  apply group_record_inv in Hrec
    as (entries & _ & _ & _ & _ & _ & _ & Hent & _).
  apply mapM_Ok_inv in Hent.
  destruct (Forall2_In_l _ _ _ _ Hent Hrg) as (e & _ & He). eauto.
Qed.

Lemma no_digit_text_sub (s : string) :
  no_digit_text s = true -> re_sub_nondigits s = "".
Proof.
  unfold no_digit_text. induction s as [|c s IH]; cbn; [done|].
  intros [Hc Hs]%andb_true_iff. apply negb_true_iff in Hc.
  rewrite Hc. by apply IH.
Qed.





End RowGroupFacts.

(** * The aggregated records *)

Section Claims.
Import Py Spec Examples.






(** C3, as amended.  In a record of [generate_map] the rows are sorted by
    votes, largest first, and rows of equal votes keep the order of the
    table.  In a record of [genmap3] the breakdown is not sorted: it holds
    the rows of the group in the order of the table. *)
Theorem breakdown_order :
  (forall df g d b pkey info,
      GenerateMap.group_record df g = Ok (d, b, pkey, info) ->
      exists entries,
        Forall2 (fun r e =>
                   GenerateMap.make_entry (GenerateMap.total_valid info) r
                   = Ok e) g entries /\
        Permutation (GenerateMap.rows info) entries /\
        sorted_desc (map GenerateMap.votes (GenerateMap.rows info)) /\
        forall v,
          List.filter (fun e => GenerateMap.votes e =? v)
            (GenerateMap.rows info)
          = List.filter (fun e => GenerateMap.votes e =? v) entries) /\
  (forall sort_values df grp p s rec,
      Genmap3.group_record sort_values df grp = Ok (p, s, rec) ->
      Forall2 (fun r e =>
                 int_of_float (Genmap3.Votes r) = Ok (Genmap3.votes e) /\
                 Genmap3.candidat e
                   = Genmap3.normalize_str (Genmap3.Candidat r) /\
                 Genmap3.parti e = Genmap3.normalize_str (Genmap3.Parti r))
        grp (Genmap3.breakdown rec)).
Proof.
  split.
  - apply gm_rows_sorted_stable.
  - apply g3_breakdown_in_order.
Qed.

Lemma breakdown_order_witness :
  exists info,
    GenerateMap.group_record (gm_table true true true gm_rising)
      (map GenerateMap.add_norm_columns gm_rising)
    = Ok ("11", "037", "0", info) /\
    map GenerateMap.nom (GenerateMap.rows info) = ["B"; "A"] /\
    sorted_desc (map GenerateMap.votes (GenerateMap.rows info)).
Proof.
  eexists. split; [vm_compute; reflexivity|].
  split; [vm_compute; reflexivity|].
  match goal with
  | |- sorted_desc (map _ (GenerateMap.rows ?i)) =>
      destruct (proj1 breakdown_order (gm_table true true true gm_rising)
                  (map GenerateMap.add_norm_columns gm_rising)
                  "11" "037" "0" i)
        as (entries & _ & _ & Hs & _); [vm_compute; reflexivity|]
  end.
  exact Hs.
Defined.

(** C3, as stated, fails for [genmap3]: with the smaller candidate first in
    the table, the breakdown is in rising order. *)
Lemma breakdown_not_sorted :
  exists rec,
    g3_lookup (Genmap3.build_results_index stable_sorter
                 (g3_table true true true g3_rising)) = Some rec /\
    map Genmap3.votes (Genmap3.breakdown rec) = [20; 30] /\
    ~ sorted_desc (map Genmap3.votes (Genmap3.breakdown rec)).
Proof.
  eexists. split; [vm_compute; reflexivity|].
  split; [reflexivity|].
  simpl. unfold sorted_desc. intros H.
  inversion H as [|? ? _ Hall]; subst.
  inversion Hall as [|? ? Hle _]; subst. lia.
Qed.

(** C4, as amended.  In [genmap3] the base of the percentages of a group is
    the largest [TotalValidVotes] of the group when the column is there and
    that number is positive, else the largest [TotalVotes] on the same
    terms, else there is none and [pct] is [None]; with 100 valid votes, 25
    votes give 25; with 0 valid votes and 50 votes in all, 10 votes give
    20; with neither column, [pct] is [None].  In [generate_map] the base
    is [total_valid] alone, and [pct] is 0 when it is not positive. *)
Theorem pct_denominator :
  (forall sort_values df grp p s rec,
      Genmap3.group_record sort_values df grp = Ok (p, s, rec) ->
      let valid :=
        Genmap3.group_max (Genmap3.Csv.has_TotalValidVotes df)
          Genmap3.TotalValidVotes grp in
      let all :=
        Genmap3.group_max (Genmap3.Csv.has_TotalVotes df)
          Genmap3.TotalVotes grp in
      Forall (fun e =>
                (forall t, valid = Some t -> float_ltb (Finite 0) t = true ->
                   Genmap3.pct e =
                     Some (float_div
                             (Finite (inject_Z (Genmap3.votes e) * 100)) t)) /\
                (forall t, Genmap3.usable valid = false ->
                   all = Some t -> float_ltb (Finite 0) t = true ->
                   Genmap3.pct e =
                     Some (float_div
                             (Finite (inject_Z (Genmap3.votes e) * 100)) t)) /\
                (Genmap3.usable valid = false -> Genmap3.usable all = false ->
                   Genmap3.pct e = None))
        (Genmap3.breakdown rec)) /\
  (forall sort_values,
      conforming sort_values ->
      (g3_lookup (Genmap3.build_results_index sort_values
                    (g3_table true true true g3_quarter))
         ≫= fun rec => Some (map Genmap3.pct (Genmap3.breakdown rec)))
      = Some [Some (Finite 25)] /\
      (g3_lookup (Genmap3.build_results_index sort_values
                    (g3_table true true true g3_no_valid))
         ≫= fun rec => Some (map Genmap3.pct (Genmap3.breakdown rec)))
      = Some [Some (Finite 20)] /\
      (g3_lookup (Genmap3.build_results_index sort_values
                    (g3_table false true false g3_quarter))
         ≫= fun rec => Some (map Genmap3.pct (Genmap3.breakdown rec)))
      = Some [None]) /\
  (forall df g d b pkey info,
      GenerateMap.group_record df g = Ok (d, b, pkey, info) ->
      Forall (fun e =>
                GenerateMap.pct e =
                  if 0 <? GenerateMap.total_valid info
                  then round2 (inject_Z (100 * GenerateMap.votes e)
                               / inject_Z (GenerateMap.total_valid info))
                  else 0%Q)
        (GenerateMap.rows info)).
Proof.
  split; [|split].
  - intros sort_values df grp p s rec. apply g3_pct_cases.
  - intros sort_values Hc.
    rewrite (g3_one_row_table sort_values
               (g3_table true true true g3_quarter) _ Hc eq_refl).
    rewrite (g3_one_row_table sort_values
               (g3_table true true true g3_no_valid) _ Hc eq_refl).
    rewrite (g3_one_row_table sort_values
               (g3_table false true false g3_quarter) _ Hc eq_refl).
    repeat split; vm_compute; reflexivity.
  - intros df g d b pkey info H.
    apply group_record_inv in H
      as (entries & r & g' & -> & _ & _ & _ & Hent & Hrows & _).
    rewrite Hrows. apply mapM_Ok_inv in Hent.
    apply List.Forall_forall. intros e He.
    eapply Permutation_in in He; [|apply stable_sort_perm].
    destruct (Forall2_In_r _ _ _ _ Hent He) as (r' & _ & Hr).
    exact (gm_pct_rule _ _ _ Hr).
Qed.

Lemma pct_denominator_witness :
  exists rec,
    Genmap3.group_record stable_sorter (g3_table true true true g3_no_valid)
      (g3_prepared g3_no_valid) = Ok ("0.00", "011-037", rec) /\
    Genmap3.usable (Some (Finite 0)) = false /\
    Forall (fun e => Genmap3.pct e = Some (Finite 20)) (Genmap3.breakdown rec).
Proof.
  eexists. split; [vm_compute; reflexivity|].
  split; [reflexivity|].
  match goal with
  | |- Forall _ (Genmap3.breakdown ?r) =>
      pose proof (proj1 pct_denominator stable_sorter
                    (g3_table true true true g3_no_valid)
                    (g3_prepared g3_no_valid) "0.00" "011-037" r) as H
  end.
  simpl in H. specialize (H ltac:(vm_compute; reflexivity)).
  inversion H as [|e l (_ & H2 & _) _]; subst.
  pose proof (H2 (Finite 50) eq_refl eq_refl eq_refl) as Hp.
  constructor; [exact Hp|constructor].
Defined.

(** C4, as stated, fails for [generate_map]: with 0 valid votes and 50
    votes in all, 10 votes give 0 and not 20; with neither column, the valid
    votes are made up from the votes and 10 votes give 100. *)
Lemma pct_generate_map_no_fallback :
  (gm_lookup (GenerateMap.build_results_index
                (gm_table true true true gm_no_valid) None)
     ≫= fun info => Some (map GenerateMap.pct (GenerateMap.rows info)))
  = Some [0%Q] /\
  (gm_lookup (GenerateMap.build_results_index
                (gm_table false true false gm_no_valid) None)
     ≫= fun info => Some (map GenerateMap.pct (GenerateMap.rows info)))
  = Some [100%Q].
Proof.
  split; vm_compute; reflexivity.
Qed.




(** C6, as amended.  The two normalisers are total; on a value whose text
    is ASCII and holds no digit, such as [None] or a text of letters,
    [norm_digits] gives the empty text and [norm_bureau3] gives 000.
    [build_results_index] of [genmap3] raises nothing on a table in which
    every district holds a finite number and every cell of the votes and of
    the totals is missing, is a text that holds a character of no number,
    or holds a finite number: votes and totals that are missing or not
    numbers are accepted.  [generate_map] converts the votes with [int] as
    they are: [build_results_index] raises when the votes of a row are
    missing or are a text that holds a character of no integer. *)
Theorem raising_policy (sort_values : sorter)
    (Hsort : conforming sort_values) :
  (forall x,
      ascii_text (py_str x) = true ->
      no_digit_text (py_str x) = true ->
      GenerateMap.norm_digits x = "" /\ GenerateMap.norm_bureau3 x = "000") /\
  (GenerateMap.norm_digits VNone = "" /\
   GenerateMap.norm_digits (VStr "abc") = "" /\
   GenerateMap.norm_bureau3 VNone = "000" /\
   GenerateMap.norm_bureau3 (VStr "abc") = "000") /\
  (forall df,
      Forall g3_plain_row (Genmap3.Csv.rows df) ->
      exists index, Genmap3.build_results_index sort_values df = Ok index) /\
  (forall df only_poste r,
      In r (gm_rows df only_poste) ->
      pd_isna (GenerateMap.Votes (GenerateMap.row r)) = true \/
      (exists s, GenerateMap.Votes (GenerateMap.row r) = VStr s /\
                 no_integer_text s = true) ->
      exists e, GenerateMap.build_results_index df only_poste = Raise e).
Proof.
  split.
  { intros x _ H. apply normalisers_no_digit. by apply no_digit_text_sub. }
  split; [repeat split|].
  split.
  - intros df H. apply g3_build_results_index_ok; [done|].
    eapply List.Forall_impl; [|exact H]. exact g3_plain_row_readable.
  - intros df only_poste r Hr Hv.
    destruct (GenerateMap.build_results_index df only_poste) as [index|e]
      eqn:E; [|by exists e].
    exfalso.
    destruct (gm_row_entry df only_poste index r E Hr) as (tv & e & He).
    destruct (gm_make_entry_raises tv r) as [Hna Htext].
    destruct Hv as [Hv|(s & Hs & Hno)].
    + destruct (Hna Hv) as [e' He']. congruence.
    + rewrite (Htext s Hs (int_of_string_no_integer s Hno)) in He.
      discriminate.
Qed.

Lemma raising_policy_witness :
  conforming stable_sorter /\
  Forall g3_plain_row (Genmap3.Csv.rows (g3_table true true true g3_odd_votes)) /\
  exists index,
    Genmap3.build_results_index stable_sorter
      (g3_table true true true g3_odd_votes) = Ok index.
Proof.
  split; [exact stable_sorter_conforming|].
  assert (Hn : forall z : Z, plain_cell (VInt z)).
  { intros z. right. exists (inject_Z z). reflexivity. }
  assert (H : Forall g3_plain_row
                (Genmap3.Csv.rows (g3_table true true true g3_odd_votes))).
  { assert (Hrow : forall c p v,
              plain_cell v -> g3_plain_row (g3_row c p v (VInt 50) (VInt 51))).
    { intros c p v Hv. split; [exists 11%Q; reflexivity|].
      split; [exact Hv|]. split; [apply Hn|]. split; apply Hn. }
    constructor; [apply Hrow; left; reflexivity|].
    constructor; [apply Hrow; left; reflexivity|].
    constructor; [|constructor].
    apply Hrow. right. exists (-5)%Q. split; reflexivity. }
  split; [exact H|].
  destruct (raising_policy stable_sorter stable_sorter_conforming)
    as (_ & _ & Hg3 & _).
  exact (Hg3 _ H).
Defined.

(** C6, as stated, fails: [norm_bureau3] gives 000, not an empty value, for
    a text without a digit and for [None]; [genmap3] raises on a district
    that is not a number; [generate_map] raises on missing votes and on
    votes that are not a number. *)
Lemma raises_on_malformed_cells :
  GenerateMap.norm_bureau3 (VStr "abc") = "000" /\
  GenerateMap.norm_bureau3 VNone = "000" /\
  Genmap3.build_results_index stable_sorter
    (g3_table true true true g3_bad_district) = Raise IntCastingNaNError /\
  GenerateMap.build_results_index
    (gm_table true true true gm_missing_votes) None = Raise ValueError /\
  GenerateMap.build_results_index
    (gm_table true true true gm_text_votes) None = Raise ValueError.
Proof.
  repeat split; vm_compute; reflexivity.
Qed.

(** C7, as amended.  In a record of [genmap3] each of the three totals is
    [None] exactly when its column is absent or holds no number in the
    group, and is otherwise the integer of a cell of the group; [pct] is
    [None] for every entry when neither the valid votes nor the total give
    a base.  [generate_map] stores numbers throughout instead. *)
Theorem absent_totals_are_none :
  forall sort_values df grp p s rec,
    Genmap3.group_record sort_values df grp = Ok (p, s, rec) ->
    none_or_source (Genmap3.Csv.has_TotalValidVotes df)
      Genmap3.TotalValidVotes grp (Genmap3.total_valid rec) /\
    none_or_source (Genmap3.Csv.has_TotalRejectedVotes df)
      Genmap3.TotalRejectedVotes grp (Genmap3.total_rejected rec) /\
    none_or_source (Genmap3.Csv.has_TotalVotes df)
      Genmap3.TotalVotes grp (Genmap3.total_votes rec) /\
    (Genmap3.usable
       (Genmap3.group_max (Genmap3.Csv.has_TotalValidVotes df)
          Genmap3.TotalValidVotes grp) = false ->
     Genmap3.usable
       (Genmap3.group_max (Genmap3.Csv.has_TotalVotes df)
          Genmap3.TotalVotes grp) = false ->
     Forall (fun e => Genmap3.pct e = None) (Genmap3.breakdown rec)).
Proof.
  intros sort_values df grp p s rec H.
  pose proof (g3_pct_cases sort_values df grp p s rec H) as Hpct.
  apply g3_group_record_inv in H
    as (w & first & rest & _ & _ & _ & _ & _ & _ & Htv & Htr & Htt & _).
  split; [by apply g3_total_field|].
  split; [by apply g3_total_field|].
  split; [by apply g3_total_field|].
  intros Hu Hu'. simpl in Hpct.
  eapply Forall_impl; [exact Hpct|]. simpl. intros e (_ & _ & He). auto.
Qed.

Lemma absent_totals_are_none_witness :
  exists rec,
    Genmap3.group_record stable_sorter (g3_table false true false g3_two)
      (g3_prepared g3_two) = Ok ("0.00", "011-037", rec) /\
    Genmap3.total_valid rec = None /\
    Genmap3.total_rejected rec = Some 0 /\
    Forall (fun e => Genmap3.pct e = None) (Genmap3.breakdown rec).
Proof.
  eexists. split; [vm_compute; reflexivity|].
  match goal with
  | |- Genmap3.total_valid ?r = _ /\ _ =>
      destruct (absent_totals_are_none stable_sorter
                  (g3_table false true false g3_two) (g3_prepared g3_two)
                  "0.00" "011-037" r)
        as ((Hv & _) & _ & _ & Hp); [vm_compute; reflexivity|]
  end.
  split; [apply Hv; by left|].
  split; [reflexivity|].
  apply Hp; reflexivity.
Defined.

(** C7, as stated, fails for [generate_map]: without the three total
    columns the record holds 0 rejected votes and totals made up from the
    votes; and with 0 valid votes the percentage is 0. *)
Lemma generate_map_stores_substitutes :
  (gm_lookup (GenerateMap.build_results_index
                (gm_table false false false gm_two) None)
     ≫= fun info =>
          Some (GenerateMap.total_valid info, GenerateMap.rejected info,
                GenerateMap.total info))
  = Some (50, 0, 50) /\
  (gm_lookup (GenerateMap.build_results_index
                (gm_table true true true gm_no_valid) None)
     ≫= fun info => Some (map GenerateMap.pct (GenerateMap.rows info)))
  = Some [0%Q].
Proof.
  split; vm_compute; reflexivity.
Qed.




(** C9. The table without rows gives the empty index and no exception, in
    [genmap3] and in [generate_map]. *)
Theorem empty_table_empty_index :
  (forall sort_values valid rejected all,
      Genmap3.build_results_index sort_values (g3_table valid rejected all [])
      = Ok ∅) /\
  (forall valid rejected all only_poste,
      GenerateMap.build_results_index (gm_table valid rejected all []) only_poste
      = Ok ∅).
Proof.
  split.
  - done.
  - intros valid rejected all [[|? ?]|]; done.
Qed.




End Claims.
